(* ===== verification/_CoqProject ===== *)
-Q . S2P
Prelude.v
JsValue.v
Runtime.v
Table.v
ChatData.v
Dispatch.v
Chat.v
Interface.v
ChatSpec.v
LoginPage.v
CallbackPage.v
Pages.v
