(* ===== verification/Prelude.v ===== *)
(** * A verification development of the property chatbot (simplechatbot)

    ** The program
    A Next.js application with three parts that hold logic:
    - the route [POST /api/chat] ([src/src/app/api/chat/route.ts]): it
      authenticates the caller, validates the JSON body, stores the
      user's message (best effort), asks an LLM to classify the message,
      dispatches on the intent to the query executor, renders the page of
      results as a markdown table ([formatPropertiesTable]), stores the
      assistant's message with pagination metadata and answers JSON;
    - the login page ([src/src/app/auth/login/page.tsx]): a form with six
      pieces of React state whose async handlers sign in, sign up, and
      check the session on mount;
    - the e-mail callback page ([src/src/app/auth/callback/page.tsx]):
      one effect that redirects to [/chat] or [/auth/login].
    The pages and the route interact only through the identity provider
    and through URLs: sign-up sends the confirmation link to
    [/auth/callback], the callback and the login page redirect to
    [/chat], whose requests reach the route.

    ** The files
    - [Prelude] (this file): string helpers with the JavaScript meaning of
      [join], [trim], [replace(/_/g, " ")], decimal printing of integers,
      [map_option], the [chat_scope] notations' scope, the [chat] hint
      databases and the tactics [inv], [crush].
    - [JsValue]: the [any]-typed values of the route as JSON values
      ([jsval]) with the operations the route applies to them:
      truthiness, [||], property access (a [TypeError] on [null] and
      [undefined]), [?.[0]], [===], template-literal [ToString], [+], [<];
      [ToNumber] of a string ([string_to_numeric]) reads the
      StringNumericLiteral grammar exactly into [jsreal].
    - [Runtime]: the monad [M S A = S -> outcome A * S] of async code: a
      state threaded through, a result or a thrown exception ([TypeError]
      or a rejected promise), [try_catch], [await], the [ensures]
      postcondition logic (with rules that remember the value an [await]
      or an insert produced, and the tactic [ensures_split_with]) and the
      [preserves] state-invariant logic.
    - [Table] (Module [Table]): [formatPropertiesTable] as written
      (map, then forEach appending), a per-record rendering it equals,
      and a parser of the markdown it inverts.
    - [ChatData] (Module [ChatData]): the records of the route (rows,
      metadata, responses), the world [World] (the [messages] table and
      the server log), and the class [Backend] of the collaborators the
      route imports from files that are not among the sources (Supabase,
      schema provider, Groq parser, query executor): each is the answer
      its promise settles to, and every theorem stated for an arbitrary
      [Backend] holds whatever they answer.  [insert_message] and
      [console_error] are the two effects on the world.
    - [Dispatch] (Module [Dispatch]): the [if]/[else if] chain on the
      intent ([dispatch]), one definition per branch; the handlers read no
      state and return an [outcome].
    - [Chat] (Module [Chat]): [POST_body] (the body of the [try]) and
      [POST]; a [Turn] record names the values one turn computes, and
      [turn_answers] says the collaborators answer them.
    - [Interface] (Module [Interface]): the status and JSON body each
      [NextResponse.json] sends ([response_json], with the stored record
      [row_json] and its [metadata_json]), a small language of JSON types
      ([jtype], [has_type], a nested fixpoint) and the types of the
      spec's interface ([ok_type], [error_type]).
    - [ChatSpec] (Module [ChatSpec]): a typed specification of a turn.
      [TypedBackend] holds typed answers, [spec_turn] the answer, stored
      messages and log lines the spec prescribes, and [encode] the JSON
      backend the route sees; no definition of this file models code.
    - [LoginPage] (Module [Login], stdpp): the page as a transition
      system.  [LoginState] holds the six [useState] values, the requests
      in flight and the [router.push] calls; each handler is split at its
      [await] into a start ([handleLogin], [handleSignUp], [mount]) and a
      settle event ([login_settled], [signup_settled],
      [checkUser_settled]), and requests settle in any order.
      [step_event] is one event, [step] and [reachable] the relations;
      [render] is the state-dependent part of the JSX.  The browser's
      [decodeURIComponent], e-mail check and origin form the class
      [Browser].
    - [CallbackPage] (Module [Callback]): [handleAuthCallback] in the
      [Runtime] monad over a trace of effects; timers fire after the
      handler, by increasing delay.
    - [Pages] (Module [App], stdpp): the two pages linked as the browser
      runs them.  [route_of] is Next.js's file routing (the login page
      gets its [error] parameter, the callback page its
      [window.location.hash]); [app_step] runs an event of the page at
      the current URL, and a [router.push] leaves the page
      ([login_after]), its requests in flight becoming orphans that the
      provider still answers; an effect that throws crashes the page
      ([crash]); a sign-up that returns a user makes the provider mail
      its [emailRedirectTo] ([signup_mail]), which the user may open
      with any fragment.  [Suspense], [LoginPage], [AuthCallbackPage]
      and [AuthCallbackContent] are the JSX around the pages' content.

    ** The theorems
    - Route: every error answer (401, 400, 500 on the assistant insert,
      500 on a throw, 500 on a body that is not JSON) with the exact
      writes it leaves; the success turn's
      two rows and answer; the swallowed user-insert failure; that [POST]
      always answers one of its five responses ([ensures]); that every
      run keeps the messages table well formed ([preserves], an invariant
      of the world); and what the code does on inputs the spec does not
      foresee (a string or negative offset, a typed owner result without
      a name, a non-string aggregation kind).
    - Interface ([Interface]): when the request's [offset] is absent or
      an integer, every answer of [POST], whatever the collaborators
      answer, has a status of the interface and a JSON body of its type.
    - Refinement ([ChatSpec]): on typed collaborators, [POST] gives the
      answer, stores the messages and logs the lines of [spec_turn],
      proved through [dispatch_enc] (each intent handler computes the
      typed reply) and the table's per-record rendering.
    - Intent handlers: each branch's text, records and [hasMore], the
      spec's pagination examples, and the bound of five records a page
      carries when the executor honours its limit.
    - Table: for JSON records the staged code equals the rendering
      written out (the literal header and separator, the keys in order,
      "-" for a falsy field); the cell rules; a [null] record throws; and
      the parse/print round trip.
    - Login page: in every reachable state [loading] is true exactly when
      one sign-in or sign-up request is in flight (rule induction on
      [reachable]), so the button is disabled and reads "Loading..."
      exactly then; the page only navigates to [/chat]; every settle
      branch; every reachable state can settle back to an idle form, and
      every run of settle events without user input ends after at most
      as many events as requests were in flight (termination of the
      continuations), after which nothing is in flight and [loading] is
      false; a failed login keeps any success banner next to its error.
    - Callback page: a fragment always leads to [/chat]; otherwise
      [/chat] exactly when a user exists; the error route is never used.
    - Linked pages ([Pages]), by rule induction on [app_reachable] with
      the invariant [app_inv]: every URL the app navigates to is
      [/chat], [/auth/login] without parameters or the callback page;
      every mailed link is this origin's [/auth/callback], so the login
      page holds a URL error only at the URL the user opened; opening a
      confirmation link with a fragment shows "Verifying your email..."
      and then lands on [/chat], whatever the session; a login URL
      whose [error] parameter [decodeURIComponent] rejects crashes the
      page on mount, before its session check.

    ** Bounds and what is not modelled
    All definitions are structural recursions: no fuel is needed, and
    every function of the model is total and evaluates by [vm_compute].
    Numbers are unbounded integers or [NaN]: the route's numbers (offsets,
    counts, lengths) are integers, exact as doubles below 2^53; an offset
    beyond that, where [offset + 5] rounds in JavaScript, is outside the
    model.  A numeric string converts exactly, without the rounding to
    the nearest double (which matters only beyond 15 significant
    digits).  Strings are ASCII.  Not modelled: the Supabase client factories and the library code outside the sources,
    which enter only through [Backend] and [Browser]; the LLM's
    behaviour; the query executor's filtering; the markup and styling of
    the JSX, which hold no state; the chat page, which is not among the
    sources (the app stops at [/chat]); the percent-decoding of
    [URLSearchParams], so a parameter reaches the page as written. *)

From Stdlib Require Import String Ascii List Bool ZArith Lia DecimalString DecimalZ.
Import ListNotations.

Declare Scope chat_scope.
Delimit Scope chat_scope with chat.

Create HintDb chat discriminated.
Create Rewrite HintDb chat_rw.

(** ** JavaScript strings, restricted to ASCII *)

Local Open Scope string_scope.

(** The one-character string. *)
Definition str1 (a : ascii) : string := String a EmptyString.

Definition nl : string := str1 "010".

(** [Array.prototype.join] on an array of strings: [String.concat] puts
    [sep] between consecutive elements, exactly as JavaScript does. *)
Definition js_join (sep : string) (l : list string) : string := String.concat sep l.

(** [s.split(c)] for a one-character separator [c]; [""] splits to [[""]]. *)
Fixpoint split_on (c : ascii) (s : string) : list string :=
  match s with
  | EmptyString => [EmptyString]
  | String a s' =>
      if Ascii.eqb a c then EmptyString :: split_on c s'
      else match split_on c s' with
           | [] => [str1 a]
           | x :: xs => String a x :: xs
           end
  end.

Fixpoint has_char (c : ascii) (s : string) : bool :=
  match s with
  | EmptyString => false
  | String a s' => Ascii.eqb a c || has_char c s'
  end.

(** The white space that [String.prototype.trim] removes, restricted to
    ASCII: TAB, LF, VT, FF, CR and SPACE. *)
Definition is_ws (a : ascii) : bool :=
  let n := nat_of_ascii a in
  (Nat.eqb n 32 || (9 <=? n) && (n <=? 13))%nat.

Fixpoint trim_start (s : string) : string :=
  match s with
  | EmptyString => EmptyString
  | String a s' => if is_ws a then trim_start s' else s
  end.

Fixpoint trim_end (s : string) : string :=
  match s with
  | EmptyString => EmptyString
  | String a s' =>
      let r := trim_end s' in
      if is_ws a && String.eqb r EmptyString then EmptyString else String a r
  end.

(** [s.trim()]. *)
Definition js_trim (s : string) : string := trim_end (trim_start s).

(** [s.replace(/a/g, b)] for one-character [a] and [b]. *)
Fixpoint replace_char (a b : ascii) (s : string) : string :=
  match s with
  | EmptyString => EmptyString
  | String x s' => String (if Ascii.eqb x a then b else x) (replace_char a b s')
  end.

(** Decimal rendering of integers, as [Number.prototype.toString] prints
    an integral number. *)
Definition string_of_Z (z : Z) : string := NilEmpty.string_of_int (Z.to_int z).
Definition string_of_nat (n : nat) : string := string_of_Z (Z.of_nat n).

(** ** Generic lemmas on these strings *)

Lemma append_nil_r (s : string) : (s ++ EmptyString)%string = s.
Proof. induction s as [|a s IH]; simpl; congruence. Qed.

Lemma append_assoc (s t u : string) : (s ++ (t ++ u))%string = ((s ++ t) ++ u)%string.
Proof. induction s as [|a s IH]; simpl; congruence. Qed.

#[export] Hint Rewrite append_nil_r : chat_rw.

(** The split is a left inverse of the join as long as no part contains
    the separator. *)
Lemma split_on_app_sep (c : ascii) (x s : string) :
  has_char c x = false ->
  split_on c (x ++ String c s) = x :: split_on c s.
Proof.
  induction x as [|a x IH]; simpl; intros Hx.
  - now rewrite Ascii.eqb_refl.
  - apply orb_false_iff in Hx as [Ha Hx]. rewrite Ha, IH by easy. easy.
Qed.

Lemma split_on_no_sep (c : ascii) (x : string) :
  has_char c x = false -> split_on c x = [x].
Proof.
  induction x as [|a x IH]; simpl; intros Hx; [easy|].
  apply orb_false_iff in Hx as [Ha Hx]. now rewrite Ha, IH.
Qed.

Lemma split_on_join (c : ascii) (l : list string) :
  l <> [] -> Forall (fun x => has_char c x = false) l ->
  split_on c (js_join (str1 c) l) = l.
Proof.
  unfold js_join. induction l as [|x l IH]; intros Hne Hall; [easy|].
  inversion Hall as [|? ? Hx Hl]; subst.
  destruct l as [|y l].
  - now apply split_on_no_sep.
  - change (String.concat (str1 c) (x :: y :: l))
      with (x ++ String c (String.concat (str1 c) (y :: l)))%string.
    rewrite split_on_app_sep by easy. f_equal. now apply IH.
Qed.

(** The concatenation of [table += line] steps. *)
Definition str_concat (l : list string) : string := fold_right String.append EmptyString l.

Lemma join_cons2 (sep x y : string) (l : list string) :
  js_join sep (x :: y :: l) = (x ++ sep ++ js_join sep (y :: l))%string.
Proof. reflexivity. Qed.

Lemma join_snoc (sep x : string) (l : list string) :
  l <> [] -> js_join sep (l ++ [x]) = (js_join sep l ++ sep ++ x)%string.
Proof.
  induction l as [|y ys IH]; intros Hne; [easy|].
  destruct ys as [|z zs]; [reflexivity|].
  cbn [app]. rewrite !join_cons2.
  change (js_join sep (z :: (zs ++ [x])%list)) with (js_join sep ((z :: zs) ++ [x])%list).
  rewrite IH by easy. now rewrite <- !append_assoc.
Qed.

(** A join whose last part is empty: every part ends with the separator. *)
Lemma join_snoc_empty (sep : string) (l : list string) :
  js_join sep (l ++ [EmptyString]) = str_concat (map (fun x => x ++ sep) l)%string.
Proof.
  induction l as [|x xs IH]; [easy|].
  destruct xs as [|y ys]; [simpl; now rewrite !append_nil_r|].
  change ((x :: y :: ys) ++ [EmptyString])%list with (x :: y :: (ys ++ [EmptyString]))%list.
  rewrite join_cons2. change (y :: (ys ++ [EmptyString]))%list with ((y :: ys) ++ [EmptyString])%list.
  rewrite IH. simpl. now rewrite append_assoc.
Qed.

Lemma has_char_app (c : ascii) (s t : string) :
  has_char c (s ++ t) = has_char c s || has_char c t.
Proof. induction s as [|a s IH]; simpl; [easy | now rewrite IH, orb_assoc]. Qed.

Lemma append_eq_empty_r (s t : string) : (s ++ t)%string = EmptyString -> t = EmptyString.
Proof. destruct s; simpl; [easy | discriminate]. Qed.

Lemma has_char_join (c : ascii) (sep : string) (l : list string) :
  has_char c sep = false -> Forall (fun x => has_char c x = false) l ->
  has_char c (js_join sep l) = false.
Proof.
  intros Hsep Hl. induction Hl as [|x xs Hx Hxs IH]; [easy|].
  destruct xs as [|y ys]; [easy|].
  rewrite join_cons2, !has_char_app, Hx, Hsep, IH. reflexivity.
Qed.

Lemma join_contains (sep x : string) (l : list string) :
  In x l -> exists pre post, js_join sep l = (pre ++ x ++ post)%string.
Proof.
  induction l as [|y ys IH]; [easy|]. intros [<- | Hin].
  - destruct ys as [|z zs]; [exists EmptyString, EmptyString; simpl; now rewrite append_nil_r|].
    exists EmptyString, (sep ++ js_join sep (z :: zs))%string. reflexivity.
  - destruct ys as [|z zs]; [easy|]. destruct (IH Hin) as (pre & post & E).
    exists (y ++ sep ++ pre)%string, post. rewrite join_cons2, E, <- !append_assoc. reflexivity.
Qed.

(** Trimming. *)
Lemma trim_start_non_ws (a : ascii) (s : string) :
  is_ws a = false -> trim_start (String a s) = String a s.
Proof. simpl. now intros ->. Qed.

Lemma trim_end_nonempty_app (s t : string) :
  trim_end t <> EmptyString -> trim_end (s ++ t) = (s ++ trim_end t)%string.
Proof.
  intros Ht. induction s as [|a s IH]; simpl; [easy|].
  rewrite IH. destruct (s ++ trim_end t)%string eqn:E.
  - now apply append_eq_empty_r in E.
  - now rewrite andb_false_r.
Qed.

Lemma trim_end_ws (a : ascii) (s : string) :
  is_ws a = true -> trim_end s = EmptyString -> trim_end (String a s) = EmptyString.
Proof. simpl. intros -> ->. easy. Qed.

Lemma trim_end_last_non_ws (s : string) (a : ascii) :
  is_ws a = false -> trim_end (s ++ str1 a) = (s ++ str1 a)%string.
Proof.
  intros Ha. rewrite trim_end_nonempty_app; simpl; rewrite Ha; easy.
Qed.

(** Decimal rendering round trips through the Standard Library's parser. *)
Lemma int_of_string_of_Z (z : Z) :
  NilEmpty.int_of_string (string_of_Z z) = Some (Z.to_int z).
Proof. apply NilEmpty.isi. Qed.

(** ** Options *)

Notation "x <-? c ;; k" := (match c with Some x => k | None => None end)
  (at level 62, c at next level, right associativity) : chat_scope.

(** [traverse] in the option monad: every element must succeed. *)
Fixpoint map_option {A B} (f : A -> option B) (l : list A) : option (list B) :=
  match l with
  | [] => Some []
  | x :: xs =>
      match f x, map_option f xs with
      | Some y, Some ys => Some (y :: ys)
      | _, _ => None
      end
  end.

Lemma map_option_length {A B} (f : A -> option B) (l : list A) (l' : list B) :
  map_option f l = Some l' -> length l' = length l.
Proof.
  revert l'. induction l as [|x xs IH]; simpl; intros l' H.
  - now injection H as <-.
  - destruct (f x), (map_option f xs) as [ys|] eqn:E; try discriminate.
    injection H as <-. simpl. now rewrite (IH ys).
Qed.

Lemma map_option_none {A B} (f : A -> option B) (l : list A) (x : A) :
  In x l -> f x = None -> map_option f l = None.
Proof.
  induction l as [|y ys IH]; simpl; [easy|]. intros [<- | Hin] Hx.
  - now rewrite Hx.
  - rewrite (IH Hin Hx). now destruct (f y).
Qed.

Lemma map_option_ext_Some {A B} (f : A -> option B) (g : A -> B) (l : list A) :
  (forall x, In x l -> f x = Some (g x)) -> map_option f l = Some (map g l).
Proof.
  induction l as [|x xs IH]; simpl; intros H; [easy|].
  rewrite H by now left. rewrite IH by (intros; apply H; now right). reflexivity.
Qed.

Lemma map_option_map {A B C} (f : A -> option B) (h : B -> C) (l : list A) :
  map_option (fun x => option_map h (f x)) l = option_map (map h) (map_option f l).
Proof.
  induction l as [|x xs IH]; simpl; [easy|]. rewrite IH.
  now destruct (f x), (map_option f xs).
Qed.

Lemma map_option_bind {A B C} (f : A -> option (list B)) (g : B -> option C) (l : list A) :
  map_option (fun x => match f x with Some y => map_option g y | None => None end) l =
  match map_option f l with Some ys => map_option (map_option g) ys | None => None end.
Proof.
  induction l as [|x xs IH]; simpl; [easy|]. rewrite IH.
  destruct (f x) as [y|]; [|easy].
  destruct (map_option f xs) as [ys|]; simpl; destruct (map_option g y); try easy.
Qed.

Lemma map_option_inverse {A B} (f : A -> option B) (g : B -> A) (l : list B) :
  (forall y, In y l -> f (g y) = Some y) -> map_option f (map g l) = Some l.
Proof.
  induction l as [|y ys IH]; simpl; intros H; [easy|].
  rewrite H by now left. rewrite IH by (intros; apply H; now right). reflexivity.
Qed.

Lemma map_option_map_l {A B C} (f : B -> option C) (g : A -> B) (l : list A) :
  map_option f (map g l) = map_option (fun x => f (g x)) l.
Proof. induction l as [|x xs IH]; simpl; [easy|]. now rewrite IH. Qed.

Lemma map_option_ext {A B} (f g : A -> option B) (l : list A) :
  (forall x, f x = g x) -> map_option f l = map_option g l.
Proof. intros H. induction l as [|x xs IH]; simpl; [easy|]. now rewrite H, IH. Qed.

Lemma map_option_Forall {A B} (f : A -> option B) (P : B -> Prop) (l : list A) (l' : list B) :
  (forall x y, f x = Some y -> P y) -> map_option f l = Some l' -> Forall P l'.
Proof.
  intros HP. revert l'. induction l as [|x xs IH]; simpl; intros l' H.
  - injection H as <-. constructor.
  - destruct (f x) eqn:Ex, (map_option f xs) eqn:Exs; try discriminate.
    injection H as <-. constructor; eauto.
Qed.

(** ** Tactics shared by the development *)

Ltac inv H := inversion H; subst; clear H.

(** Close goals whose definitions compute away. *)
Ltac crush := repeat (simpl in *; autorewrite with chat_rw in *); try easy; try lia.
