(* ===== verification/JsValue.v ===== *)
(** * JsValue: the JavaScript values the chat route manipulates

    The route handler of [src/src/app/api/chat/route.ts] works on values of
    TypeScript type [any]: the JSON request body, the parsed query of the
    language model, the rows of the query executor, the aggregation result.
    This file models them as [jsval] and gives the operations of the
    language the route applies to them: truthiness ([!x], [x || y]),
    property access ([x.f], [x?.[0]]), strict equality with a string
    literal, template-literal conversion ([ToString]), [+] and [<].

    The numbers of JSON values are integers ([Z]) or [NaN]; strings are
    ASCII.  [ToNumber] of a string ([string_to_numeric]) follows the
    grammar of ECMAScript's StringNumericLiteral (signs, fractions,
    exponents, [Infinity], [0x]/[0o]/[0b] literals) and keeps the value
    exactly ([jsreal]), so [<] compares a numeric string with a number as
    JavaScript does, except that the decimal is not rounded to the
    nearest double (a difference only for literals of more than 15
    significant digits, as for integers beyond 2^53).  Inherited
    prototype properties are not modelled: no key the route reads names
    one. *)

From Stdlib Require Import String Ascii List Bool ZArith Lia DecimalString DecimalZ DecimalPos.
From S2P Require Import Prelude.
Import ListNotations.
Local Open Scope string_scope.

Local Set Warnings "-register-all".

Inductive jsnum : Type :=
| NFin (z : Z)
| NNaN.

Inductive jsval : Type :=
| JUndefined
| JNull
| JBool (b : bool)
| JNum (n : jsnum)
| JStr (s : string)
| JArr (items : list jsval)
| JObj (fields : list (string * jsval)).

Definition JInt (z : Z) : jsval := JNum (NFin z).

(** ** Truthiness: [ToBoolean] *)

Definition to_boolean (v : jsval) : bool :=
  match v with
  | JUndefined | JNull => false
  | JBool b => b
  | JNum (NFin z) => negb (Z.eqb z 0)
  | JNum NNaN => false
  | JStr s => negb (String.eqb s EmptyString)
  | JArr _ | JObj _ => true
  end.

(** [a || b] returns [a] itself when it is truthy. *)
Definition js_or (a b : jsval) : jsval := if to_boolean a then a else b.

(** [v === "lit"] for a string literal. *)
Definition strict_eq_str (v : jsval) (lit : string) : bool :=
  match v with JStr s => String.eqb s lit | _ => false end.

(** ** Property access *)

(** [JSON.parse] keeps the last of duplicate keys. *)
Fixpoint assoc_last (key : string) (fields : list (string * jsval)) : option jsval :=
  match fields with
  | [] => None
  | (k, v) :: rest =>
      match assoc_last key rest with
      | Some w => Some w
      | None => if String.eqb k key then Some v else None
      end
  end.

(** The array index a property key denotes: a canonical decimal numeral. *)
Definition index_key (key : string) : option nat :=
  match NilEmpty.uint_of_string key with
  | Some d =>
      let n := Nat.of_uint d in
      if String.eqb (string_of_nat n) key then Some n else None
  | None => None
  end.

(** [v.key] and [v[key]]; [None] is the [TypeError] thrown on
    [undefined] and [null]. *)
Definition js_get (v : jsval) (key : string) : option jsval :=
  match v with
  | JUndefined | JNull => None
  | JObj fields => Some (match assoc_last key fields with Some w => w | None => JUndefined end)
  | JArr items =>
      if String.eqb key "length" then Some (JInt (Z.of_nat (List.length items)))
      else match index_key key with
           | Some n => Some (nth n items JUndefined)
           | None => Some JUndefined
           end
  | JStr s =>
      if String.eqb key "length" then Some (JInt (Z.of_nat (String.length s)))
      else match index_key key with
           | Some n => Some (match String.get n s with Some a => JStr (str1 a) | None => JUndefined end)
           | None => Some JUndefined
           end
  | JBool _ | JNum _ => Some JUndefined
  end.

(** [v?.[0]]: short-circuits to [undefined] on [undefined] and [null]. *)
Definition js_opt_index0 (v : jsval) : option jsval :=
  match v with
  | JUndefined | JNull => Some JUndefined
  | _ => js_get v "0"
  end.

(** ** Conversions *)

Definition num_to_string (n : jsnum) : string :=
  match n with NFin z => string_of_Z z | NNaN => "NaN" end.

Definition has_key (key : string) (fields : list (string * jsval)) : bool :=
  existsb (fun kv => String.eqb (fst kv) key) fields.

(** [ToString]; [None] is the [TypeError] of an object whose own
    [toString] property (a JSON value, never callable) hides
    [Object.prototype.toString].  Arrays convert by [join(",")], with
    [undefined] and [null] elements as the empty string. *)
Fixpoint to_string (v : jsval) : option string :=
  match v with
  | JUndefined => Some "undefined"
  | JNull => Some "null"
  | JBool b => Some (if b then "true" else "false")
  | JNum n => Some (num_to_string n)
  | JStr s => Some s
  | JArr items =>
      let fix elems (l : list jsval) : option (list string) :=
        match l with
        | [] => Some []
        | x :: xs =>
            match (match x with
                   | JUndefined | JNull => Some EmptyString
                   | _ => to_string x
                   end), elems xs with
            | Some s, Some ss => Some (s :: ss)
            | _, _ => None
            end
        end in
      option_map (js_join ",") (elems items)
  | JObj fields => if has_key "toString" fields then None else Some "[object Object]"
  end.

(** [ToPrimitive]: arrays and objects become their string. *)
Definition to_primitive (v : jsval) : option jsval :=
  match v with
  | JArr _ | JObj _ => option_map JStr (to_string v)
  | _ => Some v
  end.

(** The value [ToNumber] gives, read exactly: a finite [num / 10 ^ scale],
    an infinity ([RInf true] is negative), or [NaN]. *)
Inductive jsreal : Type :=
| RFin (num : Z) (scale : nat)
| RInf (neg : bool)
| RNaN.

Local Open Scope Z_scope.

(** The value of a digit in [base] (2, 8, 10 or 16; letters in either case). *)
Definition digit_value (base : Z) (a : ascii) : option Z :=
  let n := Z.of_nat (nat_of_ascii a) in
  let d := if (48 <=? n) && (n <=? 57) then Some (n - 48)
           else if (97 <=? n) && (n <=? 102) then Some (n - 87)
           else if (65 <=? n) && (n <=? 70) then Some (n - 55)
           else None in
  match d with Some v => if v <? base then Some v else None | None => None end.

(** The longest run of digits in [base] at the head of [s], accumulated
    onto [acc]: the value, the number of digits read, the rest. *)
Fixpoint read_digits (base : Z) (s : string) (acc : Z) (n : nat) : Z * nat * string :=
  match s with
  | EmptyString => (acc, n, EmptyString)
  | String a s' =>
      match digit_value base a with
      | Some d => read_digits base s' (acc * base + d) (S n)
      | None => (acc, n, s)
      end
  end.

(** [DecimalDigits] (at least one) that end the input. *)
Definition all_digits (base : Z) (s : string) : option Z :=
  match read_digits base s 0 0 with
  | (v, S _, EmptyString) => Some v
  | _ => None
  end.

(** The optional [ExponentPart] that ends a [StrUnsignedDecimalLiteral]. *)
Definition exponent_part (s : string) : option Z :=
  match s with
  | EmptyString => Some 0
  | String e r =>
      if Ascii.eqb e "e" || Ascii.eqb e "E" then
        match r with
        | String g r' =>
            if Ascii.eqb g "+" then all_digits 10 r'
            else if Ascii.eqb g "-" then option_map Z.opp (all_digits 10 r')
            else all_digits 10 r
        | EmptyString => None
        end
      else None
  end.

(** [m * 10 ^ e]. *)
Definition scale10 (m e : Z) : jsreal :=
  if 0 <=? e then RFin (m * 10 ^ e) 0 else RFin m (Z.to_nat (- e)).

(** [StrUnsignedDecimalLiteral]: [Infinity], or digits with an optional
    [.] and fraction (at least one digit in all), then an optional
    exponent. *)
Definition unsigned_decimal (s : string) : option jsreal :=
  if String.eqb s "Infinity" then Some (RInf false)
  else
    let '(i, ni, r1) := read_digits 10 s 0 0 in
    let '(m, nf, r2) :=
      match r1 with
      | String a r => if Ascii.eqb a "." then read_digits 10 r i 0 else (i, 0%nat, r1)
      | EmptyString => (i, 0%nat, r1)
      end in
    if Nat.eqb (ni + nf) 0 then None
    else option_map (fun e => scale10 m (e - Z.of_nat nf)) (exponent_part r2).

(** [NonDecimalIntegerLiteral]: [0x], [0o] or [0b] (either case) and
    digits of that base; no sign. *)
Definition non_decimal (s : string) : option jsreal :=
  match s with
  | String z (String x r) =>
      if Ascii.eqb z "0" then
        let base := if Ascii.eqb x "x" || Ascii.eqb x "X" then 16
                    else if Ascii.eqb x "o" || Ascii.eqb x "O" then 8
                    else if Ascii.eqb x "b" || Ascii.eqb x "B" then 2
                    else 0 in
        if base =? 0 then None else option_map (fun v => RFin v 0) (all_digits base r)
      else None
  | _ => None
  end.

Definition negate (v : jsreal) : jsreal :=
  match v with
  | RFin m k => RFin (- m) k
  | RInf neg => RInf (negb neg)
  | RNaN => RNaN
  end.

(** [StringToNumber]: surrounding white space is dropped, the empty
    string is [0]; otherwise a [NonDecimalIntegerLiteral], or a sign and
    a [StrUnsignedDecimalLiteral]; anything else is [NaN].  The decimal
    is read exactly, without rounding it to a double. *)
Definition string_to_numeric (s : string) : jsreal :=
  match js_trim s with
  | EmptyString => RFin 0 0
  | String a r as t =>
      match non_decimal t with
      | Some v => v
      | None =>
          let '(neg, u) := if Ascii.eqb a "-" then (true, r)
                           else if Ascii.eqb a "+" then (false, r)
                           else (false, t) in
          match unsigned_decimal u with
          | Some v => if neg then negate v else v
          | None => RNaN
          end
      end
  end.

Local Close Scope Z_scope.

(** [ToNumber] on a primitive. *)
Definition to_numeric (v : jsval) : jsreal :=
  match v with
  | JUndefined => RNaN
  | JNull => RFin 0 0
  | JBool b => RFin (if b then 1 else 0) 0
  | JNum (NFin z) => RFin z 0
  | JNum NNaN => RNaN
  | JStr s => string_to_numeric s
  | JArr _ | JObj _ => RNaN
  end.

(** [IsLessThan] on two numbers: [false] when a side is [NaN]. *)
Definition real_lt (x y : jsreal) : bool :=
  match x, y with
  | RNaN, _ | _, RNaN => false
  | RInf false, _ => false
  | RInf true, RInf true => false
  | RInf true, _ => true
  | RFin _ _, RInf neg => negb neg
  | RFin a k, RFin b l => Z.ltb (a * 10 ^ Z.of_nat l) (b * 10 ^ Z.of_nat k)
  end.

Definition is_string (v : jsval) : bool := match v with JStr _ => true | _ => false end.

Definition prim_to_string (v : jsval) : string :=
  match to_string v with Some s => s | None => EmptyString end.

(** ** Operators *)

(** [a + b]: string concatenation when either primitive is a string,
    numeric addition otherwise; neither side is then a string, so both
    convert to integers or [NaN]. *)
Definition js_add (a b : jsval) : option jsval :=
  match to_primitive a, to_primitive b with
  | Some pa, Some pb =>
      if is_string pa || is_string pb then Some (JStr (prim_to_string pa ++ prim_to_string pb))
      else Some (JNum (match to_numeric pa, to_numeric pb with
                       | RFin x 0, RFin y 0 => NFin (x + y)
                       | _, _ => NNaN
                       end))
  | _, _ => None
  end.

(** [a < b]: lexicographic on two strings, numeric otherwise, [false]
    when a side is [NaN]. *)
Definition js_lt (a b : jsval) : option bool :=
  match to_primitive a, to_primitive b with
  | Some (JStr x), Some (JStr y) => Some (match String.compare x y with Lt => true | _ => false end)
  | Some pa, Some pb =>
      Some (real_lt (to_numeric pa) (to_numeric pb))
  | _, _ => None
  end.

(** [v.replace(/_/g, " ")]: only strings have the method. *)
Definition js_replace_underscores (v : jsval) : option string :=
  match v with
  | JStr s => Some (replace_char "_" " " s)
  | _ => None
  end.

(** ** Lemmas *)

(** The operators on integers and strings, as the route meets them. *)
Lemma js_add_int (x y : Z) : js_add (JInt x) (JInt y) = Some (JInt (x + y)).
Proof. reflexivity. Qed.

Lemma js_add_str_int (s : string) (y : Z) :
  js_add (JStr s) (JInt y) = Some (JStr (s ++ string_of_Z y)).
Proof. reflexivity. Qed.

Lemma js_add_null_int (y : Z) : js_add JNull (JInt y) = Some (JInt y).
Proof. reflexivity. Qed.

Lemma js_lt_int (x y : Z) : js_lt (JInt x) (JInt y) = Some (Z.ltb x y).
Proof. unfold js_lt. simpl. now rewrite !Z.mul_1_r. Qed.

Lemma js_lt_str_int (s : string) (y : Z) :
  js_lt (JStr s) (JInt y) = Some (real_lt (string_to_numeric s) (RFin y 0)).
Proof. reflexivity. Qed.

Lemma to_string_int (z : Z) : to_string (JInt z) = Some (string_of_Z z).
Proof. reflexivity. Qed.

Lemma js_or_truthy (a b : jsval) : to_boolean a = true -> js_or a b = a.
Proof. unfold js_or. now intros ->. Qed.

Lemma js_or_falsy (a b : jsval) : to_boolean a = false -> js_or a b = b.
Proof. unfold js_or. now intros ->. Qed.

Lemma to_boolean_str (s : string) : s <> EmptyString -> to_boolean (JStr s) = true.
Proof. intros H. simpl. apply String.eqb_neq in H. now rewrite H. Qed.

#[export] Hint Rewrite js_add_int js_add_str_int js_add_null_int js_lt_int js_lt_str_int
  to_string_int : chat_rw.
#[export] Hint Resolve to_boolean_str : chat.

(** Property access throws only on [undefined] and [null]. *)
Lemma js_get_truthy (v : jsval) (key : string) :
  to_boolean v = true -> exists x, js_get v key = Some x.
Proof.
  destruct v; simpl; try discriminate; intros _; eauto.
  - destruct (String.eqb key "length"); eauto. destruct (index_key key); eauto.
  - destruct (String.eqb key "length"); eauto. destruct (index_key key); eauto.
Qed.

Lemma js_get_other (v x : jsval) (key key' : string) :
  js_get v key = Some x -> exists y, js_get v key' = Some y.
Proof.
  destruct v; simpl; try discriminate; intros _; eauto.
  - destruct (String.eqb key' "length"); eauto. destruct (index_key key'); eauto.
  - destruct (String.eqb key' "length"); eauto. destruct (index_key key'); eauto.
Qed.
