(* ===== verification/Runtime.v ===== *)
(** * Runtime: the effects of an async route handler

    A request handler of the route runs as one async function: it reads
    and writes the database, calls external services whose promises may
    reject, and throws [TypeError]s out of property accesses.  This file
    gives the monad the model of [POST] is written in: a state of type
    [S] (the database tables and the server log) threaded through the
    calls, and an outcome that is a value or a thrown exception.  A throw
    keeps the state reached so far: writes done before it are not rolled
    back, as nothing in the route is transactional. *)

From Stdlib Require Import String List.
From S2P Require Import Prelude.
Import ListNotations.

(** What a [throw] carries: a [TypeError] of the language, or the
    rejection of an external call's promise. *)
Inductive exn : Type :=
| TypeError
| Rejected (what : string).

Inductive outcome (A : Type) : Type :=
| Ok (a : A)
| Throw (e : exn).
Arguments Ok {A} a.
Arguments Throw {A} e.

(** The outcome of a computation that reads no state. *)
Definition obind {A B} (c : outcome A) (k : A -> outcome B) : outcome B :=
  match c with Ok a => k a | Throw e => Throw e end.

(** A value of the language that may be a [TypeError]. *)
Definition of_opt {A} (o : option A) : outcome A :=
  match o with Some a => Ok a | None => Throw TypeError end.

Definition M (S A : Type) : Type := S -> outcome A * S.

Definition ret {S A} (a : A) : M S A := fun s => (Ok a, s).

Definition bind {S A B} (c : M S A) (k : A -> M S B) : M S B :=
  fun s => match c s with
           | (Ok a, s') => k a s'
           | (Throw e, s') => (Throw e, s')
           end.

Definition throw {S A} (e : exn) : M S A := fun s => (Throw e, s).

(** [try { c } catch (e) { h(e) }] *)
Definition try_catch {S A} (c : M S A) (h : exn -> M S A) : M S A :=
  fun s => match c s with
           | (Ok a, s') => (Ok a, s')
           | (Throw e, s') => h e s'
           end.

Definition get {S} : M S S := fun s => (Ok s, s).
Definition modify {S} (f : S -> S) : M S unit := fun s => (Ok tt, f s).

(** A value of the language that may be a [TypeError]. *)
Definition of_option {S A} (o : option A) : M S A :=
  match o with Some a => ret a | None => throw TypeError end.

(** The settled promise of an external call. *)
Definition await {S A} (o : outcome A) : M S A := fun s => (o, s).

(** [ensures P c]: whatever [c] returns satisfies [P] (a throw is not
    a return). *)
Definition ensures {S A} (P : A -> Prop) (c : M S A) : Prop :=
  forall s, match fst (c s) with Ok a => P a | Throw _ => True end.

(** [preserves P c]: a run of [c] from a state satisfying [P] ends in a
    state satisfying [P], whether it returns or throws. *)
Definition preserves {S A} (P : S -> Prop) (c : M S A) : Prop :=
  forall s, P s -> P (snd (c s)).

Section Laws.
Context {S : Type}.
Lemma bind_ret_l {A B} (a : A) (k : A -> M S B) : bind (ret a) k = k a.
Proof. reflexivity. Qed.

Lemma bind_assoc {A B C} (c : M S A) (k : A -> M S B) (k' : B -> M S C) (s : S) :
  bind (bind c k) k' s = bind c (fun a => bind (k a) k') s.
Proof. unfold bind. now destruct (c s) as [[a|e] s']. Qed.

Lemma of_option_some {A} (a : A) : @of_option S A (Some a) = ret a.
Proof. reflexivity. Qed.

Lemma await_ok {A} (a : A) : @await S A (Ok a) = ret a.
Proof. reflexivity. Qed.

(** A handler that catches turns every throw of its body into its own
    answer. *)
Lemma try_catch_throw {A} (c : M S A) (h : exn -> M S A) (s s' : S) (e : exn) :
  c s = (Throw e, s') -> try_catch c h s = h e s'.
Proof. unfold try_catch. now intros ->. Qed.

Lemma ensures_ret {A} (P : A -> Prop) (a : A) : P a -> ensures P (@ret S A a).
Proof. intros Ha s. exact Ha. Qed.

Lemma ensures_bind {A B} (P : B -> Prop) (c : M S A) (k : A -> M S B) :
  (forall a, ensures P (k a)) -> ensures P (bind c k).
Proof.
  intros Hk s. unfold bind. destruct (c s) as [[a|e] s']; [apply Hk | exact I].
Qed.

Lemma ensures_try_catch {A} (P : A -> Prop) (c : M S A) (h : exn -> M S A) :
  ensures P c -> (forall e, ensures P (h e)) -> ensures P (try_catch c h).
Proof.
  intros Hc Hh s. unfold try_catch. specialize (Hc s).
  destruct (c s) as [[a|e] s']; [exact Hc | apply Hh].
Qed.

(** Binds that remember the value they pass on. *)
Lemma ensures_bind_await {A B} (P : B -> Prop) (o : outcome A) (k : A -> M S B) :
  (forall a, o = Ok a -> ensures P (k a)) -> ensures P (bind (await o) k).
Proof. intros Hk s. unfold bind, await. destruct o as [a|e]; [exact (Hk a eq_refl s) | exact I]. Qed.

Lemma ensures_bind_of_option {A B} (P : B -> Prop) (o : option A) (k : A -> M S B) :
  (forall a, o = Some a -> ensures P (k a)) -> ensures P (bind (of_option o) k).
Proof. intros Hk s. unfold bind, of_option. destruct o as [a|]; [exact (Hk a eq_refl s) | exact I]. Qed.

Lemma preserves_ret {A} (P : S -> Prop) (a : A) : preserves P (@ret S A a).
Proof. intros s Hs. exact Hs. Qed.

Lemma preserves_throw {A} (P : S -> Prop) (e : exn) : preserves P (@throw S A e).
Proof. intros s Hs. exact Hs. Qed.

Lemma preserves_await {A} (P : S -> Prop) (o : outcome A) : preserves P (@await S A o).
Proof. intros s Hs. exact Hs. Qed.

Lemma preserves_of_option {A} (P : S -> Prop) (o : option A) : preserves P (@of_option S A o).
Proof. destruct o; intros s Hs; exact Hs. Qed.

Lemma preserves_modify (P : S -> Prop) (f : S -> S) :
  (forall s, P s -> P (f s)) -> preserves P (modify f).
Proof. intros Hf s Hs. exact (Hf s Hs). Qed.

Lemma preserves_bind {A B} (P : S -> Prop) (c : M S A) (k : A -> M S B) :
  preserves P c -> (forall a, preserves P (k a)) -> preserves P (bind c k).
Proof.
  intros Hc Hk s Hs. unfold bind. specialize (Hc s Hs).
  destruct (c s) as [[a|e] s']; [exact (Hk a s' Hc) | exact Hc].
Qed.

Lemma preserves_try_catch {A} (P : S -> Prop) (c : M S A) (h : exn -> M S A) :
  preserves P c -> (forall e, preserves P (h e)) -> preserves P (try_catch c h).
Proof.
  intros Hc Hh s Hs. unfold try_catch. specialize (Hc s Hs).
  destruct (c s) as [[a|e] s']; [exact Hc | exact (Hh e s' Hc)].
Qed.
End Laws.

Notation "x <-! c ;; k" := (obind c (fun x => k))
  (at level 62, c at next level, right associativity) : chat_scope.
Notation "x <- c ;; k" := (bind c (fun x => k))
  (at level 62, c at next level, right associativity) : chat_scope.
Notation "c ;; k" := (bind c (fun _ : unit => k))
  (at level 62, right associativity) : chat_scope.

(** Split an [ensures] goal along the binds, matches and conditionals
    of the computation. *)
Ltac ensures_split :=
  repeat match goal with
  | |- ensures _ (bind _ _) => apply ensures_bind; intro
  | |- ensures _ (ret _) => apply ensures_ret
  | |- ensures _ (if ?b then _ else _) => destruct b
  | |- ensures _ (match ?x with _ => _ end) => destruct x
  end.

(** [ensures_split], remembering what each [await] and [of_option]
    passed on; [tac] handles the binds of a client's own effects first. *)
Ltac ensures_split_with tac :=
  repeat first
    [ tac
    | match goal with
      | |- ensures _ (try_catch _ _) => apply ensures_try_catch; [|intro]
      | |- ensures _ (bind (await _) _) => apply ensures_bind_await; intros ? ?
      | |- ensures _ (bind (of_option _) _) => apply ensures_bind_of_option; intros ? ?
      | |- ensures _ (bind _ _) => apply ensures_bind; intro
      | |- ensures _ (ret _) => apply ensures_ret
      | |- ensures _ (if ?b then _ else _) => destruct b eqn:?
      | |- ensures _ (match ?x with _ => _ end) => destruct x eqn:?
      end ].

(** Split a [preserves] goal along the computation, keeping the
    equations of the conditions it branches on. *)
Ltac preserves_split :=
  repeat match goal with
  | |- preserves _ (bind _ _) => apply preserves_bind; [|intro]
  | |- preserves _ (try_catch _ _) => apply preserves_try_catch; [|intro]
  | |- preserves _ (ret _) => apply preserves_ret
  | |- preserves _ (throw _) => apply preserves_throw
  | |- preserves _ (await _) => apply preserves_await
  | |- preserves _ (of_option _) => apply preserves_of_option
  | |- preserves _ (if ?b then _ else _) => destruct b eqn:?
  | |- preserves _ (match ?x with _ => _ end) => destruct x eqn:?
  end.

#[export] Hint Rewrite @bind_ret_l @of_option_some @await_ok : chat_rw.
