(* ===== verification/Table.v ===== *)
(** * Table: [formatPropertiesTable] of the chat route

    [src/src/app/api/chat/route.ts], lines 161-182: the page of property
    records becomes a markdown table with the three columns Name, Address
    and Owner.  Each cell is [p.name || "-"] (and likewise for address and
    owner), the rows are built first by [properties.map], then appended
    one by one by [rows.forEach] to the header and separator lines, each
    cell converted as [Array.prototype.join] converts it.  Property access
    on a [null] record throws, so the function returns [option string].

    The theorems: for records read from JSON the staged code equals the
    rendering written out with the literal header, separator, keys and
    cell rule; the cell rules (a missing or falsy field shows "-"); a
    [null] record throws; and a parser that reads the table back into
    its cells, which inverts the rendering whenever no cell holds a "|"
    or a line break. *)

From Stdlib Require Import String Ascii List Bool ZArith Lia.
From S2P Require Import Prelude JsValue.
Import ListNotations.
Local Open Scope string_scope.
Local Open Scope chat_scope.

Module Table.

Definition headers : list string := ["Name"; "Address"; "Owner"].

(** [p.key || "-"] *)
Definition column (p : jsval) (key : string) : option jsval :=
  option_map (fun v => js_or v (JStr "-")) (js_get p key).

(** [(p) => [p.name || "-", p.address || "-", p.owner || "-"]] *)
Definition row_of (p : jsval) : option (list jsval) :=
  n <-? column p "name" ;;
  a <-? column p "address" ;;
  o <-? column p "owner" ;;
  Some [n; a; o].

(** The element conversion of [Array.prototype.join]. *)
Definition join_elem (v : jsval) : option string :=
  match v with
  | JUndefined | JNull => Some EmptyString
  | _ => to_string v
  end.

(** [`| ${row.join(" | ")} |\n`] *)
Definition row_line (row : list jsval) : option string :=
  cells <-? map_option join_elem row ;;
  Some ("| " ++ js_join " | " cells ++ " |" ++ str1 "010").

Definition header_line : string := "| " ++ js_join " | " headers ++ " |" ++ str1 "010".

Definition separator_line : string :=
  "| " ++ js_join " | " (map (fun _ => "-") headers) ++ " |" ++ str1 "010".

(** [rows.forEach((row) => { table += ... })] *)
Fixpoint add_rows (table : string) (rows : list (list jsval)) : option string :=
  match rows with
  | [] => Some table
  | r :: rs => line <-? row_line r ;; add_rows (table ++ line) rs
  end.

Definition formatPropertiesTable (properties : list jsval) : option string :=
  match properties with
  | [] => Some EmptyString
  | _ =>
      rows <-? map_option row_of properties ;;
      add_rows (header_line ++ separator_line) rows
  end.

(** ** A reference rendering, one record at a time *)

Definition row_cells (p : jsval) : option (list string) :=
  r <-? row_of p ;; map_option join_elem r.

Definition render_row (cells : list string) : string :=
  "| " ++ js_join " | " cells ++ " |" ++ str1 "010".

Definition render_table (rows : list (list string)) : string :=
  header_line ++ separator_line ++ str_concat (map render_row rows).

(** What a cell shows for a record read from JSON. *)
Definition shown (fields : list (string * jsval)) (key : string) : option string :=
  match assoc_last key fields with
  | Some v => if to_boolean v then join_elem v else Some "-"
  | None => Some "-"
  end.

(** ** Parsing the table back *)

Fixpoint strip_last_space (s : string) : option string :=
  match s with
  | EmptyString => None
  | String a EmptyString => if Ascii.eqb a " " then Some EmptyString else None
  | String a r => option_map (String a) (strip_last_space r)
  end.

Definition pad (s : string) : string := " " ++ s ++ " ".

Definition unpad (s : string) : option string :=
  match s with
  | String a r => if Ascii.eqb a " " then strip_last_space r else None
  | EmptyString => None
  end.

Definition parse_row (line : string) : option (list string) :=
  match split_on "|" line with
  | EmptyString :: rest =>
      if String.eqb (last rest "|") EmptyString then map_option unpad (removelast rest) else None
  | _ => None
  end.

Definition parse_table (t : string) : option (list (list string)) :=
  match split_on "010" t with
  | h :: sep :: rest =>
      if String.eqb (h ++ nl) header_line && String.eqb (sep ++ nl) separator_line
         && String.eqb (last rest "|") EmptyString
      then map_option parse_row (removelast rest) else None
  | _ => None
  end.

Definition plain_cell (c : string) : Prop := has_char "|" c = false /\ has_char "010" c = false.

(** ** The staged code and the per-record rendering agree *)

Lemma add_rows_concat (table : string) (rows : list (list jsval)) :
  add_rows table rows = option_map (fun ls => table ++ str_concat ls) (map_option row_line rows).
Proof.
  revert table. induction rows as [|r rs IH]; intros table; simpl.
  - now rewrite append_nil_r.
  - destruct (row_line r) as [line|]; [|easy]. rewrite IH.
    destruct (map_option row_line rs); simpl; [|easy]. now rewrite append_assoc.
Qed.

Lemma row_line_render (r : list jsval) :
  row_line r = option_map render_row (map_option join_elem r).
Proof. unfold row_line. now destruct (map_option join_elem r). Qed.

(** The staged computation on a non-empty list of records. *)
Lemma formatPropertiesTable_cons (p : jsval) (ps' : list jsval) :
  formatPropertiesTable (p :: ps') = option_map render_table (map_option row_cells (p :: ps')).
Proof.
  cbv delta [formatPropertiesTable] iota beta.
  unfold row_cells. rewrite map_option_bind.
  destruct (map_option row_of (p :: ps')) as [rows|]; [|easy].
  rewrite add_rows_concat, (map_option_ext _ _ _ row_line_render), map_option_map.
  destruct (map_option (map_option join_elem) rows); simpl; [|easy].
  unfold render_table. now rewrite append_assoc.
Qed.

Lemma column_obj (fields : list (string * jsval)) (key : string) :
  column (JObj fields) key =
  Some (match assoc_last key fields with Some v => js_or v (JStr "-") | None => JStr "-" end).
Proof. unfold column. simpl. now destruct (assoc_last key fields). Qed.

Lemma join_elem_column (fields : list (string * jsval)) (key : string) :
  join_elem (match assoc_last key fields with Some v => js_or v (JStr "-") | None => JStr "-" end)
  = shown fields key.
Proof.
  unfold shown. destruct (assoc_last key fields) as [v|]; [|easy].
  unfold js_or. destruct (to_boolean v); easy.
Qed.

Lemma row_cells_length (p : jsval) (c : list string) : row_cells p = Some c -> length c = 3.
Proof.
  unfold row_cells, row_of. intros H.
  destruct (column p "name"), (column p "address"), (column p "owner"); try discriminate.
  now apply map_option_length in H.
Qed.

(** ** Parsing inverts rendering *)

Lemma strip_last_space_cons (a : ascii) (r : string) :
  r <> EmptyString -> strip_last_space (String a r) = option_map (String a) (strip_last_space r).
Proof. destruct r; easy. Qed.

Lemma strip_last_space_app (s : string) : strip_last_space (s ++ " ") = Some s.
Proof.
  induction s as [|a s IH]; [reflexivity|].
  change (String a s ++ " ")%string with (String a (s ++ " ")).
  rewrite strip_last_space_cons, IH; [reflexivity|].
  intros E. now apply append_eq_empty_r in E.
Qed.

Lemma unpad_pad (s : string) : unpad (pad s) = Some s.
Proof. unfold pad. simpl. apply strip_last_space_app. Qed.

Lemma has_char_pad (c : ascii) (s : string) :
  has_char c (pad s) = (Ascii.eqb " " c || has_char c s || Ascii.eqb " " c)%bool.
Proof. unfold pad. simpl. rewrite has_char_app. simpl. now rewrite orb_false_r, orb_assoc. Qed.

Definition row_text (cells : list string) : string := "| " ++ js_join " | " cells ++ " |".

Lemma join_pad (l : list string) :
  l <> [] -> (" " ++ js_join " | " l ++ " ")%string = js_join "|" (map pad l).
Proof.
  induction l as [|x xs IH]; intros Hne; [easy|].
  destruct xs as [|y ys]; [reflexivity|].
  cbn [map]. rewrite !join_cons2. change (pad y :: map pad ys) with (map pad (y :: ys)).
  rewrite <- IH by easy. unfold pad. now rewrite <- !append_assoc.
Qed.

Lemma row_text_join (l : list string) :
  l <> [] -> row_text l = js_join "|" (EmptyString :: map pad l ++ [EmptyString]).
Proof.
  intros Hne. destruct l as [|x xs]; [easy|].
  change (EmptyString :: map pad (x :: xs) ++ [EmptyString])%list
    with (EmptyString :: (pad x :: map pad xs) ++ [EmptyString])%list.
  cbn [app]. rewrite join_cons2. change (pad x :: (map pad xs ++ [EmptyString]))%list
    with ((map pad (x :: xs)) ++ [EmptyString])%list.
  rewrite join_snoc by easy. rewrite <- join_pad by easy.
  unfold row_text. rewrite <- !append_assoc. reflexivity.
Qed.

Lemma parse_row_text (l : list string) :
  l <> [] -> Forall plain_cell l -> parse_row (row_text l) = Some l.
Proof.
  intros Hne Hl. unfold parse_row. rewrite row_text_join by easy.
  rewrite split_on_join.
  - rewrite last_last, String.eqb_refl, removelast_last.
    apply map_option_inverse. intros y _. apply unpad_pad.
  - now destruct l.
  - constructor; [reflexivity|]. apply Forall_app. split; [|now constructor].
    apply Forall_map. eapply Forall_impl; [|exact Hl].
    intros c [Hc _]. now rewrite has_char_pad, Hc.
Qed.

Lemma has_char_row_text (c : ascii) (l : list string) :
  Ascii.eqb c "|" = false -> Ascii.eqb c " " = false ->
  Forall (fun x => has_char c x = false) l -> has_char c (row_text l) = false.
Proof.
  intros Hb Hs Hl.
  assert (Hlit : forall t, t = "| " \/ t = " | " \/ t = " |" -> has_char c t = false).
  { intros t [-> | [-> | ->]]; cbn [has_char]; now rewrite !(Ascii.eqb_sym _ c), Hb, Hs. }
  unfold row_text. rewrite !has_char_app, has_char_join; auto.
  rewrite !Hlit; auto.
Qed.

Lemma render_row_text (c : list string) : render_row c = (row_text c ++ nl)%string.
Proof. unfold render_row, row_text, nl. now rewrite <- !append_assoc. Qed.

Lemma render_table_join (rows : list (list string)) :
  render_table rows =
  js_join nl (row_text headers :: row_text ["-"; "-"; "-"] :: map row_text rows ++ [EmptyString]).
Proof.
  change (row_text headers :: row_text ["-"; "-"; "-"] :: map row_text rows ++ [EmptyString])%list
    with ((row_text headers :: row_text ["-"; "-"; "-"] :: map row_text rows) ++ [EmptyString])%list.
  rewrite join_snoc_empty. cbn [map]. rewrite map_map.
  rewrite (map_ext (fun x => (row_text x ++ nl)%string) render_row)
    by (intros; symmetry; apply render_row_text).
  reflexivity.
Qed.

Theorem parse_render_table (rows : list (list string)) :
  Forall (fun c => c <> [] /\ Forall plain_cell c) rows ->
  parse_table (render_table rows) = Some rows.
Proof.
  intros Hrows. unfold parse_table. rewrite render_table_join.
  rewrite split_on_join; [| easy |].
  - cbn [app]. rewrite last_last, removelast_last. simpl. apply map_option_inverse.
    intros c Hc. rewrite Forall_forall in Hrows. destruct (Hrows c Hc) as [Hne Hp].
    now apply parse_row_text.
  - repeat constructor. apply Forall_app. split; [|now constructor]. apply Forall_map.
    eapply Forall_impl; [|exact Hrows]. intros c [_ Hp]. apply has_char_row_text; try reflexivity.
    eapply Forall_impl; [|exact Hp]. now intros x [_ Hx].
Qed.

(** ** Properties of [formatPropertiesTable] *)

(** C23: for a record read from JSON, each of the three cells
    shows the field's text when the field is truthy and "-" when it is
    missing or falsy (empty string, 0, null, false). *)
Theorem row_cells_obj (fields : list (string * jsval)) :
  row_cells (JObj fields) = map_option (shown fields) ["name"; "address"; "owner"].
Proof.
  unfold row_cells, row_of. rewrite !column_obj. cbn [map_option].
  now rewrite !join_elem_column.
Qed.

(** The staged code ([properties.map], then [rows.forEach] appending to
    the header and separator) renders the header, the separator and one
    line per record, in order. *)
Lemma formatPropertiesTable_render (ps : list jsval) :
  ps <> [] -> formatPropertiesTable ps = option_map render_table (map_option row_cells ps).
Proof. intros Hne. destruct ps as [|p ps']; [easy | apply formatPropertiesTable_cons]. Qed.

(** C25: for records read from JSON, the table is the header line
    "| Name | Address | Owner |", the separator "| - | - | - |" and, for
    each record in order, the line "| name | address | owner |" whose
    cells show the field's text when it is truthy and "-" when it is
    missing or falsy; no records give the empty string. *)
Theorem formatPropertiesTable_json (ps : list (list (string * jsval))) :
  formatPropertiesTable (map JObj ps) =
  match ps with
  | [] => Some ""
  | _ =>
      option_map
        (fun rows => "| Name | Address | Owner |" ++ nl ++ "| - | - | - |" ++ nl ++
                     str_concat (map (fun c => "| " ++ js_join " | " c ++ " |" ++ nl) rows))
        (map_option (fun f => map_option (shown f) ["name"; "address"; "owner"]) ps)
  end.
Proof.
  destruct ps as [|f ps']; [reflexivity|].
  rewrite formatPropertiesTable_render by discriminate. rewrite map_option_map_l.
  rewrite (map_option_ext _ (fun f => map_option (shown f) ["name"; "address"; "owner"])).
  - now destruct (map_option _ (f :: ps')).
  - intros g. unfold row_cells, row_of. rewrite !column_obj. cbn [map_option].
    now rewrite !join_elem_column.
Qed.

(** C26: A [null] or [undefined] record makes the whole table throw. *)
Theorem formatPropertiesTable_null_record (ps : list jsval) :
  In JNull ps \/ In JUndefined ps -> formatPropertiesTable ps = None.
Proof.
  intros Hin. destruct ps as [|p ps']; [now destruct Hin|]. rewrite formatPropertiesTable_cons.
  destruct Hin as [H|H]; now rewrite (map_option_none _ _ _ H).
Qed.

(** C24: The rendering reads back into exactly the cells of every record,
    as long as no cell holds a "|" or a line break. *)
Theorem format_parse_roundtrip (ps : list jsval) (cells : list (list string)) :
  ps <> [] -> map_option row_cells ps = Some cells ->
  Forall (Forall plain_cell) cells ->
  exists t, formatPropertiesTable ps = Some t /\ parse_table t = Some cells.
Proof.
  intros Hne Hcells Hplain. exists (render_table cells). split.
  - destruct ps; [easy|]. now rewrite formatPropertiesTable_cons, Hcells.
  - apply parse_render_table. apply Forall_forall. intros c Hc. split.
    + pose proof (map_option_Forall _ (fun c => length c = 3) _ _ row_cells_length Hcells) as H3.
      rewrite Forall_forall in H3. specialize (H3 c Hc). now destruct c.
    + now rewrite Forall_forall in Hplain; apply Hplain.
Qed.

(** The records of the specification's example: one full record and one
    with only a name. *)
Definition record_A : jsval := JObj [("name", JStr "A"); ("address", JStr "1 Main"); ("owner", JStr "X")].
Definition record_B : jsval := JObj [("name", JStr "B")].

Lemma formatPropertiesTable_null_record_witness :
  formatPropertiesTable [record_A; JNull] = None.
Proof. apply formatPropertiesTable_null_record. left. simpl. now right; left. Defined.

Lemma format_parse_roundtrip_witness :
  exists t, formatPropertiesTable [record_A; record_B] = Some t /\
            parse_table t = Some [["A"; "1 Main"; "X"]; ["B"; "-"; "-"]].
Proof.
  apply format_parse_roundtrip; [discriminate | reflexivity |].
  repeat constructor.
Defined.

End Table.
