(* ===== verification/ChatData.v ===== *)
(** * ChatData: the data and the collaborators of the chat route

    The records and variants [src/src/app/api/chat/route.ts] builds and
    returns (the message rows, their metadata, the JSON answers), the
    world the route changes (the [messages] table and the server log), and
    the class [Backend] of the collaborators the route imports from files
    that are not among the sources: the Supabase auth and database client,
    the schema provider, the Groq intent parser and the query executor.
    Each collaborator is the answer its promise settles to, so every
    theorem stated for an arbitrary [Backend] holds whatever they answer.
    The two effects on the world, [insert_message] and [console_error],
    are here too, with a concrete backend used by the witnesses. *)

From Stdlib Require Import String List ZArith.
From S2P Require Import Prelude JsValue Runtime Table.
Import ListNotations.
Local Open Scope string_scope.
Local Open Scope chat_scope.

Module ChatData.

(** ** Data *)

(** An attribute of the schema provider ([getPropertiesSchema]). *)
Record SchemaAttr : Type := { internalName : string; displayName : string }.

(** The metadata object of the assistant message, lines 127-133. *)
Record Metadata : Type := {
  md_intent : jsval;
  md_full_results_data : list jsval;
  md_has_more : bool;
  md_current_offset : jsval;
  md_total_results : nat
}.

(** The object passed to [supabase.from("messages").insert(...)]. *)
Record Row : Type := {
  conversation_id : jsval;
  role : string;
  content : jsval;
  metadata : option Metadata
}.

(** A row as the database stores it and [.select().single()] returns it. *)
Record StoredRow : Type := { row_id : nat; row : Row }.

Record World : Type := { messages : list StoredRow; log : list string }.

(** The [{ properties, total }] of [getPropertiesWithFallback]. *)
Record QueryResult : Type := { properties : list jsval; total : jsval }.

(** The answer of the handler: [NextResponse.json(body, { status })]. *)
Inductive Response : Type :=
| JsonError (status : nat) (error : string)
| JsonOk (message : StoredRow) (response : string) (hasMore : bool) (currentOffset : jsval).

(** ** The collaborators *)

Class Backend : Type := {
  (** [createSupabaseServerClient()] then [supabase.auth.getUser()]: the
      user's id, or [null]; a throw of either (the factory runs inside
      the same [try], just before) is a [Throw]. *)
  getUser : outcome (option string);
  (** [request.json()] *)
  requestJson : outcome jsval;
  getPropertiesSchema : outcome (list SchemaAttr);
  generateSchemaDocumentation : list SchemaAttr -> string;
  (** [parseAndGenerateResponse(message, schemaDocumentation)] *)
  parseAndGenerateResponse : jsval -> string -> outcome jsval;
  (** [getPropertiesWithFallback(filters, offset, limit)] *)
  getPropertiesWithFallback : jsval -> jsval -> nat -> outcome QueryResult;
  (** [getAggregationData(aggregationType)] *)
  getAggregationData : jsval -> outcome jsval;
  (** The [error] of an insert into the given table, if any. *)
  insertError : list StoredRow -> Row -> option string
}.

(** ** Effects on the database and the log *)

(** [supabase.from("messages").insert(r)]: the row is appended under the
    next id unless the backend reports an error. *)
Definition insert_message `{Backend} (r : Row) : M World (string + StoredRow) :=
  fun w =>
    match insertError (messages w) r with
    | Some e => (Ok (inl e), w)
    | None =>
        let sr := {| row_id := length (messages w); row := r |} in
        (Ok (inr sr), {| messages := messages w ++ [sr]; log := log w |})
    end.

Definition console_error (label : string) : M World unit :=
  modify (fun w => {| messages := messages w; log := log w ++ [label] |}).

(** ** A concrete backend for the witnesses *)

Definition demo_schema : list SchemaAttr :=
  [{| internalName := "name"; displayName := "Name" |};
   {| internalName := "city"; displayName := "City" |}].

Definition demo_backend (user : option string) (body parsed : jsval) (page : QueryResult)
    (agg : jsval) (fail_user fail_assistant : bool) : Backend := {|
  getUser := Ok user;
  requestJson := Ok body;
  getPropertiesSchema := Ok demo_schema;
  generateSchemaDocumentation := fun s => js_join ", " (map internalName s);
  parseAndGenerateResponse := fun _ _ => Ok parsed;
  getPropertiesWithFallback := fun _ _ _ => Ok page;
  getAggregationData := fun _ => Ok agg;
  insertError := fun _ r =>
    if String.eqb (role r) "user" then (if fail_user then Some "insert failed" else None)
    else (if fail_assistant then Some "insert failed" else None)
|}.

Definition w0 : World := {| messages := []; log := [] |}.

Definition body_ok : jsval :=
  JObj [("message", JStr "show me properties"); ("conversationId", JStr "c1")].

Definition parsed_lookup : jsval :=
  JObj [("intent", JStr "property_lookup"); ("filters", JObj []); ("response_text", JStr "ok")].

Definition page_12 : QueryResult := {| properties := [Table.record_A; Table.record_B]; total := JInt 12 |}.

Definition demo_ok (fail_user fail_assistant : bool) : Backend :=
  demo_backend (Some "u1") body_ok parsed_lookup page_12 JNull fail_user fail_assistant.

(** An aggregation whose kind is the number 5 and whose result has no
    name: the handler throws. *)
Definition parsed_agg (filters : jsval) : jsval :=
  JObj [("intent", JStr "aggregation"); ("filters", filters); ("response_text", JStr "ok")].

Definition agg_backend (filters agg : jsval) : Backend :=
  demo_backend (Some "u1") body_ok (parsed_agg filters) page_12 agg false false.

Definition page_of (ps : list jsval) (t : Z) : QueryResult := {| properties := ps; total := JInt t |}.

Definition lookup_backend (page : QueryResult) : Backend :=
  demo_backend (Some "u1") body_ok parsed_lookup page JNull false false.

Definition parsed_location : jsval :=
  JObj [("intent", JStr "location_filter"); ("filters", JObj []); ("response_text", JStr "ok")].

Definition parsed_intent (intent : string) : jsval :=
  JObj [("intent", JStr intent); ("filters", JObj []); ("response_text", JStr "Hello!")].

End ChatData.
