(* ===== verification/Dispatch.v ===== *)
(** * Dispatch: the intent handlers of the chat route

    [src/src/app/api/chat/route.ts], lines 59-112: after the language
    model has parsed the message, the route branches on
    [parsedQuery.intent].  The two lookup intents ask the query executor
    for a page of five records and compute [hasMore]; the aggregation
    intent asks for a scalar result and phrases it; the metadata intent
    describes the schema; any other intent keeps the model's reply.  The
    handlers read no state, so they are functions to an [outcome]: a
    value, or the [TypeError] of a property access on [null] / a call on a
    non-string, or a rejected executor promise.

    The theorems give each branch's text, records and [hasMore], the
    spec's pagination examples, the bound of five records per answer when
    the executor honours its limit, and what the code does on inputs the
    spec does not foresee: a string offset, a negative offset, a typed
    owner result without a name, a non-string aggregation kind. *)

From Stdlib Require Import String Ascii List Bool ZArith Lia.
From S2P Require Import Prelude JsValue Runtime Table ChatData.
Import ListNotations.
Import ChatData.
Local Open Scope string_scope.
Local Open Scope chat_scope.

Module Dispatch.

Definition page_size : nat := 5.

(** The two lookup branches share their shape; they differ in the texts.
    The handlers read no state: they are functions to an [outcome]. *)
Definition lookup_branch `{Backend} (empty_text : string) (found_text : string -> string -> string)
    (parsedQuery offset : jsval) : outcome (jsval * list jsval * bool) :=
  filters <-! of_opt (js_get parsedQuery "filters") ;;
  result <-! getPropertiesWithFallback filters offset page_size ;;
  let allResults := properties result in
  sum <-! of_opt (js_add offset (JInt 5)) ;;
  hasMore <-! of_opt (js_lt sum (total result)) ;;
  if Nat.eqb (length allResults) 0 then Ok (JStr empty_text, allResults, hasMore)
  else
    total_s <-! of_opt (to_string (total result)) ;;
    Ok (JStr (found_text total_s (string_of_nat (Nat.min 5 (length allResults)))),
        allResults, hasMore).

Definition lookup_empty_text : string :=
  "I couldn't find any properties matching your query. Could you please rephrase? Or I can help you explore what properties are available.".

Definition location_empty_text : string :=
  "No properties found in that location. Would you like to see all available properties or search by a different location?".

Definition lookup_found_text (t n : string) : string :=
  "Found " ++ t ++ " property/properties. Showing " ++ n ++ " of " ++ t ++ ".".

Definition location_found_text (t n : string) : string :=
  "Found " ++ t ++ " properties in that location. Showing " ++ n ++ " of " ++ t ++ ".".

Definition property_lookup_branch `{Backend} : jsval -> jsval -> outcome (jsval * list jsval * bool) :=
  lookup_branch lookup_empty_text lookup_found_text.

Definition location_filter_branch `{Backend} : jsval -> jsval -> outcome (jsval * list jsval * bool) :=
  lookup_branch location_empty_text location_found_text.

Definition aggregation_branch `{Backend} (parsedQuery responseText : jsval) : outcome jsval :=
  filters <-! of_opt (js_get parsedQuery "filters") ;;
  info_type <-! of_opt (js_get filters "info_type") ;;
  first <-! of_opt (js_opt_index0 info_type) ;;
  let aggregationType := js_or first (JStr "total_properties") in
  aggregationResult <-! getAggregationData aggregationType ;;
  if to_boolean aggregationResult then
    ty <-! of_opt (js_get aggregationResult "type") ;;
    named <-! (if strict_eq_str ty "owner_with_most_properties" then Ok true
               else name <-! of_opt (js_get aggregationResult "name") ;; Ok (to_boolean name)) ;;
    if named then
      name <-! of_opt (js_get aggregationResult "name") ;;
      name_s <-! of_opt (to_string name) ;;
      count <-! of_opt (js_get aggregationResult "count") ;;
      count_s <-! of_opt (to_string count) ;;
      Ok (JStr (name_s ++ " has the most properties with " ++ count_s ++ " properties."))
    else
      count <-! of_opt (js_get aggregationResult "count") ;;
      count_s <-! of_opt (to_string count) ;;
      kind <-! of_opt (js_replace_underscores aggregationType) ;;
      Ok (JStr ("There are " ++ count_s ++ " " ++ kind ++ "."))
  else Ok responseText.

Definition metadata_text (schema : list SchemaAttr) : string :=
  "I have information about " ++ string_of_nat (length schema) ++
  " property attributes including: " ++ js_join ", " (map displayName schema) ++
  ". You can ask me about any property or get information like locations, owners, and amenities.".

(** The [if / else if] chain on [parsedQuery.intent], with the values of
    [responseText], [allResults] and [hasMore] after it. *)
Definition dispatch `{Backend} (schema : list SchemaAttr) (parsedQuery offset : jsval)
    : outcome (jsval * list jsval * bool) :=
  responseText <-! of_opt (js_get parsedQuery "response_text") ;;
  intent <-! of_opt (js_get parsedQuery "intent") ;;
  if strict_eq_str intent "property_lookup" then property_lookup_branch parsedQuery offset
  else if strict_eq_str intent "location_filter" then location_filter_branch parsedQuery offset
  else if strict_eq_str intent "aggregation" then
    t <-! aggregation_branch parsedQuery responseText ;; Ok (t, [], false)
  else if strict_eq_str intent "metadata" then Ok (JStr (metadata_text schema), [], false)
  else Ok (responseText, [], false).

(** ** The intent handlers *)

Lemma dispatch_unfold `{Backend} (schema : list SchemaAttr) (pq off rt i : jsval) :
  js_get pq "response_text" = Some rt -> js_get pq "intent" = Some i ->
  dispatch schema pq off =
  if strict_eq_str i "property_lookup" then property_lookup_branch pq off
  else if strict_eq_str i "location_filter" then location_filter_branch pq off
  else if strict_eq_str i "aggregation" then
    t <-! aggregation_branch pq rt ;; Ok (t, [], false)
  else if strict_eq_str i "metadata" then Ok (JStr (metadata_text schema), [], false)
  else Ok (rt, [], false).
Proof. intros Hrt Hi. unfold dispatch. now rewrite Hrt, Hi. Qed.

Lemma lookup_branch_page `{Backend} (et : string) (ft : string -> string -> string)
    (pq filters off sum : jsval) (t : Z) (ps : list jsval) (b : bool) :
  js_get pq "filters" = Some filters ->
  getPropertiesWithFallback filters off page_size = Ok {| properties := ps; total := JInt t |} ->
  js_add off (JInt 5) = Some sum -> js_lt sum (JInt t) = Some b ->
  lookup_branch et ft pq off =
  Ok (JStr (if Nat.eqb (length ps) 0 then et
            else ft (string_of_Z t) (string_of_nat (Nat.min 5 (length ps)))),
      ps, b).
Proof.
  intros Hf Hq Hadd Hlt. unfold lookup_branch. rewrite Hf. cbn [of_opt obind].
  rewrite Hq. cbn [obind properties total]. rewrite Hadd. cbn [of_opt obind]. rewrite Hlt.
  cbn [of_opt obind]. now destruct (Nat.eqb (length ps) 0).
Qed.

Lemma lookup_branch_numeric `{Backend} (et : string) (ft : string -> string -> string)
    (pq filters : jsval) (o t : Z) (ps : list jsval) :
  js_get pq "filters" = Some filters ->
  getPropertiesWithFallback filters (JInt o) page_size = Ok {| properties := ps; total := JInt t |} ->
  lookup_branch et ft pq (JInt o) =
  Ok (JStr (if Nat.eqb (length ps) 0 then et
            else ft (string_of_Z t) (string_of_nat (Nat.min 5 (length ps)))),
      ps, Z.ltb (o + 5) t).
Proof.
  intros Hf Hq. apply (lookup_branch_page et ft pq filters (JInt o) (JInt (o + 5)) t ps);
    [exact Hf | exact Hq | reflexivity | apply js_lt_int].
Qed.

(** C11: on the two lookup intents, with a numeric offset and total, the
    page's [hasMore] is [offset + 5 < total] and the records are the
    executor's page, unchanged. *)
Theorem dispatch_lookup_hasMore `{Backend} (schema : list SchemaAttr) (pq rt filters : jsval)
    (intent : string) (o t : Z) (ps : list jsval) :
  js_get pq "response_text" = Some rt -> js_get pq "intent" = Some (JStr intent) ->
  intent = "property_lookup" \/ intent = "location_filter" ->
  js_get pq "filters" = Some filters ->
  getPropertiesWithFallback filters (JInt o) page_size = Ok {| properties := ps; total := JInt t |} ->
  exists text, dispatch schema pq (JInt o) = Ok (JStr text, ps, Z.ltb (o + 5) t).
Proof.
  intros Hrt Hi Hint Hf Hq. rewrite (dispatch_unfold _ _ _ _ _ Hrt Hi).
  destruct Hint as [-> | ->]; simpl;
    [unfold property_lookup_branch | unfold location_filter_branch];
    rewrite (lookup_branch_numeric _ _ _ _ _ _ _ Hf Hq); eauto.
Qed.

(** C35: a string offset is concatenated with 5, not added to it:
    [hasMore] compares the number the string [offset ++ "5"] denotes
    with the total, so the offset "1" of a total of 12 gives "15" and
    [hasMore = false], while the offset "0." gives "0.5" and
    [hasMore = true]. *)
Theorem dispatch_lookup_string_offset `{Backend} (schema : list SchemaAttr) (pq rt filters : jsval)
    (intent s : string) (t : Z) (ps : list jsval) :
  js_get pq "response_text" = Some rt -> js_get pq "intent" = Some (JStr intent) ->
  intent = "property_lookup" \/ intent = "location_filter" ->
  js_get pq "filters" = Some filters ->
  getPropertiesWithFallback filters (JStr s) page_size = Ok {| properties := ps; total := JInt t |} ->
  exists text, dispatch schema pq (JStr s) =
    Ok (JStr text, ps, real_lt (string_to_numeric (s ++ "5")) (RFin t 0)).
Proof.
  intros Hrt Hi Hint Hf Hq. rewrite (dispatch_unfold _ _ _ _ _ Hrt Hi).
  destruct Hint as [-> | ->]; simpl;
    [unfold property_lookup_branch | unfold location_filter_branch];
    erewrite (lookup_branch_page _ _ pq filters (JStr s) (JStr (s ++ "5")) t ps); eauto;
    apply js_lt_str_int.
Qed.

(** C18: a lookup whose page is empty answers with the clarification
    prompt, and with a non-negative offset and a total of zero its
    [hasMore] is false. *)
Theorem dispatch_property_lookup_empty `{Backend} (schema : list SchemaAttr) (pq rt filters : jsval) (o : Z) :
  js_get pq "response_text" = Some rt -> js_get pq "intent" = Some (JStr "property_lookup") ->
  js_get pq "filters" = Some filters ->
  getPropertiesWithFallback filters (JInt o) page_size = Ok {| properties := []; total := JInt 0 |} ->
  (0 <= o)%Z ->
  dispatch schema pq (JInt o) = Ok (JStr lookup_empty_text, [], false).
Proof.
  intros Hrt Hi Hf Hq Ho. rewrite (dispatch_unfold _ _ _ _ _ Hrt Hi). simpl.
  unfold property_lookup_branch. rewrite (lookup_branch_numeric _ _ _ _ _ _ _ Hf Hq). simpl.
  replace (Z.ltb (o + 5) 0) with false by (symmetry; apply Z.ltb_ge; lia). reflexivity.
Qed.

(** C19: A lookup with a non-empty page reports the total and the size of the
    page shown, at most five. *)
Theorem dispatch_property_lookup_found `{Backend} (schema : list SchemaAttr) (pq rt filters : jsval)
    (o t : Z) (ps : list jsval) :
  js_get pq "response_text" = Some rt -> js_get pq "intent" = Some (JStr "property_lookup") ->
  js_get pq "filters" = Some filters ->
  getPropertiesWithFallback filters (JInt o) page_size = Ok {| properties := ps; total := JInt t |} ->
  ps <> [] ->
  dispatch schema pq (JInt o) =
  Ok (JStr ("Found " ++ string_of_Z t ++ " property/properties. Showing " ++
            string_of_nat (Nat.min 5 (length ps)) ++ " of " ++ string_of_Z t ++ "."),
      ps, Z.ltb (o + 5) t).
Proof.
  intros Hrt Hi Hf Hq Hne. rewrite (dispatch_unfold _ _ _ _ _ Hrt Hi). simpl.
  unfold property_lookup_branch. rewrite (lookup_branch_numeric _ _ _ _ _ _ _ Hf Hq).
  destruct ps; [easy | reflexivity].
Qed.

(** C39: with a negative offset, a lookup that finds nothing still
    reports [hasMore = true] whenever [offset + 5] is below the total,
    next to the clarification prompt: with a total of 0 every offset
    below -5 does, against the spec's "zero matches, hasMore false". *)
Theorem dispatch_lookup_empty_negative_offset `{Backend} (schema : list SchemaAttr)
    (pq rt filters : jsval) (o : Z) :
  js_get pq "response_text" = Some rt -> js_get pq "intent" = Some (JStr "property_lookup") ->
  js_get pq "filters" = Some filters ->
  getPropertiesWithFallback filters (JInt o) page_size = Ok {| properties := []; total := JInt 0 |} ->
  (o < -5)%Z ->
  dispatch schema pq (JInt o) = Ok (JStr lookup_empty_text, [], true).
Proof.
  intros Hrt Hi Hf Hq Ho. rewrite (dispatch_unfold _ _ _ _ _ Hrt Hi). simpl.
  unfold property_lookup_branch. rewrite (lookup_branch_numeric _ _ _ _ _ _ _ Hf Hq). simpl.
  replace (Z.ltb (o + 5) 0) with true by (symmetry; apply Z.ltb_lt; lia). reflexivity.
Qed.

(** The aggregation handler up to the call of the executor. *)
Lemma aggregation_branch_unfold `{Backend} (pq rt filters info first agg : jsval) :
  js_get pq "filters" = Some filters -> js_get filters "info_type" = Some info ->
  js_opt_index0 info = Some first ->
  getAggregationData (js_or first (JStr "total_properties")) = Ok agg ->
  aggregation_branch pq rt =
  if to_boolean agg then
    ty <-! of_opt (js_get agg "type") ;;
    named <-! (if strict_eq_str ty "owner_with_most_properties" then Ok true
               else name <-! of_opt (js_get agg "name") ;; Ok (to_boolean name)) ;;
    if named then
      name <-! of_opt (js_get agg "name") ;; name_s <-! of_opt (to_string name) ;;
      count <-! of_opt (js_get agg "count") ;; count_s <-! of_opt (to_string count) ;;
      Ok (JStr (name_s ++ " has the most properties with " ++ count_s ++ " properties."))
    else
      count <-! of_opt (js_get agg "count") ;; count_s <-! of_opt (to_string count) ;;
      kind <-! of_opt (js_replace_underscores (js_or first (JStr "total_properties"))) ;;
      Ok (JStr ("There are " ++ count_s ++ " " ++ kind ++ "."))
  else Ok rt.
Proof.
  intros Hf Hinfo Hfirst Hagg. unfold aggregation_branch.
  rewrite Hf; cbn [of_opt obind]. rewrite Hinfo; cbn [of_opt obind].
  rewrite Hfirst; cbn [of_opt obind]. rewrite Hagg; cbn [obind]. reflexivity.
Qed.

(** The aggregation intent as the parser and the executor answer it: the
    parsed query's [response_text], [intent] and [filters.info_type], the
    first kind [info_type?.[0]], and a truthy [aggregationResult]. *)
Definition aggregation_answers `{Backend} (pq rt filters info first agg : jsval) : Prop :=
  js_get pq "response_text" = Some rt /\ js_get pq "intent" = Some (JStr "aggregation") /\
  js_get pq "filters" = Some filters /\ js_get filters "info_type" = Some info /\
  js_opt_index0 info = Some first /\
  getAggregationData (js_or first (JStr "total_properties")) = Ok agg /\ to_boolean agg = true.

(** Unfold [dispatch] down to the phrasing of a truthy aggregation result. *)
Ltac aggregation_unfold Ha :=
  let Hrt := fresh in let Hi := fresh in let Hf := fresh in let Hinfo := fresh in
  let Hfirst := fresh in let Hagg := fresh in let Htruthy := fresh in
  destruct Ha as (Hrt & Hi & Hf & Hinfo & Hfirst & Hagg & Htruthy);
  rewrite (dispatch_unfold _ _ _ _ _ Hrt Hi); cbn [strict_eq_str String.eqb Ascii.eqb Bool.eqb];
  rewrite (aggregation_branch_unfold _ _ _ _ _ _ Hf Hinfo Hfirst Hagg), Htruthy; cbn [obind].

(** C20: an aggregation result that names an entity answers with the
    name and the count. *)
Theorem dispatch_aggregation_named `{Backend} (schema : list SchemaAttr) (pq rt filters info first agg off : jsval)
    (name : string) (n : Z) :
  aggregation_answers pq rt filters info first agg ->
  js_get agg "name" = Some (JStr name) -> name <> EmptyString ->
  js_get agg "count" = Some (JInt n) ->
  dispatch schema pq off =
  Ok (JStr (name ++ " has the most properties with " ++ string_of_Z n ++ " properties."), [], false).
Proof.
  intros Ha Hn Hne Hc. pose proof Ha as (_ & _ & _ & _ & _ & _ & Htruthy). aggregation_unfold Ha.
  destruct (js_get_truthy agg "type" Htruthy) as [ty Hty]. rewrite Hty, Hn, Hc.
  apply String.eqb_neq in Hne.
  cbn [obind of_opt]. destruct (strict_eq_str ty "owner_with_most_properties");
    simpl; rewrite ?Hne; reflexivity.
Qed.

(** C21: an aggregation result without a name answers with the count
    and the aggregation kind, underscores turned into spaces. *)
Theorem dispatch_aggregation_count `{Backend} (schema : list SchemaAttr) (pq rt filters info first agg off : jsval)
    (kind : string) (ty name : jsval) (n : Z) :
  aggregation_answers pq rt filters info first agg ->
  js_or first (JStr "total_properties") = JStr kind ->
  js_get agg "type" = Some ty -> strict_eq_str ty "owner_with_most_properties" = false ->
  js_get agg "name" = Some name -> to_boolean name = false ->
  js_get agg "count" = Some (JInt n) ->
  dispatch schema pq off =
  Ok (JStr ("There are " ++ string_of_Z n ++ " " ++ replace_char "_" " " kind ++ "."), [], false).
Proof.
  intros Ha Hk Hty Howner Hn Hname Hc. aggregation_unfold Ha.
  rewrite Hty, Hn, Hc, Hk. cbn [obind of_opt]. rewrite Howner. cbn [obind of_opt].
  rewrite Hname. reflexivity.
Qed.

(** C36: a result typed [owner_with_most_properties] but without a
    name answers with the text "undefined has the most properties". *)
Theorem dispatch_aggregation_owner_unnamed `{Backend} (schema : list SchemaAttr)
    (pq rt filters info first agg off : jsval) (n : Z) :
  aggregation_answers pq rt filters info first agg ->
  js_get agg "type" = Some (JStr "owner_with_most_properties") ->
  js_get agg "name" = Some JUndefined ->
  js_get agg "count" = Some (JInt n) ->
  dispatch schema pq off =
  Ok (JStr ("undefined has the most properties with " ++ string_of_Z n ++ " properties."), [], false).
Proof. intros Ha Hty Hn Hc. aggregation_unfold Ha. rewrite Hty, Hn, Hc. reflexivity. Qed.

(** C37: when the aggregation kind taken from [info_type] is not a
    string and the result has no name, [aggregationType.replace] throws. *)
Theorem dispatch_aggregation_nonstring_kind `{Backend} (schema : list SchemaAttr)
    (pq rt filters info first agg off : jsval) (ty name count : jsval) :
  aggregation_answers pq rt filters info first agg ->
  is_string (js_or first (JStr "total_properties")) = false ->
  js_get agg "type" = Some ty -> strict_eq_str ty "owner_with_most_properties" = false ->
  js_get agg "name" = Some name -> to_boolean name = false ->
  js_get agg "count" = Some count -> to_string count <> None ->
  dispatch schema pq off = Throw TypeError.
Proof.
  intros Ha Hk Hty Howner Hn Hname Hc Hcs. aggregation_unfold Ha.
  rewrite Hty, Hn, Hc. cbn [obind of_opt]. rewrite Howner. cbn [obind of_opt].
  rewrite Hname. destruct (to_string count); [|easy]. cbn [obind of_opt].
  destruct (js_or first (JStr "total_properties")); easy.
Qed.


(** C22: the metadata intent lists the number of schema attributes and
    every display name. *)
Theorem dispatch_metadata `{Backend} (schema : list SchemaAttr) (pq rt off : jsval) :
  js_get pq "response_text" = Some rt -> js_get pq "intent" = Some (JStr "metadata") ->
  dispatch schema pq off = Ok (JStr (metadata_text schema), [], false) /\
  forall a, In a schema -> exists pre post, metadata_text schema = (pre ++ displayName a ++ post)%string.
Proof.
  intros Hrt Hi. split; [rewrite (dispatch_unfold _ _ _ _ _ Hrt Hi); reflexivity|].
  intros a Ha. destruct (join_contains ", " (displayName a) (map displayName schema))
    as (pre & post & E); [now apply in_map|].
  unfold metadata_text. rewrite E.
  set (intro := ("I have information about " ++ string_of_nat (length schema) ++
                 " property attributes including: ")%string).
  set (outro := ". You can ask me about any property or get information like locations, owners, and amenities.").
  exists (intro ++ pre)%string, (post ++ outro)%string.
  unfold intro. rewrite <- !append_assoc. reflexivity.
Qed.

(** Any other intent keeps the parser's [response_text] and shows
    no records. *)
Theorem dispatch_other_intent `{Backend} (schema : list SchemaAttr) (pq rt i off : jsval) :
  js_get pq "response_text" = Some rt -> js_get pq "intent" = Some i ->
  Forall (fun lit => strict_eq_str i lit = false)
    ["property_lookup"; "location_filter"; "aggregation"; "metadata"] ->
  dispatch schema pq off = Ok (rt, [], false).
Proof.
  intros Hrt Hi Hall. rewrite (dispatch_unfold _ _ _ _ _ Hrt Hi).
  rewrite Forall_forall in Hall.
  rewrite !Hall by (simpl; tauto). reflexivity.
Qed.

(** The records of a lookup are the executor's page for the offset. *)
Lemma lookup_branch_results `{Backend} (et : string) (ft : string -> string -> string)
    (pq off rt : jsval) (rs : list jsval) (more : bool) :
  lookup_branch et ft pq off = Ok (rt, rs, more) ->
  exists filters r, getPropertiesWithFallback filters off page_size = Ok r /\ rs = properties r.
Proof.
  unfold lookup_branch. destruct (js_get pq "filters") as [filters|]; [|discriminate]. cbn [of_opt obind].
  destruct (getPropertiesWithFallback filters off page_size) as [r|e] eqn:Eq; [|discriminate]. cbn [obind].
  destruct (js_add off (JInt 5)); [|discriminate]. cbn [of_opt obind].
  destruct (js_lt _ (total r)); [|discriminate]. cbn [of_opt obind].
  destruct (Nat.eqb (length (properties r)) 0).
  - intros Hd. injection Hd as _ <- _. eauto.
  - destruct (to_string (total r)); [|discriminate]. cbn [of_opt obind].
    intros Hd. injection Hd as _ <- _. eauto.
Qed.

(** C17: when the query executor returns at most [limit] records, every
    answer of the intent handler carries at most five records: the page
    the route asks for is the five [hasMore] steps over. *)
Theorem dispatch_results_bounded `{Backend} (schema : list SchemaAttr) (pq off rt : jsval)
    (rs : list jsval) (more : bool) :
  (forall filters o limit r, getPropertiesWithFallback filters o limit = Ok r ->
                             length (properties r) <= limit) ->
  dispatch schema pq off = Ok (rt, rs, more) -> length rs <= 5.
Proof.
  intros Hlim. unfold dispatch.
  destruct (js_get pq "response_text") as [rt0|]; [|discriminate]. cbn [of_opt obind].
  destruct (js_get pq "intent") as [i|]; [|discriminate]. cbn [of_opt obind].
  destruct (strict_eq_str i "property_lookup");
    [|destruct (strict_eq_str i "location_filter")];
    [ intros Hd; destruct (lookup_branch_results _ _ _ _ _ _ _ Hd) as (f & r & Hr & ->);
      exact (Hlim _ _ _ _ Hr) .. |].
  destruct (strict_eq_str i "aggregation");
    [destruct (aggregation_branch pq rt0); [|discriminate]; cbn [obind]|];
    [|destruct (strict_eq_str i "metadata")];
    intros Hd; injection Hd as _ <- _; simpl; lia.
Qed.

(** ** Witnesses on the concrete backend *)

(** The spec's pagination examples: offset 0 of 12 has more, offset 10
    of 12 has not. *)
Lemma dispatch_lookup_hasMore_witness :
  (exists text, @dispatch (lookup_backend page_12) demo_schema parsed_lookup (JInt 0) =
     Ok (JStr text, [Table.record_A; Table.record_B], true)) /\
  (exists text, @dispatch (lookup_backend page_12) demo_schema parsed_location (JInt 10) =
     Ok (JStr text, [Table.record_A; Table.record_B], false)).
Proof.
  split.
  - apply (@dispatch_lookup_hasMore (lookup_backend page_12) demo_schema parsed_lookup (JStr "ok")
             (JObj []) "property_lookup" 0 12); try reflexivity. now left.
  - apply (@dispatch_lookup_hasMore (lookup_backend page_12) demo_schema parsed_location (JStr "ok")
             (JObj []) "location_filter" 10 12); try reflexivity. now right.
Defined.

Lemma dispatch_property_lookup_empty_witness :
  @dispatch (lookup_backend (page_of [] 0)) demo_schema parsed_lookup (JInt 0) =
  Ok (JStr lookup_empty_text, [], false).
Proof. apply dispatch_property_lookup_empty with (rt := JStr "ok") (filters := JObj []); try reflexivity. Defined.

Lemma dispatch_property_lookup_found_witness :
  @dispatch (lookup_backend page_12) demo_schema parsed_lookup (JInt 0) =
  Ok (JStr ("Found " ++ string_of_Z 12 ++ " property/properties. Showing " ++
            string_of_nat 2 ++ " of " ++ string_of_Z 12 ++ "."),
      [Table.record_A; Table.record_B], Z.ltb (0 + 5) 12).
Proof.
  apply dispatch_property_lookup_found with (rt := JStr "ok") (filters := JObj [])
    (ps := [Table.record_A; Table.record_B]) (t := 12%Z); try reflexivity.
  discriminate.
Defined.

Lemma dispatch_lookup_empty_negative_offset_witness :
  @dispatch (lookup_backend (page_of [] 0)) demo_schema parsed_lookup (JInt (-10)) =
  Ok (JStr lookup_empty_text, [], true).
Proof.
  apply dispatch_lookup_empty_negative_offset with (rt := JStr "ok") (filters := JObj []);
    reflexivity.
Defined.

(** The offset "1" gives [hasMore = false] where the number 1 gives [true]. *)
Lemma dispatch_lookup_string_offset_witness :
  (exists text, @dispatch (lookup_backend page_12) demo_schema parsed_lookup (JStr "1") =
     Ok (JStr text, [Table.record_A; Table.record_B], false)) /\
  (exists text, @dispatch (lookup_backend page_12) demo_schema parsed_lookup (JStr "0.") =
     Ok (JStr text, [Table.record_A; Table.record_B], true)) /\
  (exists text, @dispatch (lookup_backend page_12) demo_schema parsed_lookup (JInt 1) =
     Ok (JStr text, [Table.record_A; Table.record_B], true)).
Proof.
  split; [|split; [| eexists; reflexivity]].
  - apply (@dispatch_lookup_string_offset (lookup_backend page_12) demo_schema parsed_lookup (JStr "ok")
             (JObj []) "property_lookup" "1" 12); try reflexivity. now left.
  - apply (@dispatch_lookup_string_offset (lookup_backend page_12) demo_schema parsed_lookup (JStr "ok")
             (JObj []) "property_lookup" "0." 12); try reflexivity. now left.
Defined.

Lemma dispatch_aggregation_named_witness :
  @dispatch (agg_backend (JObj []) (JObj [("name", JStr "Jane"); ("count", JInt 7)])) demo_schema
    (parsed_agg (JObj [])) (JInt 0) =
  Ok (JStr ("Jane" ++ " has the most properties with " ++ string_of_Z 7 ++ " properties."), [], false).
Proof. eapply dispatch_aggregation_named; [repeat split | reflexivity | discriminate | reflexivity]. Defined.

Lemma dispatch_aggregation_count_witness :
  @dispatch (agg_backend (JObj []) (JObj [("count", JInt 42)])) demo_schema (parsed_agg (JObj [])) (JInt 0) =
  Ok (JStr ("There are " ++ string_of_Z 42 ++ " " ++ replace_char "_" " " "total_properties" ++ "."), [], false).
Proof. eapply dispatch_aggregation_count; [repeat split | reflexivity ..]. Defined.

Lemma dispatch_aggregation_owner_unnamed_witness :
  @dispatch (agg_backend (JObj []) (JObj [("type", JStr "owner_with_most_properties"); ("count", JInt 3)]))
    demo_schema (parsed_agg (JObj [])) (JInt 0) =
  Ok (JStr ("undefined has the most properties with " ++ string_of_Z 3 ++ " properties."), [], false).
Proof. eapply dispatch_aggregation_owner_unnamed; [repeat split | reflexivity ..]. Defined.

Lemma dispatch_aggregation_nonstring_kind_witness :
  @dispatch (agg_backend (JObj [("info_type", JArr [JInt 5])]) (JObj [("count", JInt 3)])) demo_schema
    (parsed_agg (JObj [("info_type", JArr [JInt 5])])) (JInt 0) = Throw TypeError.
Proof. eapply dispatch_aggregation_nonstring_kind; [repeat split | reflexivity .. | discriminate]. Defined.

Lemma dispatch_metadata_witness :
  @dispatch (demo_ok false false) demo_schema (parsed_intent "metadata") (JInt 0) =
    Ok (JStr (metadata_text demo_schema), [], false) /\
  forall a, In a demo_schema -> exists pre post, metadata_text demo_schema = (pre ++ displayName a ++ post)%string.
Proof. apply dispatch_metadata with (rt := JStr "Hello!"); reflexivity. Defined.

Lemma dispatch_other_intent_witness :
  @dispatch (demo_ok false false) demo_schema (parsed_intent "greeting") (JInt 0) = Ok (JStr "Hello!", [], false).
Proof. eapply dispatch_other_intent; try reflexivity. repeat constructor. Defined.

(** An executor that pages seven records and honours its limit. *)
Definition seven : list jsval :=
  map (fun n => JObj [("name", JStr n)]) ["A"; "B"; "C"; "D"; "E"; "F"; "G"].

Definition paged_backend : Backend := {|
  getUser := Ok (Some "u1"); requestJson := Ok body_ok; getPropertiesSchema := Ok demo_schema;
  generateSchemaDocumentation := fun s => js_join ", " (map internalName s);
  parseAndGenerateResponse := fun _ _ => Ok parsed_lookup;
  getPropertiesWithFallback := fun _ _ limit => Ok {| properties := firstn limit seven; total := JInt 7 |};
  getAggregationData := fun _ => Ok JNull;
  insertError := fun _ _ => None |}.

Lemma dispatch_results_bounded_witness :
  length (firstn 5 seven) <= 5 /\
  @dispatch paged_backend demo_schema parsed_lookup (JInt 0) =
  Ok (JStr (lookup_found_text "7" "5"), firstn 5 seven, true).
Proof.
  split; [|reflexivity].
  apply (@dispatch_results_bounded paged_backend demo_schema parsed_lookup (JInt 0)
           (JStr (lookup_found_text "7" "5")) _ true); [|reflexivity].
  intros f o limit r Hr. injection Hr as <-. apply firstn_le_length.
Defined.

End Dispatch.
