(* ===== verification/Chat.v ===== *)
(** * Chat: the [POST] handler of [src/src/app/api/chat/route.ts]

    The handler authenticates the caller, reads the JSON body, stores the
    user's message (best effort), asks the language model to parse it,
    dispatches on the parsed intent ([Dispatch]), renders the page of
    results as a markdown table ([Table]), stores the assistant's message
    with its pagination metadata and answers with JSON.  Any throw inside
    the [try] becomes a 500 "Internal server error".  [POST_body] is the
    body of the [try], [POST] the handler; both run in the [Runtime] monad
    over the [World] of [ChatData], for any [Backend].

    The theorems: each error answer with the writes it leaves (an
    unreadable body included); that the handler always answers one of its
    five responses; that every run keeps the messages table well formed;
    and, for a turn whose collaborators answer as a [Turn] record says,
    the rows stored and the answer on every outcome of the two inserts. *)

From Stdlib Require Import String Ascii List Bool ZArith Lia.
From S2P Require Import Prelude JsValue Runtime Table ChatData Dispatch.
Import ListNotations.
Import ChatData Dispatch.
Local Open Scope string_scope.
Local Open Scope chat_scope.

Module Chat.

(** ** The handler, lines 13-159 *)

Definition user_row (conversationId message : jsval) : Row :=
  {| conversation_id := conversationId; role := "user"; content := message; metadata := None |}.

Definition assistant_row (conversationId : jsval) (text : string) (md : Metadata) : Row :=
  {| conversation_id := conversationId; role := "assistant"; content := JStr text;
     metadata := Some md |}.

(** [`${responseText}\n\n${formattedResults}`.trim()] *)
Definition display_text (responseText : jsval) (formattedResults : string) : option string :=
  rt <-? to_string responseText ;; Some (js_trim (rt ++ nl ++ nl ++ formattedResults)).

(** [offset = 0] in the destructuring: the default replaces [undefined]
    only. *)
Definition offset_default (offset_given : jsval) : jsval :=
  match offset_given with JUndefined => JInt 0 | v => v end.

(** The body of the [try] block. *)
Definition POST_body `{Backend} : M World Response :=
  user <- await getUser ;;
  match user with
  | None => ret (JsonError 401 "Unauthorized - Please log in")
  | Some _ =>
    body <- await requestJson ;;
    message <- of_option (js_get body "message") ;;
    conversationId <- of_option (js_get body "conversationId") ;;
    offset_given <- of_option (js_get body "offset") ;;
    let offset := offset_default offset_given in
    if negb (to_boolean message) || negb (to_boolean conversationId) then
      ret (JsonError 400 "Missing message or conversationId")
    else
      saved <- insert_message (user_row conversationId message) ;;
      (match saved with
       | inl _ => console_error "Error saving user message:"
       | inr _ => ret tt
       end) ;;
      schema <- await getPropertiesSchema ;;
      let schemaDocumentation := generateSchemaDocumentation schema in
      parsedQuery <- await (parseAndGenerateResponse message schemaDocumentation) ;;
      d <- await (dispatch schema parsedQuery offset) ;;
      let '(responseText, allResults, hasMore) := d in
      formattedResults <- (if Nat.ltb 0 (length allResults)
                           then of_option (Table.formatPropertiesTable allResults)
                           else ret EmptyString) ;;
      text <- of_option (display_text responseText formattedResults) ;;
      intent <- of_option (js_get parsedQuery "intent") ;;
      let md := {| md_intent := intent; md_full_results_data := allResults;
                   md_has_more := hasMore; md_current_offset := offset;
                   md_total_results := length allResults |} in
      stored <- insert_message (assistant_row conversationId text md) ;;
      match stored with
      | inl _ => console_error "Error saving assistant message:" ;;
                 ret (JsonError 500 "Error saving message")
      | inr messageData => ret (JsonOk messageData text hasMore offset)
      end
  end.

Definition POST `{Backend} : M World Response :=
  try_catch POST_body
    (fun _ => console_error "Error in chat endpoint:" ;;
              ret (JsonError 500 "Internal server error")).

(** ** The handler *)

Ltac run_route :=
  cbv beta iota zeta delta [POST try_catch POST_body bind await ret of_option throw modify
                            console_error insert_message].

(** C1: without an authenticated user the handler answers 401 and
    writes nothing. *)
Theorem POST_unauthorized `{Backend} (w : World) :
  getUser = Ok None -> POST w = (Ok (JsonError 401 "Unauthorized - Please log in"), w).
Proof. intros Hu. run_route. rewrite Hu. reflexivity. Qed.

(** C2: a body whose [message] or [conversationId] is missing or falsy is
    answered 400 and nothing is written. *)
Theorem POST_bad_request `{Backend} (w : World) (u : string) (body m c : jsval) :
  getUser = Ok (Some u) -> requestJson = Ok body ->
  js_get body "message" = Some m -> js_get body "conversationId" = Some c ->
  to_boolean m = false \/ to_boolean c = false ->
  POST w = (Ok (JsonError 400 "Missing message or conversationId"), w).
Proof.
  intros Hu Hb Hm Hc Hfalsy. destruct (js_get_other _ _ _ "offset" Hm) as [o Ho].
  run_route. rewrite Hu, Hb. run_route. rewrite Hm, Hc, Ho. run_route.
  destruct Hfalsy as [-> | ->]; [reflexivity|]. now rewrite orb_true_r.
Qed.

(** C38: a body that is not JSON, or the JSON [null], is not answered
    400 like a body missing its fields: reading [message] out of it
    throws inside the [try], and the turn answers 500 "Internal server
    error" with nothing stored. *)
Theorem POST_unreadable_body `{Backend} (w : World) (u : string) (e : exn) :
  getUser = Ok (Some u) ->
  requestJson = Throw e \/ requestJson = Ok JNull ->
  POST w = (Ok (JsonError 500 "Internal server error"),
            {| messages := messages w; log := log w ++ ["Error in chat endpoint:"] |}).
Proof. intros Hu Hb. run_route. rewrite Hu. destruct Hb as [-> | ->]; reflexivity. Qed.

(** The answers the interface of the route allows (spec, section 6). *)
Definition valid_response (r : Response) : Prop :=
  r = JsonError 401 "Unauthorized - Please log in" \/
  r = JsonError 400 "Missing message or conversationId" \/
  r = JsonError 500 "Error saving message" \/
  r = JsonError 500 "Internal server error" \/
  exists m t h o, r = JsonOk m t h o.

Ltac valid_response_tac :=
  unfold valid_response; repeat (first [left; reflexivity | right]); eauto.

Lemma POST_body_ensures `{Backend} : ensures valid_response POST_body.
Proof.
  unfold POST_body, insert_message, console_error. cbv zeta. ensures_split; valid_response_tac.
Qed.

(** C7: the handler always answers: no exception escapes the [try], and
    every answer is one of the five responses of the route's interface. *)
Theorem POST_answers `{Backend} (w : World) :
  exists r w', POST w = (Ok r, w') /\ valid_response r.
Proof.
  pose proof (POST_body_ensures w) as Hens. unfold POST, try_catch.
  destruct (POST_body w) as [[r|e] w']; simpl in Hens; eauto.
  eexists _, _. split; [reflexivity | valid_response_tac].
Qed.

(** ** The messages table stays well formed *)

(** A row as the spec's data model has it: a user message without
    metadata, or an assistant message whose metadata counts its records;
    in both a truthy conversation id. *)
Definition row_wf (r : Row) : Prop :=
  to_boolean (conversation_id r) = true /\
  ((role r = "user" /\ metadata r = None) \/
   (role r = "assistant" /\
    exists md, metadata r = Some md /\ md_total_results md = length (md_full_results_data md))).

(** Every row is stored under its position and is well formed. *)
Definition table_wf (w : World) : Prop :=
  forall i sr, nth_error (messages w) i = Some sr -> row_id sr = i /\ row_wf (row sr).

Lemma insert_message_preserves `{Backend} (r : Row) :
  row_wf r -> preserves table_wf (insert_message r).
Proof.
  intros Hr w Hw. unfold insert_message. destruct (insertError (messages w) r); [exact Hw|].
  intros i sr. cbn [snd messages]. destruct (Nat.lt_ge_cases i (length (messages w))) as [Hi|Hi].
  - rewrite nth_error_app1 by exact Hi. apply Hw.
  - rewrite nth_error_app2 by exact Hi. destruct (i - length (messages w)) as [|k] eqn:E.
    + intros Hs. injection Hs as <-. split; [cbn; lia | exact Hr].
    + destruct k; discriminate.
Qed.

(** Past the 400 check, the conversation id is truthy. *)
Lemma guard_passed (m c : jsval) :
  (negb (to_boolean m) || negb (to_boolean c))%bool = false -> to_boolean c = true.
Proof. intros H. apply orb_false_iff in H as [_ H]. now apply negb_false_iff. Qed.

Lemma console_error_preserves (label : string) : preserves table_wf (console_error label).
Proof. apply preserves_modify. intros w Hw. exact Hw. Qed.

(** C10: every run of [POST], whatever the collaborators answer and
    whether it succeeds, fails or throws, keeps the messages table well
    formed: rows stay under their positions, every user row has no
    metadata, every assistant row's metadata counts its records, and no
    row is stored without a truthy conversation id. *)
Theorem POST_preserves_table_wf `{Backend} (w : World) :
  table_wf w -> table_wf (snd (POST w)).
Proof.
  enough (Hp : preserves table_wf POST) by exact (Hp w).
  unfold POST, POST_body. cbv zeta. preserves_split;
    try apply console_error_preserves.
  all: apply insert_message_preserves; split;
    [ match goal with H : (negb _ || negb _)%bool = false |- _ => exact (guard_passed _ _ H) end
    | first [left; split; reflexivity | right; split; [reflexivity | eexists; split; reflexivity]] ].
Qed.

(** ** One turn that reaches the assistant insert *)

(** The values [POST_body] computes on the way: the user, the body and its
    three fields, the schema, the parsed query, the result of the intent
    handler, the table and the text. *)
Record Turn : Type := {
  turn_user : string;
  turn_body : jsval;
  turn_message : jsval;
  turn_conversation : jsval;
  turn_offset : jsval;
  turn_schema : list SchemaAttr;
  turn_parsed : jsval;
  turn_response_text : jsval;
  turn_results : list jsval;
  turn_hasMore : bool;
  turn_formatted : string;
  turn_text : string;
  turn_intent : jsval
}.

(** The collaborators answer the turn's first steps, up to the parse of
    the message: an authenticated user, a body with a truthy message and
    conversation id, the schema and the parsed query. *)
Definition turn_prefix_answers `{Backend} (t : Turn) : Prop :=
  getUser = Ok (Some (turn_user t)) /\ requestJson = Ok (turn_body t) /\
  js_get (turn_body t) "message" = Some (turn_message t) /\
  js_get (turn_body t) "conversationId" = Some (turn_conversation t) /\
  js_get (turn_body t) "offset" = Some (turn_offset t) /\
  to_boolean (turn_message t) = true /\ to_boolean (turn_conversation t) = true /\
  getPropertiesSchema = Ok (turn_schema t) /\
  parseAndGenerateResponse (turn_message t) (generateSchemaDocumentation (turn_schema t))
  = Ok (turn_parsed t).

(** ... and the rest: the intent handler, the table and the text succeed. *)
Definition turn_answers `{Backend} (t : Turn) : Prop :=
  turn_prefix_answers t /\
  dispatch (turn_schema t) (turn_parsed t) (offset_default (turn_offset t))
  = Ok (turn_response_text t, turn_results t, turn_hasMore t) /\
  ((turn_results t = [] /\ turn_formatted t = EmptyString) \/
   (turn_results t <> [] /\ Table.formatPropertiesTable (turn_results t) = Some (turn_formatted t))) /\
  display_text (turn_response_text t) (turn_formatted t) = Some (turn_text t) /\
  js_get (turn_parsed t) "intent" = Some (turn_intent t).

Definition turn_metadata (t : Turn) : Metadata :=
  {| md_intent := turn_intent t; md_full_results_data := turn_results t;
     md_has_more := turn_hasMore t; md_current_offset := offset_default (turn_offset t);
     md_total_results := length (turn_results t) |}.

Definition turn_user_msg (t : Turn) : Row := user_row (turn_conversation t) (turn_message t).

Definition turn_assistant_msg (t : Turn) : Row :=
  assistant_row (turn_conversation t) (turn_text t) (turn_metadata t).

Definition turn_user_row (t : Turn) (w : World) : StoredRow :=
  {| row_id := length (messages w); row := turn_user_msg t |}.

Definition turn_assistant_row (t : Turn) (id : nat) : StoredRow :=
  {| row_id := id; row := turn_assistant_msg t |}.

(** The world after the best-effort insert of the user's message. *)
Definition after_user_insert `{Backend} (t : Turn) (w : World) : World :=
  match insertError (messages w) (turn_user_msg t) with
  | Some _ => {| messages := messages w; log := log w ++ ["Error saving user message:"] |}
  | None => {| messages := messages w ++ [turn_user_row t w]; log := log w |}
  end.

(** Everything up to the parse of the message, on both outcomes of the
    user-message insert. *)
Local Ltac turn_prefix H :=
  destruct H as (Hu & Hb & Hm & Hc & Ho & Hmt & Hct & Hs & Hp);
  run_route; rewrite Hu, Hb; run_route; rewrite Hm, Hc, Ho; run_route;
  rewrite Hmt, Hct; cbn [negb orb andb];
  unfold after_user_insert, turn_user_row, turn_assistant_msg, turn_metadata, turn_user_msg;
  destruct (insertError _ (user_row _ _)); cbn [messages log];
  rewrite Hs; run_route; rewrite Hp; run_route.

Lemma POST_turn `{Backend} (t : Turn) (w : World) :
  turn_answers t ->
  POST w =
  match insertError (messages (after_user_insert t w)) (turn_assistant_msg t) with
  | Some _ => (Ok (JsonError 500 "Error saving message"),
               {| messages := messages (after_user_insert t w);
                  log := log (after_user_insert t w) ++ ["Error saving assistant message:"] |})
  | None =>
      let ar := {| row_id := length (messages (after_user_insert t w)); row := turn_assistant_msg t |} in
      (Ok (JsonOk ar (turn_text t) (turn_hasMore t) (offset_default (turn_offset t))),
       {| messages := messages (after_user_insert t w) ++ [ar]; log := log (after_user_insert t w) |})
  end.
Proof.
  intros (Hpre & Hd & Hf & Ht & Hi). turn_prefix Hpre; rewrite Hd; run_route;
    (destruct Hf as [[Hrs Hfe] | [Hne Hfmt]];
     [rewrite Hfe in Ht; rewrite Hrs; cbn [length Nat.ltb Nat.leb]
     | replace (Nat.ltb 0 (length (turn_results t))) with true
         by (destruct (turn_results t); [easy | reflexivity]);
       rewrite Hfmt]);
    run_route; rewrite Ht; run_route; rewrite Hi; run_route; cbn [messages log];
    destruct (insertError _ (assistant_row _ _ _)); reflexivity.
Qed.

(** A turn whose intent handler throws, up to the [catch]. *)
Lemma POST_prefix_throw `{Backend} (t : Turn) (w : World) (e : exn) :
  turn_prefix_answers t ->
  dispatch (turn_schema t) (turn_parsed t) (offset_default (turn_offset t)) = Throw e ->
  POST w =
  (Ok (JsonError 500 "Internal server error"),
   {| messages := messages (after_user_insert t w);
      log := log (after_user_insert t w) ++ ["Error in chat endpoint:"] |}).
Proof. intros Hpre He. turn_prefix Hpre; rewrite He; run_route; reflexivity. Qed.

(** Rewrite [POST] along a turn and the outcome of the user insert. *)
Local Ltac turn_rewrite Ht H1 :=
  rewrite (POST_turn _ _ Ht); unfold after_user_insert; rewrite H1; cbn [messages log].

(** C3: a successful turn appends exactly two rows, the user's message
    and then the assistant's, whose content is the display text and whose
    metadata records the intent, the full page, [hasMore] and the offset;
    it answers with the stored assistant row, the same text, [hasMore]
    and the offset unchanged. *)
Theorem POST_success `{Backend} (t : Turn) (w : World) :
  turn_answers t ->
  insertError (messages w) (turn_user_msg t) = None ->
  insertError (messages w ++ [turn_user_row t w]) (turn_assistant_msg t) = None ->
  POST w =
  (Ok (JsonOk (turn_assistant_row t (S (length (messages w)))) (turn_text t) (turn_hasMore t)
              (offset_default (turn_offset t))),
   {| messages := messages w ++ [turn_user_row t w; turn_assistant_row t (S (length (messages w)))];
      log := log w |}).
Proof.
  intros Ht H1 H2. turn_rewrite Ht H1.
  rewrite H2, length_app, Nat.add_comm, <- app_assoc. reflexivity.
Qed.

(** C5: a failed insert of the user's message is logged and swallowed:
    the turn still stores the assistant's message and answers 200. *)
Theorem POST_user_insert_failed `{Backend} (t : Turn) (w : World) (e : string) :
  turn_answers t ->
  insertError (messages w) (turn_user_msg t) = Some e ->
  insertError (messages w) (turn_assistant_msg t) = None ->
  POST w =
  (Ok (JsonOk (turn_assistant_row t (length (messages w))) (turn_text t) (turn_hasMore t)
              (offset_default (turn_offset t))),
   {| messages := messages w ++ [turn_assistant_row t (length (messages w))];
      log := log w ++ ["Error saving user message:"] |}).
Proof. intros Ht H1 H2. turn_rewrite Ht H1. rewrite H2. reflexivity. Qed.

(** C4: a failed insert of the assistant's message answers 500 "Error
    saving message" with no payload; the user's message stays stored. *)
Theorem POST_assistant_insert_failed `{Backend} (t : Turn) (w : World) (e : string) :
  turn_answers t ->
  insertError (messages w) (turn_user_msg t) = None ->
  insertError (messages w ++ [turn_user_row t w]) (turn_assistant_msg t) = Some e ->
  POST w =
  (Ok (JsonError 500 "Error saving message"),
   {| messages := messages w ++ [turn_user_row t w];
      log := log w ++ ["Error saving assistant message:"] |}).
Proof. intros Ht H1 H2. turn_rewrite Ht H1. now rewrite H2. Qed.

(** C6: a throw inside the intent handler (a rejected executor call, a
    [TypeError]) answers 500 "Internal server error"; the only write is
    the user's message, if its insert succeeded. *)
Theorem POST_dispatch_throws `{Backend} (t : Turn) (w : World) (e : exn) :
  turn_prefix_answers t ->
  dispatch (turn_schema t) (turn_parsed t) (offset_default (turn_offset t)) = Throw e ->
  POST w =
  (Ok (JsonError 500 "Internal server error"),
   {| messages := messages (after_user_insert t w);
      log := log (after_user_insert t w) ++ ["Error in chat endpoint:"] |}).
Proof. apply POST_prefix_throw. Qed.

(** ** Witnesses on the concrete backend *)

Lemma POST_unauthorized_witness :
  @POST (demo_backend None body_ok parsed_lookup page_12 JNull false false) w0 =
  (Ok (JsonError 401 "Unauthorized - Please log in"), w0).
Proof. apply POST_unauthorized. reflexivity. Defined.

Lemma POST_bad_request_witness :
  @POST (demo_backend (Some "u1") (JObj [("conversationId", JStr "c1")]) parsed_lookup page_12
           JNull false false) w0 =
  (Ok (JsonError 400 "Missing message or conversationId"), w0).
Proof. eapply POST_bad_request; try reflexivity. now left. Defined.

Lemma POST_unreadable_body_witness :
  @POST (demo_backend (Some "u1") JNull parsed_lookup page_12 JNull false false) w0 =
  (Ok (JsonError 500 "Internal server error"), {| messages := []; log := ["Error in chat endpoint:"] |}).
Proof. apply (POST_unreadable_body w0 "u1" TypeError); [reflexivity | now right]. Defined.

(** The turn of [demo_ok]: a property lookup whose page holds two of
    twelve records, with no offset in the body. *)
Definition demo_formatted : string :=
  match Table.formatPropertiesTable [Table.record_A; Table.record_B] with Some f => f | None => "" end.

Definition demo_turn : Turn := {|
  turn_user := "u1"; turn_body := body_ok; turn_message := JStr "show me properties";
  turn_conversation := JStr "c1"; turn_offset := JUndefined; turn_schema := demo_schema;
  turn_parsed := parsed_lookup; turn_response_text := JStr (lookup_found_text "12" "2");
  turn_results := [Table.record_A; Table.record_B]; turn_hasMore := true;
  turn_formatted := demo_formatted;
  turn_text := match display_text (JStr (lookup_found_text "12" "2")) demo_formatted with
               | Some x => x | None => "" end;
  turn_intent := JStr "property_lookup" |}.

(** The aggregation turn of [POST_dispatch_throws_witness], up to the
    parse: the later fields are never reached. *)
Definition demo_agg_turn : Turn := {|
  turn_user := "u1"; turn_body := body_ok; turn_message := JStr "show me properties";
  turn_conversation := JStr "c1"; turn_offset := JUndefined; turn_schema := demo_schema;
  turn_parsed := parsed_agg (JObj [("info_type", JArr [JInt 5])]);
  turn_response_text := JUndefined; turn_results := []; turn_hasMore := false;
  turn_formatted := ""; turn_text := ""; turn_intent := JStr "aggregation" |}.

Local Ltac turn_answers_tac :=
  repeat split; try reflexivity; right; split; [discriminate | reflexivity].

Lemma POST_success_witness :
  exists resp w', @POST (demo_ok false false) w0 = (Ok resp, w') /\ length (messages w') = 2.
Proof.
  eexists _, _. split; [apply (@POST_success (demo_ok false false) demo_turn w0) | reflexivity];
    [turn_answers_tac | reflexivity ..].
Defined.

Lemma POST_user_insert_failed_witness :
  exists resp w', @POST (demo_ok true false) w0 = (Ok resp, w') /\
    length (messages w') = 1 /\ log w' = ["Error saving user message:"].
Proof.
  eexists _, _. split; [apply (@POST_user_insert_failed (demo_ok true false) demo_turn w0 "insert failed")
                       | split; reflexivity];
    [turn_answers_tac | reflexivity ..].
Defined.

Lemma POST_assistant_insert_failed_witness :
  exists w', @POST (demo_ok false true) w0 = (Ok (JsonError 500 "Error saving message"), w') /\
    length (messages w') = 1.
Proof.
  eexists. split; [apply (@POST_assistant_insert_failed (demo_ok false true) demo_turn w0 "insert failed")
                  | reflexivity];
    [turn_answers_tac | reflexivity ..].
Defined.

Lemma POST_dispatch_throws_witness :
  exists w', @POST (agg_backend (JObj [("info_type", JArr [JInt 5])]) (JObj [("count", JInt 3)])) w0 =
    (Ok (JsonError 500 "Internal server error"), w') /\ log w' = ["Error in chat endpoint:"].
Proof.
  eexists. split; [apply (@POST_dispatch_throws _ demo_agg_turn w0 TypeError) | reflexivity];
    [repeat split | reflexivity].
Defined.

(** A successful turn on the empty table leaves two well-formed rows. *)
Lemma POST_preserves_table_wf_witness :
  length (messages (snd (@POST (demo_ok false false) w0))) = 2 /\
  table_wf (snd (@POST (demo_ok false false) w0)).
Proof.
  split; [reflexivity|]. apply POST_preserves_table_wf.
  intros i sr H. destruct i; discriminate.
Defined.

End Chat.
