(* ===== verification/Interface.v ===== *)
(** * Interface: the JSON answers of the chat route and their types

    Every [return NextResponse.json(body, { status })] of
    [src/src/app/api/chat/route.ts] sends a status and a JSON body: the
    [{ error }] objects of lines 22-25, 33-35, 140-143 and 154-157, and
    the [{ message, response, hasMore, currentOffset }] object of lines
    146-151, whose [message] is the stored assistant row with the
    metadata object of lines 127-133.  [response_json] gives that pair
    for each [Response] of the model.

    The spec (section 6) gives each answer a type: [jtype] is a small
    language of JSON types and [has_type] checks a value against one.
    The theorem of this file: whenever the request's [offset] is absent
    or an integer, as the spec's request type says, every answer of
    [POST], whatever the collaborators answer, has a status and a body of
    the interface. *)

From Stdlib Require Import String List Bool ZArith Lia.
From S2P Require Import Prelude JsValue Runtime Table ChatData Dispatch Chat.
Import ListNotations.
Import ChatData Dispatch Chat.
Local Open Scope string_scope.
Local Open Scope chat_scope.

Module Interface.

(** ** The bodies the route sends *)

(** The metadata object, lines 127-133. *)
Definition metadata_json (md : Metadata) : jsval :=
  JObj [("intent", md_intent md); ("full_results_data", JArr (md_full_results_data md));
        ("has_more", JBool (md_has_more md)); ("current_offset", md_current_offset md);
        ("total_results", JInt (Z.of_nat (md_total_results md)))].

(** The record [.select().single()] returns: the inserted object with
    the id the database gives it. *)
Definition row_json (sr : StoredRow) : jsval :=
  JObj [("id", JInt (Z.of_nat (row_id sr))); ("conversation_id", conversation_id (row sr));
        ("role", JStr (role (row sr))); ("content", content (row sr));
        ("metadata", match metadata (row sr) with Some md => metadata_json md | None => JNull end)].

(** [NextResponse.json(body, { status })]: the status and the body. *)
Definition response_json (r : Response) : nat * jsval :=
  match r with
  | JsonError status error => (status, JObj [("error", JStr error)])
  | JsonOk message response hasMore currentOffset =>
      (200, JObj [("message", row_json message); ("response", JStr response);
                  ("hasMore", JBool hasMore); ("currentOffset", currentOffset)])
  end.

(** ** JSON types *)

Inductive jtype : Type :=
| TAny
| TNull
| TBool
| TInteger
| TString
| TUnion (a b : jtype)
| TObject (fields : list (string * jtype)).

(** [v] has every field [fields] lists, each of its type; other fields
    are allowed. *)
Fixpoint has_type (v : jsval) (t : jtype) {struct t} : bool :=
  match t with
  | TAny => true
  | TNull => match v with JNull => true | _ => false end
  | TBool => match v with JBool _ => true | _ => false end
  | TInteger => match v with JNum (NFin _) => true | _ => false end
  | TString => match v with JStr _ => true | _ => false end
  | TUnion a b => has_type v a || has_type v b
  | TObject fields =>
      match v with
      | JObj kvs =>
          (fix fields_ok (fs : list (string * jtype)) : bool :=
             match fs with
             | [] => true
             | (k, tk) :: fs' =>
                 match assoc_last k kvs with Some w => has_type w tk | None => false end
                 && fields_ok fs'
             end) fields
      | _ => false
      end
  end.

(** The types of the spec's interface, section 6. *)
Definition metadata_type : jtype :=
  TObject [("has_more", TBool); ("current_offset", TInteger); ("total_results", TInteger)].

Definition message_type : jtype :=
  TObject [("id", TInteger); ("role", TString); ("content", TAny);
           ("metadata", TUnion TNull metadata_type)].

Definition ok_type : jtype :=
  TObject [("message", message_type); ("response", TString); ("hasMore", TBool);
           ("currentOffset", TInteger)].

Definition error_type : jtype := TObject [("error", TString)].

(** A status of the interface with a body of its type. *)
Definition interface_ok (r : Response) : bool :=
  let '(status, body) := response_json r in
  if Nat.eqb status 200 then has_type body ok_type
  else (Nat.eqb status 400 || Nat.eqb status 401 || Nat.eqb status 500) && has_type body error_type.

(** The request type's [offset?: integer]. *)
Definition offset_typed (body : jsval) : bool :=
  match js_get body "offset" with
  | Some JUndefined | Some (JNum (NFin _)) => true
  | _ => false
  end.

(** ** The answers of [POST] have the interface's types *)

(** A bind on an insert, remembering the row it stored. *)
Lemma ensures_bind_insert `{Backend} {B} (P : B -> Prop) (r : Row) (k : string + StoredRow -> M World B) :
  (forall e, ensures P (k (inl e))) -> (forall sr, row sr = r -> ensures P (k (inr sr))) ->
  ensures P (bind (insert_message r) k).
Proof.
  intros He Hs w. unfold bind, insert_message.
  destruct (insertError (messages w) r); [apply He | apply Hs; reflexivity].
Qed.

Local Ltac insert_case :=
  idtac; match goal with
  | |- ensures _ (bind (insert_message _) _) => apply ensures_bind_insert; [intro | intros ? ?]
  end.

(** The offset of a typed request is missing or an integer. *)
Lemma offset_typed_cases (body og : jsval) :
  offset_typed body = true -> js_get body "offset" = Some og ->
  og = JUndefined \/ exists z, og = JInt z.
Proof.
  unfold offset_typed. intros Ht Ho. rewrite Ho in Ht.
  destruct og as [| | |[z|]| | |]; try discriminate; [left | right; exists z]; reflexivity.
Qed.

Lemma POST_body_interface `{Backend} :
  (forall body, requestJson = Ok body -> offset_typed body = true) ->
  ensures (fun r => interface_ok r = true) POST_body.
Proof.
  intros Hreq. unfold POST_body, console_error. cbv zeta.
  ensures_split_with insert_case; try reflexivity.
  all: match goal with
  | Hb : requestJson = Ok ?body, Ho : js_get ?body "offset" = Some ?og,
    Hr : row ?sr = _ |- _ =>
      destruct (offset_typed_cases body og (Hreq body Hb) Ho) as [-> | [z ->]];
      unfold interface_ok, response_json, row_json; rewrite Hr; reflexivity
  end.
Qed.

(** C9: when the request's [offset] is absent or an integer, as the
    spec's request type says, every run of [POST], whatever the
    collaborators answer, answers a status of the interface with a body
    of its type: 200 with [{message, response: string, hasMore: boolean,
    currentOffset: integer}] whose message carries an integer id and an
    integer [current_offset], or 400, 401, 500 with [{error: string}]. *)
Theorem POST_interface `{Backend} (w : World) :
  (forall body, requestJson = Ok body -> offset_typed body = true) ->
  exists r w', POST w = (Ok r, w') /\ interface_ok r = true.
Proof.
  intros Hreq. pose proof (POST_body_interface Hreq w) as Hens. unfold POST, try_catch.
  destruct (POST_body w) as [[r|e] w']; simpl in Hens; [eauto|].
  eexists _, _. split; reflexivity.
Qed.

(** The request of [demo_ok] has no [offset]: its turn is answered with
    a body of the interface. *)
Lemma POST_interface_witness :
  (forall body, @requestJson (demo_ok false false) = Ok body -> offset_typed body = true) /\
  exists r w', @POST (demo_ok false false) w0 = (Ok r, w') /\ interface_ok r = true.
Proof.
  assert (Hreq : forall body, @requestJson (demo_ok false false) = Ok body -> offset_typed body = true)
    by (intros body Hb; vm_compute in Hb; injection Hb as <-; reflexivity).
  split; [exact Hreq | exact (@POST_interface (demo_ok false false) w0 Hreq)].
Defined.

End Interface.
