(* ===== verification/ChatSpec.v ===== *)
(** * ChatSpec: a typed specification of a chat turn, and its refinement

    The route of [src/src/app/api/chat/route.ts] reads untyped JSON: the
    request body, the parsed query of the language model, the records
    and the aggregation result of the query executor.  This file states
    what a turn does when every collaborator answers with values of the
    types the spec (sections 3 and 6) gives them, with no JSON in sight:
    [TypedBackend] holds the typed answers, [spec_turn] says which answer
    the turn gives, which messages it stores and what it logs, in the
    terms of the spec (an intent decides the reply; a lookup shows a page
    of five and [hasMore] is [offset + 5 < total]; the reply is the text,
    a blank line and the table, trimmed).

    [encode] turns typed answers into the [Backend] the route sees, and
    [POST_refines_spec] proves that [POST] on the encoded backend does
    exactly what [spec_turn] says: same answer, same stored rows (up to
    the encoding of a message as a row), same log.  A rejected executor
    call is the one failure typed answers can produce, and the spec
    answers it with the 500 of the [catch]. *)

From Stdlib Require Import String Ascii List Bool ZArith Lia.
From S2P Require Import Prelude JsValue Runtime Table ChatData Dispatch Chat.
Import ListNotations.
Import ChatData Dispatch Chat.
Local Open Scope string_scope.
Local Open Scope chat_scope.

Module ChatSpec.

(** ** Typed answers of the collaborators *)

(** A property record; the table shows three of its fields. *)
Record Property : Type := { p_name : option string; p_address : option string; p_owner : option string }.

(** The result of [getAggregationData]: [null], or a typed object. *)
Inductive AggResult : Type :=
| AggNull
| AggObj (type : string) (name : option string) (count : Z).

(** The parsed query: its intent, its default reply, and the
    [filters.info_type] list the aggregation reads. *)
Record Query : Type := { q_intent : string; q_response_text : string; q_info_type : list string }.

(** The request body [{message, conversationId, offset?}]. *)
Record Request : Type := { rq_message : string; rq_conversation : string; rq_offset : option Z }.

Record TypedBackend : Type := {
  tb_user : option string;
  tb_request : Request;
  tb_schema : list SchemaAttr;
  tb_doc : list SchemaAttr -> string;
  tb_parse : string -> string -> Query;
  (** The executor's page at an offset with a limit, and the total;
      [None] is a rejected call. *)
  tb_page : Z -> nat -> option (list Property * Z);
  tb_aggregate : string -> option AggResult;
  tb_user_insert_fails : bool;
  tb_assistant_insert_fails : bool
}.

(** ** Their JSON encoding *)

Definition enc_field (key : string) (o : option string) : list (string * jsval) :=
  match o with Some s => [(key, JStr s)] | None => [] end.

Definition enc_property (p : Property) : jsval :=
  JObj (enc_field "name" (p_name p) ++ enc_field "address" (p_address p) ++ enc_field "owner" (p_owner p)).

Definition enc_agg (a : AggResult) : jsval :=
  match a with
  | AggNull => JNull
  | AggObj ty n c => JObj ([("type", JStr ty)] ++ enc_field "name" n ++ [("count", JInt c)])
  end.

Definition enc_query (q : Query) : jsval :=
  JObj [("intent", JStr (q_intent q));
        ("filters", JObj [("info_type", JArr (map JStr (q_info_type q)))]);
        ("response_text", JStr (q_response_text q))].

Definition enc_request (r : Request) : jsval :=
  JObj ([("message", JStr (rq_message r)); ("conversationId", JStr (rq_conversation r))] ++
        match rq_offset r with Some o => [("offset", JInt o)] | None => [] end).

Definition insert_failure (fails : bool) : option string := if fails then Some "insert failed" else None.

(** The backend the route sees: each collaborator answers the encoding of
    the typed answer; a non-string message or kind and a non-numeric
    offset cannot reach them. *)
Definition encode (tb : TypedBackend) : Backend := {|
  getUser := Ok (tb_user tb);
  requestJson := Ok (enc_request (tb_request tb));
  getPropertiesSchema := Ok (tb_schema tb);
  generateSchemaDocumentation := tb_doc tb;
  parseAndGenerateResponse := fun m doc =>
    match m with JStr s => Ok (enc_query (tb_parse tb s doc)) | _ => Throw TypeError end;
  getPropertiesWithFallback := fun _ off limit =>
    match off with
    | JNum (NFin o) =>
        match tb_page tb o limit with
        | Some (ps, t) => Ok {| properties := map enc_property ps; total := JInt t |}
        | None => Throw (Rejected "query failed")
        end
    | _ => Throw TypeError
    end;
  getAggregationData := fun k =>
    match k with
    | JStr s => match tb_aggregate tb s with Some a => Ok (enc_agg a) | None => Throw (Rejected "query failed") end
    | _ => Throw TypeError
    end;
  insertError := fun _ r =>
    if String.eqb (role r) "user" then insert_failure (tb_user_insert_fails tb)
    else insert_failure (tb_assistant_insert_fails tb)
|}.

(** ** The specification *)

(** What a cell shows: the field, or "-" when it is missing or empty. *)
Definition cell (o : option string) : string :=
  match o with Some s => if String.eqb s "" then "-" else s | None => "-" end.

Definition cells (p : Property) : list string := [cell (p_name p); cell (p_address p); cell (p_owner p)].

Definition table (ps : list Property) : string :=
  match ps with [] => "" | _ => Table.render_table (map cells ps) end.

(** The aggregation kind: the first [info_type], unless missing or empty. *)
Definition agg_kind (info : list string) : string :=
  match info with k :: _ => if String.eqb k "" then "total_properties" else k | [] => "total_properties" end.

(** A result that names an entity is phrased by the name, any other by
    the count and the kind. *)
Definition agg_reply (default kind : string) (a : AggResult) : string :=
  match a with
  | AggNull => default
  | AggObj _ (Some name) c =>
      if String.eqb name "" then "There are " ++ string_of_Z c ++ " " ++ replace_char "_" " " kind ++ "."
      else name ++ " has the most properties with " ++ string_of_Z c ++ " properties."
  | AggObj _ None c => "There are " ++ string_of_Z c ++ " " ++ replace_char "_" " " kind ++ "."
  end.

(** The typed contract of an aggregation result: one typed as the owner
    with most properties names that owner. *)
Definition agg_wf (a : AggResult) : Prop :=
  match a with
  | AggObj ty n _ => ty = "owner_with_most_properties" -> exists name, n = Some name /\ name <> ""
  | AggNull => True
  end.

Definition lookup_reply (empty : string) (found : string -> string -> string) (o : Z)
    (page : list Property * Z) : string * list Property * bool :=
  let '(ps, t) := page in
  (if Nat.eqb (length ps) 0 then empty else found (string_of_Z t) (string_of_nat (Nat.min 5 (length ps))),
   ps, Z.ltb (o + 5) t).

(** The reply of each intent, its records and [hasMore]; [None] when
    the executor's call is rejected. *)
Definition reply (tb : TypedBackend) (q : Query) (o : Z) : option (string * list Property * bool) :=
  if String.eqb (q_intent q) "property_lookup" then
    option_map (lookup_reply lookup_empty_text lookup_found_text o) (tb_page tb o 5)
  else if String.eqb (q_intent q) "location_filter" then
    option_map (lookup_reply location_empty_text location_found_text o) (tb_page tb o 5)
  else if String.eqb (q_intent q) "aggregation" then
    let kind := agg_kind (q_info_type q) in
    option_map (fun a => (agg_reply (q_response_text q) kind a, [], false)) (tb_aggregate tb kind)
  else if String.eqb (q_intent q) "metadata" then Some (metadata_text (tb_schema tb), [], false)
  else Some (q_response_text q, [], false).

(** The messages of the spec's data model (section 3). *)
Record Meta : Type := {
  mt_intent : string; mt_results : list Property; mt_has_more : bool; mt_offset : Z; mt_total : nat }.

Record Message : Type := {
  m_conversation : string; m_role : string; m_content : string; m_meta : option Meta }.

Inductive Answer : Type :=
| Unauthorized
| BadRequest
| SaveFailed
| InternalError
| Reply (text : string) (hasMore : bool) (offset : Z).

(** [offset = 0] *)
Definition offset_of (r : Request) : Z := match rq_offset r with Some o => o | None => 0%Z end.

(** The answer of a turn, the messages it stores in order, and the
    lines it logs. *)
Definition spec_turn (tb : TypedBackend) : Answer * list Message * list string :=
  match tb_user tb with
  | None => (Unauthorized, [], [])
  | Some _ =>
    let r := tb_request tb in
    if String.eqb (rq_message r) "" || String.eqb (rq_conversation r) "" then (BadRequest, [], [])
    else
      let o := offset_of r in
      let user_msg := {| m_conversation := rq_conversation r; m_role := "user";
                         m_content := rq_message r; m_meta := None |} in
      let '(stored, logged) :=
        if tb_user_insert_fails tb then ([], ["Error saving user message:"]) else ([user_msg], []) in
      let q := tb_parse tb (rq_message r) (tb_doc tb (tb_schema tb)) in
      match reply tb q o with
      | None => (InternalError, stored, (logged ++ ["Error in chat endpoint:"])%list)
      | Some (text0, ps, more) =>
          let text := js_trim (text0 ++ nl ++ nl ++ table ps) in
          let md := {| mt_intent := q_intent q; mt_results := ps; mt_has_more := more;
                       mt_offset := o; mt_total := length ps |} in
          let msg := {| m_conversation := rq_conversation r; m_role := "assistant";
                        m_content := text; m_meta := Some md |} in
          if tb_assistant_insert_fails tb then (SaveFailed, stored, (logged ++ ["Error saving assistant message:"])%list)
          else (Reply text more o, (stored ++ [msg])%list, logged)
      end
  end.

(** ** The correspondence *)

Definition enc_meta (mt : Meta) : Metadata :=
  {| md_intent := JStr (mt_intent mt); md_full_results_data := map enc_property (mt_results mt);
     md_has_more := mt_has_more mt; md_current_offset := JInt (mt_offset mt);
     md_total_results := mt_total mt |}.

Definition enc_message (m : Message) : Row :=
  {| conversation_id := JStr (m_conversation m); role := m_role m; content := JStr (m_content m);
     metadata := option_map enc_meta (m_meta m) |}.

(** The JSON answer of a spec answer; a reply carries the stored row. *)
Definition answer_matches (a : Answer) (r : Response) : Prop :=
  match a with
  | Unauthorized => r = JsonError 401 "Unauthorized - Please log in"
  | BadRequest => r = JsonError 400 "Missing message or conversationId"
  | SaveFailed => r = JsonError 500 "Error saving message"
  | InternalError => r = JsonError 500 "Internal server error"
  | Reply text more o => exists st, r = JsonOk st text more (JInt o)
  end.

(** ** Lemmas: the route on encoded answers *)

Lemma enc_request_get (r : Request) :
  js_get (enc_request r) "message" = Some (JStr (rq_message r)) /\
  js_get (enc_request r) "conversationId" = Some (JStr (rq_conversation r)) /\
  js_get (enc_request r) "offset" = Some (match rq_offset r with Some o => JInt o | None => JUndefined end).
Proof. destruct r as [m c [o|]]; repeat split. Qed.

Lemma offset_default_enc (r : Request) :
  offset_default (match rq_offset r with Some o => JInt o | None => JUndefined end) = JInt (offset_of r).
Proof. now destruct r as [m c [o|]]. Qed.

Lemma to_boolean_nonempty (s : string) : to_boolean (JStr s) = negb (String.eqb s "").
Proof. reflexivity. Qed.

Lemma row_cells_enc (p : Property) : Table.row_cells (enc_property p) = Some (cells p).
Proof.
  destruct p as [[n|] [a|] [o|]];
    unfold Table.row_cells, Table.row_of, Table.column, enc_property, cells, cell, js_or; simpl;
    repeat match goal with |- context [String.eqb ?x ""] => destruct (String.eqb x "") end;
    reflexivity.
Qed.

Lemma format_enc (ps : list Property) :
  Table.formatPropertiesTable (map enc_property ps) = Some (table ps).
Proof.
  destruct ps as [|p ps]; [reflexivity|]. cbn [map]. rewrite Table.formatPropertiesTable_cons.
  rewrite <- (map_cons enc_property), map_option_map_l.
  rewrite (map_option_ext_Some _ cells); [reflexivity|]. intros x _. apply row_cells_enc.
Qed.

(** The aggregation kind [info_type?.[0] || "total_properties"]. *)
Lemma agg_kind_enc (info : list string) :
  js_or (nth 0 (map JStr info) JUndefined) (JStr "total_properties") = JStr (agg_kind info).
Proof.
  destruct info as [|k rest]; [reflexivity|]. unfold js_or, agg_kind. cbn [map nth].
  rewrite to_boolean_nonempty. destruct (String.eqb k "") eqn:E; [|reflexivity].
  apply String.eqb_eq in E. now subst.
Qed.

(** Every aggregation result the executor gives meets its contract. *)
Definition aggregates_wf (tb : TypedBackend) : Prop :=
  forall k a, tb_aggregate tb k = Some a -> agg_wf a.

Lemma opt_index0_strings (info : list string) :
  js_opt_index0 (JArr (map JStr info)) = Some (nth 0 (map JStr info) JUndefined).
Proof. now destruct info. Qed.

Lemma aggregation_branch_enc (tb : TypedBackend) (q : Query) (a : AggResult) :
  agg_wf a -> tb_aggregate tb (agg_kind (q_info_type q)) = Some a ->
  @aggregation_branch (encode tb) (enc_query q) (JStr (q_response_text q)) =
  Ok (JStr (agg_reply (q_response_text q) (agg_kind (q_info_type q)) a)).
Proof.
  intros Hwf Ha.
  assert (Hagg : @getAggregationData (encode tb)
                   (js_or (nth 0 (map JStr (q_info_type q)) JUndefined) (JStr "total_properties"))
                 = Ok (enc_agg a)) by (rewrite agg_kind_enc; simpl; now rewrite Ha).
  rewrite (@aggregation_branch_unfold (encode tb) (enc_query q) (JStr (q_response_text q))
             (JObj [("info_type", JArr (map JStr (q_info_type q)))]) (JArr (map JStr (q_info_type q)))
             _ _ eq_refl eq_refl (opt_index0_strings _) Hagg).
  rewrite agg_kind_enc. destruct a as [|ty n c]; [reflexivity|]. cbn [agg_wf] in Hwf.
  destruct (String.eqb ty "owner_with_most_properties") eqn:Ety.
  - apply String.eqb_eq in Ety. destruct (Hwf Ety) as (name & -> & Hne). subst ty.
    apply String.eqb_neq in Hne. simpl. now rewrite Hne.
  - destruct n as [name|]; simpl; rewrite ?Ety; [|reflexivity].
    now destruct (String.eqb name "").
Qed.

(** The outcome of the intent handler that a typed reply stands for. *)
Definition enc_reply (r : option (string * list Property * bool)) : outcome (jsval * list jsval * bool) :=
  match r with
  | Some (t, ps, more) => Ok (JStr t, map enc_property ps, more)
  | None => Throw (Rejected "query failed")
  end.

Lemma lookup_branch_enc (tb : TypedBackend) (q : Query) (o : Z) et ft :
  @lookup_branch (encode tb) et ft (enc_query q) (JInt o) =
  enc_reply (option_map (lookup_reply et ft o) (tb_page tb o 5)).
Proof.
  destruct (tb_page tb o _) as [[ps t]|] eqn:Ep.
  - rewrite (lookup_branch_numeric et ft (enc_query q) _ o t (map enc_property ps) eq_refl)
      by (simpl; unfold page_size; now rewrite Ep).
    simpl. now rewrite length_map.
  - unfold lookup_branch, page_size. simpl. now rewrite Ep.
Qed.

(** The intent handler on encoded answers is the typed reply. *)
Lemma dispatch_enc (tb : TypedBackend) (q : Query) (o : Z) :
  aggregates_wf tb ->
  @dispatch (encode tb) (tb_schema tb) (enc_query q) (JInt o) = enc_reply (reply tb q o).
Proof.
  intros Hwf.
  rewrite (@dispatch_unfold (encode tb) _ (enc_query q) _ (JStr (q_response_text q)) (JStr (q_intent q))
             eq_refl eq_refl).
  unfold reply. cbn [strict_eq_str].
  destruct (String.eqb (q_intent q) "property_lookup"); [apply lookup_branch_enc|].
  destruct (String.eqb (q_intent q) "location_filter"); [apply lookup_branch_enc|].
  destruct (String.eqb (q_intent q) "aggregation").
  - destruct (tb_aggregate tb (agg_kind (q_info_type q))) as [a|] eqn:Ea.
    + rewrite (aggregation_branch_enc tb q a (Hwf _ _ Ea) Ea). reflexivity.
    + unfold aggregation_branch. simpl. rewrite agg_kind_enc. simpl. now rewrite Ea.
  - destruct (String.eqb (q_intent q) "metadata"); reflexivity.
Qed.

(** The values [POST_body] computes on a typed turn. *)
Definition typed_turn (tb : TypedBackend) (u text0 : string) (ps : list Property) (more : bool) : Turn :=
  let r := tb_request tb in
  let q := tb_parse tb (rq_message r) (tb_doc tb (tb_schema tb)) in
  {| turn_user := u; turn_body := enc_request r; turn_message := JStr (rq_message r);
     turn_conversation := JStr (rq_conversation r);
     turn_offset := match rq_offset r with Some o => JInt o | None => JUndefined end;
     turn_schema := tb_schema tb; turn_parsed := enc_query q; turn_response_text := JStr text0;
     turn_results := map enc_property ps; turn_hasMore := more; turn_formatted := table ps;
     turn_text := match display_text (JStr text0) (table ps) with Some x => x | None => "" end;
     turn_intent := JStr (q_intent q) |}.

Lemma typed_prefix (tb : TypedBackend) (u text0 : string) (ps : list Property) (more : bool) :
  tb_user tb = Some u ->
  String.eqb (rq_message (tb_request tb)) "" = false ->
  String.eqb (rq_conversation (tb_request tb)) "" = false ->
  @turn_prefix_answers (encode tb) (typed_turn tb u text0 ps more).
Proof.
  intros Hu Hm Hc. destruct (enc_request_get (tb_request tb)) as (Gm & Gc & Go).
  unfold turn_prefix_answers, typed_turn; cbn [turn_user turn_body turn_message turn_conversation
    turn_offset turn_schema turn_parsed].
  rewrite !to_boolean_nonempty, Hm, Hc. simpl. rewrite Hu. repeat split; assumption.
Qed.

Lemma typed_answers (tb : TypedBackend) (u text0 : string) (ps : list Property) (more : bool) :
  aggregates_wf tb -> tb_user tb = Some u ->
  String.eqb (rq_message (tb_request tb)) "" = false ->
  String.eqb (rq_conversation (tb_request tb)) "" = false ->
  reply tb (tb_parse tb (rq_message (tb_request tb)) (tb_doc tb (tb_schema tb))) (offset_of (tb_request tb))
  = Some (text0, ps, more) ->
  @turn_answers (encode tb) (typed_turn tb u text0 ps more).
Proof.
  intros Hwf Hu Hm Hc Hr. split; [now apply typed_prefix|].
  unfold typed_turn; cbn [turn_schema turn_parsed turn_offset turn_response_text turn_results
    turn_hasMore turn_formatted turn_text turn_intent].
  rewrite offset_default_enc, dispatch_enc, Hr by exact Hwf. repeat split.
  destruct ps as [|p ps']; [now left | right]. split; [discriminate | apply format_enc].
Qed.

(** The two inserts on the encoded backend fail as the typed flags say. *)
Lemma insert_enc_user (tb : TypedBackend) (ms : list StoredRow) (c m : jsval) :
  @insertError (encode tb) ms (user_row c m) = insert_failure (tb_user_insert_fails tb).
Proof. reflexivity. Qed.

Lemma insert_enc_assistant (tb : TypedBackend) (ms : list StoredRow) (c : jsval) (t : string) (md : Metadata) :
  @insertError (encode tb) ms (assistant_row c t md) = insert_failure (tb_assistant_insert_fails tb).
Proof. reflexivity. Qed.

(** The assistant row of a typed turn is the encoding of a message. *)
Lemma typed_assistant_msg (tb : TypedBackend) (u text0 : string) (ps : list Property) (more : bool) :
  let r := tb_request tb in
  let q := tb_parse tb (rq_message r) (tb_doc tb (tb_schema tb)) in
  turn_assistant_msg (typed_turn tb u text0 ps more) =
  enc_message {| m_conversation := rq_conversation r; m_role := "assistant";
                 m_content := turn_text (typed_turn tb u text0 ps more);
                 m_meta := Some {| mt_intent := q_intent q; mt_results := ps; mt_has_more := more;
                                   mt_offset := offset_of r; mt_total := length ps |} |}.
Proof.
  unfold turn_assistant_msg, turn_metadata, enc_message, enc_meta, assistant_row.
  cbn [typed_turn turn_conversation turn_text turn_intent turn_results turn_hasMore turn_offset].
  now rewrite offset_default_enc, length_map.
Qed.

Local Ltac run_enc := run_route; cbn [getUser requestJson encode].

(** C8: on collaborators that answer values of the spec's types, [POST]
    refines the typed specification [spec_turn]: it gives the answer the
    spec gives, appends to the messages table exactly the encodings of
    the messages the spec stores, in order, and logs exactly the spec's
    lines.  In particular the route never reaches its [catch] unless the
    executor's call is rejected. *)
Theorem POST_refines_spec (tb : TypedBackend) (w : World)
    (a : Answer) (stored : list Message) (logged : list string) :
  aggregates_wf tb -> spec_turn tb = (a, stored, logged) ->
  exists r w', @POST (encode tb) w = (Ok r, w') /\ answer_matches a r /\
    map row (messages w') = (map row (messages w) ++ map enc_message stored)%list /\
    log w' = (log w ++ logged)%list.
Proof.
  intros Hwf Hspec. unfold spec_turn in Hspec.
  destruct (enc_request_get (tb_request tb)) as (Gm & Gc & Go).
  destruct (tb_user tb) as [u|] eqn:Hu.
  2:{ injection Hspec as <- <- <-. eexists _, _.
      split; [run_enc; rewrite Hu; reflexivity|]. now rewrite !app_nil_r. }
  destruct (String.eqb (rq_message (tb_request tb)) "") eqn:Hm;
    [|destruct (String.eqb (rq_conversation (tb_request tb)) "") eqn:Hc]; cbn [orb] in Hspec.
  1,2: injection Hspec as <- <- <-; eexists _, _;
       (split; [run_enc; rewrite Hu; run_route; rewrite Gm, Gc, Go; run_route;
                rewrite !to_boolean_nonempty, Hm, ?Hc; reflexivity|]);
       now rewrite !app_nil_r.
  destruct (reply tb _ (offset_of (tb_request tb))) as [[[t0 ps] more]|] eqn:Hr.
  - rewrite (POST_turn _ w (typed_answers tb u t0 ps more Hwf Hu Hm Hc Hr)).
    unfold after_user_insert, turn_user_msg. rewrite insert_enc_user.
    unfold turn_assistant_msg at 1 2. rewrite insert_enc_assistant.
    destruct (tb_user_insert_fails tb), (tb_assistant_insert_fails tb);
      injection Hspec as <- <- <-; cbn [insert_failure]; eexists _, _; (split; [reflexivity|]);
      unfold answer_matches;
      (split; [first [reflexivity | eexists; unfold typed_turn; cbn [turn_offset turn_text turn_hasMore];
                                    rewrite offset_default_enc; reflexivity] | split]);
      cbn [messages log];
      rewrite ?map_app; cbn [map row]; rewrite <- ?app_assoc, ?app_nil_r;
      rewrite ?typed_assistant_msg; reflexivity.
  - assert (Hd : @dispatch (encode tb) (turn_schema (typed_turn tb u "" [] false))
                   (turn_parsed (typed_turn tb u "" [] false))
                   (offset_default (turn_offset (typed_turn tb u "" [] false)))
                 = Throw (Rejected "query failed"))
      by (cbn [typed_turn turn_schema turn_parsed turn_offset]; rewrite offset_default_enc, dispatch_enc, Hr by exact Hwf; reflexivity).
    rewrite (POST_prefix_throw _ w _ (typed_prefix tb u "" [] false Hu Hm Hc) Hd).
    unfold after_user_insert, turn_user_msg. rewrite insert_enc_user.
    destruct (tb_user_insert_fails tb); injection Hspec as <- <- <-; cbn [insert_failure]; eexists _, _;
      (split; [reflexivity|]); cbn [messages log]; rewrite ?map_app, ?app_nil_r, <- ?app_assoc;
      repeat split; reflexivity.
Qed.

(** ** A typed turn for the witness *)

(** Page two of a lookup: offset 5 of a total of 7, the executor
    returning the two last records. *)
Definition demo_typed : TypedBackend := {|
  tb_user := Some "u1";
  tb_request := {| rq_message := "show me properties"; rq_conversation := "c1"; rq_offset := Some 5%Z |};
  tb_schema := demo_schema;
  tb_doc := fun s => js_join ", " (map internalName s);
  tb_parse := fun _ _ => {| q_intent := "property_lookup"; q_response_text := "ok"; q_info_type := [] |};
  tb_page := fun _ _ => Some ([{| p_name := Some "F"; p_address := Some "6 Elm"; p_owner := None |};
                               {| p_name := Some "G"; p_address := None; p_owner := Some "" |}], 7%Z);
  tb_aggregate := fun _ => Some AggNull;
  tb_user_insert_fails := false;
  tb_assistant_insert_fails := false |}.

Definition demo_spec : Answer * list Message * list string := Eval vm_compute in spec_turn demo_typed.

Lemma POST_refines_spec_witness :
  exists r w', @POST (encode demo_typed) w0 = (Ok r, w') /\ answer_matches (fst (fst demo_spec)) r /\
    map row (messages w') = (map row (messages w0) ++ map enc_message (snd (fst demo_spec)))%list /\
    log w' = (log w0 ++ snd demo_spec)%list.
Proof.
  apply (POST_refines_spec demo_typed w0); [|reflexivity].
  intros k a H. injection H as <-. exact I.
Defined.

End ChatSpec.
