(* ===== verification/LoginPage.v ===== *)
(** * LoginPage: the login form of [src/src/app/auth/login/page.tsx]

    The page keeps six pieces of React state (email, password, loading,
    isSignUp, error, successMessage).  Its handlers run in two halves: the
    synchronous part of [handleLogin] / [handleSignUp] sets the state and
    starts a request to the identity provider; the request settles later,
    and its continuation (the code after [await], with its [finally])
    updates the state again.  The mount effect starts a session check the
    same way.  Requests settle in any order, so the page is a transition
    system: [step_event] gives the effect of one event, the in-flight
    requests are kept in [pending], and [router.push] calls are recorded
    in [pushes].

    [decodeURIComponent], the browser's e-mail validation and
    [window.location.origin] are the fields of the class [Browser]. *)

From stdpp Require Import base list strings relations.
From Stdlib Require Import String.
From S2P Require Import Prelude.
Local Open Scope string_scope.

Module Login.

(** A request in flight, with the values its closure captured. *)
Inductive Task : Type :=
| CheckUser
| SignIn (email password : string)
| SignUp (email password emailRedirectTo : string).

#[export] Instance Task_eq_dec : EqDecision Task.
Proof. solve_decision. Defined.

Record LoginState : Type := {
  email : string;
  password : string;
  loading : bool;
  isSignUp : bool;
  error : string;
  successMessage : string;
  pending : list Task;
  pushes : list string;
  mounted : bool
}.

(** What [signInWithPassword] / [signUp] settle to: a returned [error],
    returned [data] (with or without a user), or a thrown exception. *)
Inductive AuthAnswer : Type :=
| AuthError (message : string)
| AuthData (user : option string)
| AuthThrows.

(** What [supabase.auth.getUser()] settles to. *)
Inductive UserAnswer : Type :=
| UserFound (user : option string)
| UserThrows.

Inductive Event : Type :=
| Mount (urlError : option string)
| TypeEmail (s : string)
| TypePassword (s : string)
| Submit
| ToggleMode
| SettleCheckUser (a : UserAnswer)
| SettleSignIn (a : AuthAnswer)
| SettleSignUp (a : AuthAnswer).

Definition init : LoginState := {|
  email := ""; password := ""; loading := false; isSignUp := false;
  error := ""; successMessage := ""; pending := []; pushes := []; mounted := false |}.

Definition signup_success_text : string :=
  "Sign up successful! Check your email to verify your account. Then log in with your credentials.".

(** What the page takes from the browser. *)
Class Browser : Type := {
  (** [decodeURIComponent]: [None] where it throws a [URIError]. *)
  decodeURIComponent : string -> option string;
  (** The constraint validation of an [<input type="email">]. *)
  email_valid : string -> bool;
  (** [window.location.origin] *)
  origin : string
}.

(** Record updates, one per state setter. *)
Definition set_error (e : string) (s : LoginState) : LoginState :=
  {| email := email s; password := password s; loading := loading s; isSignUp := isSignUp s;
     error := e; successMessage := successMessage s; pending := pending s; pushes := pushes s;
     mounted := mounted s |}.

Definition set_success (m : string) (s : LoginState) : LoginState :=
  {| email := email s; password := password s; loading := loading s; isSignUp := isSignUp s;
     error := error s; successMessage := m; pending := pending s; pushes := pushes s;
     mounted := mounted s |}.

Definition set_loading (b : bool) (s : LoginState) : LoginState :=
  {| email := email s; password := password s; loading := b; isSignUp := isSignUp s;
     error := error s; successMessage := successMessage s; pending := pending s; pushes := pushes s;
     mounted := mounted s |}.

Definition set_isSignUp (b : bool) (s : LoginState) : LoginState :=
  {| email := email s; password := password s; loading := loading s; isSignUp := b;
     error := error s; successMessage := successMessage s; pending := pending s; pushes := pushes s;
     mounted := mounted s |}.

Definition set_email (e : string) (s : LoginState) : LoginState :=
  {| email := e; password := password s; loading := loading s; isSignUp := isSignUp s;
     error := error s; successMessage := successMessage s; pending := pending s; pushes := pushes s;
     mounted := mounted s |}.

Definition set_password (p : string) (s : LoginState) : LoginState :=
  {| email := email s; password := p; loading := loading s; isSignUp := isSignUp s;
     error := error s; successMessage := successMessage s; pending := pending s; pushes := pushes s;
     mounted := mounted s |}.

Definition start (t : Task) (s : LoginState) : LoginState :=
  {| email := email s; password := password s; loading := loading s; isSignUp := isSignUp s;
     error := error s; successMessage := successMessage s; pending := (pending s ++ [t])%list;
     pushes := pushes s; mounted := mounted s |}.

Definition push (route : string) (s : LoginState) : LoginState :=
  {| email := email s; password := password s; loading := loading s; isSignUp := isSignUp s;
     error := error s; successMessage := successMessage s; pending := pending s;
     pushes := (pushes s ++ [route])%list; mounted := mounted s |}.

Definition set_mounted (s : LoginState) : LoginState :=
  {| email := email s; password := password s; loading := loading s; isSignUp := isSignUp s;
     error := error s; successMessage := successMessage s; pending := pending s; pushes := pushes s;
     mounted := true |}.

(** Take the first pending request accepted by [p] out of [pending]. *)
Fixpoint take_first (p : Task -> bool) (l : list Task) : option (Task * list Task) :=
  match l with
  | [] => None
  | t :: l' =>
      if p t then Some (t, l')
      else match take_first p l' with
           | Some (t', rest) => Some (t', t :: rest)
           | None => None
           end
  end.

Definition settle (p : Task -> bool) (s : LoginState) : option (Task * LoginState) :=
  match take_first p (pending s) with
  | Some (t, rest) =>
      Some (t, {| email := email s; password := password s; loading := loading s;
                  isSignUp := isSignUp s; error := error s; successMessage := successMessage s;
                  pending := rest; pushes := pushes s; mounted := mounted s |})
  | None => None
  end.

Definition is_check (t : Task) : bool := match t with CheckUser => true | _ => false end.
Definition is_signin (t : Task) : bool := match t with SignIn _ _ => true | _ => false end.
Definition is_signup (t : Task) : bool := match t with SignUp _ _ _ => true | _ => false end.

(** The events that settle a request in flight: the continuations after
    an [await], which no user action triggers. *)
Definition is_settle (ev : Event) : bool :=
  match ev with SettleCheckUser _ | SettleSignIn _ | SettleSignUp _ => true | _ => false end.

(** The browser's constraint validation of the form: [required] on both
    inputs, [type="email"], [minLength={6}]; the submit button is
    [disabled={loading}], which also blocks implicit submission. *)
Definition form_valid `{BR : Browser} (s : LoginState) : bool :=
  negb (String.eqb (email s) "") && email_valid (email s) &&
  negb (String.eqb (password s) "") && (6 <=? String.length (password s))%nat.

(** The [useEffect] run on mount: the [error] URL parameter
    ([searchParams.get("error")], a string or [null]) when it is truthy,
    then the session check.  A malformed parameter makes
    [decodeURIComponent] throw, and the effect stops before the check
    starts. *)
Definition mount `{BR : Browser} (urlError : option string) (s : LoginState) : option LoginState :=
  if mounted s then None
  else
    let s1 := match urlError with
              | None => Some s
              | Some e =>
                  if String.eqb e "" then Some s
                  else option_map (fun d => set_error d s) (decodeURIComponent e)
              end in
    option_map (fun s2 => set_mounted (start CheckUser s2)) s1.

(** [checkUser] after its [await]. *)
Definition checkUser_settled (a : UserAnswer) (s : LoginState) : LoginState :=
  match a with
  | UserFound (Some _) => push "/chat" s
  | _ => s
  end.

(** [handleLogin] up to its [await]. *)
Definition handleLogin (s : LoginState) : LoginState :=
  start (SignIn (email s) (password s)) (set_loading true (set_error "" s)).

(** [handleLogin] after its [await], the [finally] included. *)
Definition login_settled (a : AuthAnswer) (s : LoginState) : LoginState :=
  set_loading false
    (match a with
     | AuthError msg => set_error msg s
     | AuthData (Some _) => push "/chat" s
     | AuthData None => s
     | AuthThrows => set_error "An error occurred during login" s
     end).

(** [handleSignUp] up to its [await]. *)
Definition handleSignUp `{BR : Browser} (s : LoginState) : LoginState :=
  start (SignUp (email s) (password s) (origin ++ "/auth/callback"))
        (set_loading true (set_success "" (set_error "" s))).

(** [handleSignUp] after its [await], the [finally] included. *)
Definition signup_settled (a : AuthAnswer) (s : LoginState) : LoginState :=
  set_loading false
    (match a with
     | AuthError msg => set_error msg s
     | AuthData (Some _) =>
         set_password "" (set_email "" (set_isSignUp false (set_success signup_success_text s)))
     | AuthData None => s
     | AuthThrows => set_error "An error occurred during sign up" s
     end).

Definition handleSubmit `{BR : Browser} (s : LoginState) : LoginState :=
  if isSignUp s then handleSignUp s else handleLogin s.

(** The "Sign up" / "Log in" link under the form. *)
Definition toggle (s : LoginState) : LoginState :=
  set_success "" (set_error "" (set_isSignUp (negb (isSignUp s)) s)).

Definition step_event `{BR : Browser} (s : LoginState) (ev : Event) : option LoginState :=
  match ev with
  | Mount e => mount e s
  | TypeEmail x => Some (set_email x s)
  | TypePassword x => Some (set_password x s)
  | Submit => if negb (loading s) && form_valid s then Some (handleSubmit s) else None
  | ToggleMode => Some (toggle s)
  | SettleCheckUser a => option_map (fun ts => checkUser_settled a (snd ts)) (settle is_check s)
  | SettleSignIn a => option_map (fun ts => login_settled a (snd ts)) (settle is_signin s)
  | SettleSignUp a => option_map (fun ts => signup_settled a (snd ts)) (settle is_signup s)
  end.

Inductive step `{BR : Browser} : LoginState -> LoginState -> Prop :=
| step_intro (s s' : LoginState) (ev : Event) : step_event s ev = Some s' -> step s s'.

Inductive reachable `{BR : Browser} : LoginState -> Prop :=
| reachable_init : reachable init
| reachable_step (s s' : LoginState) : reachable s -> step s s' -> reachable s'.

(** Run a sequence of events from a state. *)
Fixpoint run_events `{BR : Browser} (s : LoginState) (evs : list Event) : option LoginState :=
  match evs with
  | [] => Some s
  | ev :: evs' => match step_event s ev with Some s' => run_events s' evs' | None => None end
  end.

(** ** What the page shows, lines 113-205 *)

(** The parts of the rendered page that depend on the state. *)
Record View : Type := {
  v_error : option string;        (** [{error && (<div>{error}</div>)}] *)
  v_success : option string;      (** [{successMessage && (...)}] *)
  v_email : string;               (** [value={email}] *)
  v_password : string;            (** [value={password}] *)
  v_button_disabled : bool;       (** [disabled={loading}] *)
  v_button_label : string;        (** [{loading ? "Loading..." : isSignUp ? "Sign Up" : "Login"}] *)
  v_toggle_prompt : string;       (** the text before the toggle link *)
  v_toggle_link : string          (** the toggle link *)
}.

(** A string renders its element when it is truthy, i.e. non-empty. *)
Definition shown_if (s : string) : option string := if String.eqb s "" then None else Some s.

Definition render (s : LoginState) : View := {|
  v_error := shown_if (error s);
  v_success := shown_if (successMessage s);
  v_email := email s;
  v_password := password s;
  v_button_disabled := loading s;
  v_button_label := if loading s then "Loading..." else if isSignUp s then "Sign Up" else "Login";
  v_toggle_prompt := if isSignUp s then "Already have an account? " else "Don't have an account? ";
  v_toggle_link := if isSignUp s then "Log in" else "Sign up" |}.

(** ** The loading flag and the requests in flight *)

Definition is_auth (t : Task) : bool := negb (is_check t).

Definition auth_in_flight (s : LoginState) : nat := List.length (List.filter is_auth (pending s)).

Definition loading_inv (s : LoginState) : Prop :=
  (loading s = true /\ auth_in_flight s = 1) \/ (loading s = false /\ auth_in_flight s = 0).

Lemma take_first_auth (p : Task -> bool) (l rest : list Task) (t : Task) :
  take_first p l = Some (t, rest) ->
  p t = true /\
  List.length (List.filter is_auth l) = List.length (List.filter is_auth rest) + (if is_auth t then 1 else 0).
Proof.
  revert rest. induction l as [|x l IH]; intros rest H; simpl in H; [discriminate|].
  destruct (p x) eqn:Hx.
  - injection H as <- <-. split; [done|]. simpl. destruct (is_auth x); simpl; lia.
  - destruct (take_first p l) as [[t' rest']|] eqn:E; [|discriminate].
    injection H as <- <-. destruct (IH rest' eq_refl) as [Ht Hlen]. split; [done|].
    simpl. destruct (is_auth x); simpl; lia.
Qed.

Lemma settle_auth (p : Task -> bool) (s s' : LoginState) (t : Task) :
  settle p s = Some (t, s') ->
  p t = true /\ loading s' = loading s /\ pushes s' = pushes s /\
  auth_in_flight s = auth_in_flight s' + (if is_auth t then 1 else 0).
Proof.
  unfold settle. destruct (take_first p (pending s)) as [[t' rest]|] eqn:E; [|discriminate].
  intros H. injection H as <- <-. destruct (take_first_auth _ _ _ _ E) as [Hp Hlen].
  unfold auth_in_flight. simpl. done.
Qed.

Lemma auth_in_flight_start (t : Task) (s : LoginState) :
  auth_in_flight (start t s) = auth_in_flight s + (if is_auth t then 1 else 0).
Proof.
  unfold auth_in_flight, start. simpl. rewrite List.filter_app, List.length_app. simpl.
  destruct (is_auth t); simpl; lia.
Qed.

Ltac settle_case :=
  match goal with
  | H : option_map _ (settle ?p ?s) = Some _ |- _ =>
      destruct (settle p s) as [[t s1]|] eqn:Es; [|discriminate];
      injection H as <-; destruct (settle_auth _ _ _ _ Es) as (Hp & Hl & _ & Hc)
  end.

Lemma step_event_loading_inv `{BR : Browser} (s s' : LoginState) (ev : Event) :
  loading_inv s -> step_event s ev = Some s' -> loading_inv s'.
Proof.
  unfold loading_inv. intros Hinv Hstep. destruct ev as [e| x | x | | | a | a | a]; simpl in Hstep.
  - unfold mount in Hstep. destruct (mounted s); [discriminate|].
    destruct e as [e|]; [destruct (String.eqb e ""); [|destruct (decodeURIComponent e)]|]; simpl in Hstep; try discriminate;
      injection Hstep as <-; unfold auth_in_flight in *; cbn;
      rewrite List.filter_app, List.length_app; cbn; rewrite Nat.add_0_r; exact Hinv.
  - injection Hstep as <-. exact Hinv.
  - injection Hstep as <-. exact Hinv.
  - destruct (negb (loading s) && form_valid s) eqn:Hg; [|discriminate].
    injection Hstep as <-. apply andb_true_iff in Hg as [Hl _]. apply negb_true_iff in Hl.
    destruct Hinv as [[Hl' _] | [_ H0]]; [congruence|]. left.
    unfold handleSubmit, handleLogin, handleSignUp.
    destruct (isSignUp s); rewrite auth_in_flight_start; simpl; split; [done | | done |].
    all: unfold auth_in_flight in *; simpl in *; lia.
  - injection Hstep as <-. exact Hinv.
  - settle_case. destruct t; try discriminate. simpl in Hc.
    destruct a as [[u|]|]; simpl; rewrite <- Hl, ?Nat.add_0_r in *; unfold auth_in_flight in *; simpl in *;
      rewrite <- ?Hc; exact Hinv.
  - settle_case. destruct t; try discriminate. simpl in Hc. right.
    split; [destruct a as [|[u|]|]; reflexivity|].
    destruct Hinv as [[_ H1] | [_ H0]]; unfold auth_in_flight in *;
      destruct a as [|[u|]|]; simpl in *; lia.
  - settle_case. destruct t; try discriminate. simpl in Hc. right.
    split; [destruct a as [|[u|]|]; reflexivity|].
    destruct Hinv as [[_ H1] | [_ H0]]; unfold auth_in_flight in *;
      destruct a as [|[u|]|]; simpl in *; lia.
Qed.

Lemma run_events_reachable `{BR : Browser} (s s' : LoginState) (evs : list Event) :
  reachable s -> run_events s evs = Some s' -> reachable s'.
Proof.
  revert s. induction evs as [|ev evs IH]; simpl; intros s Hr H.
  - now injection H as <-.
  - destruct (step_event s ev) as [s1|] eqn:E; [|discriminate].
    apply (IH s1); [econstructor; [exact Hr | econstructor; exact E] | exact H].
Qed.

(** Rule induction on [reachable] for a property that holds initially
    and that every event preserves. *)
Lemma reachable_invariant `{BR : Browser} (P : LoginState -> Prop) (s : LoginState) :
  P init -> (forall s0 s1 ev, P s0 -> step_event s0 ev = Some s1 -> P s1) ->
  reachable s -> P s.
Proof.
  intros Hinit Hpres. induction 1 as [|s0 s1 _ IH Hstep]; [exact Hinit|].
  inversion Hstep; subst. eauto.
Qed.

Lemma step_event_pushes `{BR : Browser} (s s' : LoginState) (ev : Event) :
  step_event s ev = Some s' -> pushes s' = pushes s \/ pushes s' = (pushes s ++ ["/chat"])%list.
Proof.
  intros Hstep. destruct ev as [e| x | x | | | a | a | a]; simpl in Hstep.
  - unfold mount in Hstep. destruct (mounted s); [discriminate|].
    destruct e as [e|]; [destruct (String.eqb e ""); [|destruct (decodeURIComponent e)]|]; simpl in Hstep; try discriminate;
      injection Hstep as <-; now left.
  - injection Hstep as <-. now left.
  - injection Hstep as <-. now left.
  - destruct (negb (loading s) && form_valid s); [|discriminate].
    injection Hstep as <-. unfold handleSubmit. left. now destruct (isSignUp s).
  - injection Hstep as <-. now left.
  - settle_case. destruct a as [[u|]|]; simpl; rewrite <- ?Hpu; [right | left | left];
      destruct (settle_auth _ _ _ _ Es) as (_ & _ & -> & _); reflexivity.
  - settle_case. destruct a as [|[u|]|]; simpl; [left | right | left | left];
      destruct (settle_auth _ _ _ _ Es) as (_ & _ & -> & _); reflexivity.
  - settle_case. destruct a as [|[u|]|]; simpl; left;
      destruct (settle_auth _ _ _ _ Es) as (_ & _ & -> & _); reflexivity.
Qed.

Lemma settle_shape (p : Task -> bool) (s s1 : LoginState) (t : Task) :
  settle p s = Some (t, s1) ->
  exists rest, s1 = {| email := email s; password := password s; loading := loading s;
                       isSignUp := isSignUp s; error := error s; successMessage := successMessage s;
                       pending := rest; pushes := pushes s; mounted := mounted s |} /\
               take_first p (pending s) = Some (t, rest).
Proof.
  unfold settle. destruct (take_first p (pending s)) as [[t' rest]|]; [|discriminate].
  intros H. injection H as <- <-. eauto.
Qed.

Lemma take_first_length (p : Task -> bool) (l rest : list Task) (t : Task) :
  take_first p l = Some (t, rest) -> List.length l = S (List.length rest).
Proof.
  revert rest. induction l as [|x l IH]; intros rest H; simpl in H; [discriminate|].
  destruct (p x); [now injection H as <- <-|].
  destruct (take_first p l) as [[t' rest']|] eqn:E; [|discriminate].
  injection H as <- <-. simpl. now rewrite (IH rest').
Qed.

Lemma take_first_exists (p : Task -> bool) (l : list Task) (x : Task) :
  List.In x l -> p x = true -> exists t rest, take_first p l = Some (t, rest).
Proof.
  induction l as [|y l IH]; simpl; [done|]. intros [-> | Hin] Hx.
  - rewrite Hx. eauto.
  - destruct (p y); [eauto|]. destruct (IH Hin Hx) as (t & rest & ->). eauto.
Qed.

(** The answer that settles a request without a user. *)
Definition settle_quietly (t : Task) : Event :=
  match t with
  | CheckUser => SettleCheckUser (UserFound None)
  | SignIn _ _ => SettleSignIn (AuthData None)
  | SignUp _ _ _ => SettleSignUp (AuthData None)
  end.

Lemma settle_quietly_step `{BR : Browser} (s : LoginState) (t : Task) :
  List.In t (pending s) ->
  exists s', step_event s (settle_quietly t) = Some s' /\
             List.length (pending s) = S (List.length (pending s')).
Proof.
  intros Hin.
  destruct t; simpl;
    [ destruct (take_first_exists is_check (pending s) CheckUser Hin eq_refl) as (t' & rest & E)
    | destruct (take_first_exists is_signin (pending s) _ Hin eq_refl) as (t' & rest & E)
    | destruct (take_first_exists is_signup (pending s) _ Hin eq_refl) as (t' & rest & E) ];
    unfold settle; rewrite E; eexists; (split; [reflexivity|]); simpl; exact (take_first_length _ _ _ _ E).
Qed.

(** A settle event takes exactly one request out of [pending]. *)
Lemma settle_event_pending `{BR : Browser} (s s' : LoginState) (ev : Event) :
  is_settle ev = true -> step_event s ev = Some s' ->
  List.length (pending s) = S (List.length (pending s')).
Proof.
  destruct ev as [| | | | |a|a|a]; try discriminate; intros _ H; simpl in H; settle_case;
    destruct (settle_shape _ _ _ _ Es) as (rest & -> & Ht); rewrite (take_first_length _ _ _ _ Ht);
    destruct a as [[u|]|] || destruct a as [|[u|]|]; reflexivity.
Qed.

(** A reachable state with nothing in flight is not loading. *)
Lemma idle_not_loading `{BR : Browser} (s : LoginState) :
  reachable s -> pending s = [] -> loading s = false.
Proof.
  intros Hr Ep.
  destruct (reachable_invariant loading_inv s (or_intror (conj eq_refl eq_refl)) step_event_loading_inv Hr)
    as [[_ H1] | [H0 _]]; [|exact H0].
  unfold auth_in_flight in H1. rewrite Ep in H1. discriminate.
Qed.

(** A run of settle events takes one request out of [pending] per event. *)
Lemma settle_run_length `{BR : Browser} (s s' : LoginState) (evs : list Event) :
  forallb is_settle evs = true -> run_events s evs = Some s' ->
  List.length evs + List.length (pending s') = List.length (pending s).
Proof.
  revert s. induction evs as [|ev evs IH]; intros s Hs Hrun; simpl in *.
  - now injection Hrun as ->.
  - apply andb_prop in Hs as [Hev Hs].
    destruct (step_event s ev) as [s1|] eqn:E; [|discriminate].
    rewrite (settle_event_pending s s1 ev Hev E), <- (IH s1 Hs Hrun). lia.
Qed.

(** When no settle event applies, nothing is in flight. *)
Lemma settle_stuck_idle `{BR : Browser} (s : LoginState) :
  (forall ev, is_settle ev = true -> step_event s ev = None) -> pending s = [].
Proof.
  intros Hstuck. destruct (pending s) as [|t rest] eqn:Ep; [reflexivity|].
  assert (Hin : List.In t (pending s)) by (rewrite Ep; now left).
  destruct (settle_quietly_step s t Hin) as (s1 & E & _).
  rewrite (Hstuck (settle_quietly t)) in E; [discriminate | now destruct t].
Qed.

(** C12: in every reachable state of the page, [loading] is true exactly
    when one sign-in or sign-up request is in flight, and no second one is
    ever started: the disabled button blocks double submission, and the
    [finally] of each handler clears the flag. *)
Theorem reachable_loading_inv `{BR : Browser} (s : LoginState) :
  reachable s -> loading_inv s.
Proof. apply (reachable_invariant loading_inv); [right; split; reflexivity | exact step_event_loading_inv]. Qed.

(** C32: the login page only ever navigates to /chat. *)
Theorem reachable_pushes_chat `{BR : Browser} (s : LoginState) :
  reachable s -> Forall (fun r => r = "/chat") (pushes s).
Proof.
  apply (reachable_invariant (fun s => Forall (fun r => r = "/chat") (pushes s)));
    [constructor|]. intros s0 s1 ev IH E.
  destruct (step_event_pushes _ _ _ E) as [-> | ->]; [exact IH|].
  apply Forall_app. split; [exact IH | now constructor].
Qed.

(** C27: the continuation of [handleLogin] on each answer of the
    provider: [loading] is cleared; a returned error is shown; a user
    navigates to /chat; a throw shows the generic message.  The success
    message of an earlier sign-up is left as it was. *)
Theorem login_settled_branches `{BR : Browser} (s s' : LoginState) (a : AuthAnswer) :
  step_event s (SettleSignIn a) = Some s' ->
  loading s' = false /\ isSignUp s' = isSignUp s /\ successMessage s' = successMessage s /\
  match a with
  | AuthError msg => error s' = msg /\ pushes s' = pushes s
  | AuthData (Some _) => error s' = error s /\ pushes s' = (pushes s ++ ["/chat"])%list
  | AuthData None => error s' = error s /\ pushes s' = pushes s
  | AuthThrows => error s' = "An error occurred during login" /\ pushes s' = pushes s
  end.
Proof.
  simpl. intros H. settle_case. destruct (settle_shape _ _ _ _ Es) as (rest & -> & _).
  destruct a as [|[u|]|]; repeat split.
Qed.

(** C28: the continuation of [handleSignUp]: a user switches the form
    back to login mode, clears both fields and shows the verification
    prompt; an error or a throw is shown; [loading] is cleared. *)
Theorem signup_settled_branches `{BR : Browser} (s s' : LoginState) (a : AuthAnswer) :
  step_event s (SettleSignUp a) = Some s' ->
  loading s' = false /\ pushes s' = pushes s /\
  match a with
  | AuthError msg => error s' = msg /\ isSignUp s' = isSignUp s
  | AuthData (Some _) =>
      successMessage s' = signup_success_text /\ isSignUp s' = false /\
      email s' = "" /\ password s' = "" /\ error s' = error s
  | AuthData None => error s' = error s /\ isSignUp s' = isSignUp s
  | AuthThrows => error s' = "An error occurred during sign up" /\ isSignUp s' = isSignUp s
  end.
Proof.
  simpl. intros H. settle_case. destruct (settle_shape _ _ _ _ Es) as (rest & -> & _).
  destruct a as [|[u|]|]; repeat split.
Qed.

(** C29: the page never stays busy: from every reachable state, letting
    the requests in flight settle empties [pending] and clears [loading],
    which re-enables the submit button. *)
Theorem reachable_settles `{BR : Browser} (s : LoginState) :
  reachable s -> exists s', rtc step s s' /\ pending s' = [] /\ loading s' = false.
Proof.
  intros Hr. remember (List.length (pending s)) as n eqn:Hn. revert s Hr Hn.
  induction n as [|n IH]; intros s Hr Hn.
  - exists s. split; [reflexivity|]. destruct (pending s) eqn:Ep; [|discriminate].
    split; [done|]. exact (idle_not_loading s Hr Ep).
  - destruct (pending s) as [|t rest] eqn:Ep; [discriminate|].
    assert (Hin : List.In t (pending s)) by (rewrite Ep; now left).
    destruct (settle_quietly_step s t Hin) as (s1 & E & Hlen).
    assert (Hr1 : reachable s1) by (econstructor; [exact Hr | econstructor; exact E]).
    destruct (IH s1 Hr1) as (s' & Hsteps & Hp & Hl); [rewrite Ep in Hlen; simpl in *; apply Nat.succ_inj; congruence|].
    exists s'. split; [|done]. eapply rtc_l; [econstructor; exact E | exact Hsteps].
Qed.

(** C30: the continuations terminate and leave the form idle: from a
    reachable state, a run of settle events with no user action in
    between settles one request per event, so it has at most as many
    events as requests were in flight; and once no settle event applies,
    no request is in flight and [loading] is false, so the submit button
    is enabled again. *)
Theorem settle_runs_terminate `{BR : Browser} (s s' : LoginState) (evs : list Event) :
  reachable s -> forallb is_settle evs = true -> run_events s evs = Some s' ->
  List.length evs + List.length (pending s') = List.length (pending s) /\
  ((forall ev, is_settle ev = true -> step_event s' ev = None) ->
   pending s' = [] /\ loading s' = false).
Proof.
  intros Hr Hs Hrun. split; [exact (settle_run_length s s' evs Hs Hrun)|].
  intros Hstuck. pose proof (settle_stuck_idle s' Hstuck) as Hp. split; [exact Hp|].
  exact (idle_not_loading s' (run_events_reachable s s' evs Hr Hrun) Hp).
Qed.

(** C31: in every reachable state the submit button is disabled, and
    reads "Loading...", exactly when one sign-in or sign-up request is in
    flight; otherwise it reads "Sign Up" or "Login" by the mode, which the
    toggle link offers to leave. *)
Theorem reachable_button `{BR : Browser} (s : LoginState) :
  reachable s ->
  (v_button_disabled (render s) = true <-> auth_in_flight s = 1) /\
  (v_button_label (render s) = "Loading..." <-> auth_in_flight s = 1) /\
  (auth_in_flight s = 0 ->
   v_button_label (render s) = (if isSignUp s then "Sign Up" else "Login") /\
   v_toggle_link (render s) = (if isSignUp s then "Log in" else "Sign up")).
Proof.
  intros Hr.
  destruct (reachable_invariant loading_inv s (or_intror (conj eq_refl eq_refl)) step_event_loading_inv Hr)
    as [[Hl H1] | [Hl H0]]; cbn [render v_button_disabled v_button_label v_toggle_link]; rewrite Hl.
  - repeat split; intros; try reflexivity; congruence.
  - repeat split; intros; try congruence.
    destruct (isSignUp s); discriminate.
Qed.

(** The run of the finding below: sign up, then a failed login. *)
Definition signup_then_failed_login : list Event :=
  [Mount None; SettleCheckUser (UserFound None); ToggleMode;
   TypeEmail "user@example.com"; TypePassword "secret1"; Submit;
   SettleSignUp (AuthData (Some "u1"));
   TypeEmail "user@example.com"; TypePassword "wrong-password"; Submit;
   SettleSignIn (AuthError "Invalid login credentials")].

(** C34: a failed login keeps the success banner: in login mode, a
    submission followed by a sign-in that returns an error shows that
    error and, at the same time, whatever success message was shown
    before, such as the sign-up's "Sign up successful!": [handleLogin]
    clears [error] but never [successMessage]. *)
Theorem success_message_survives_failed_login `{BR : Browser} (s s1 s2 : LoginState) (e : string) :
  isSignUp s = false -> successMessage s <> "" -> e <> "" ->
  step_event s Submit = Some s1 -> step_event s1 (SettleSignIn (AuthError e)) = Some s2 ->
  v_error (render s2) = Some e /\ v_success (render s2) = Some (successMessage s).
Proof.
  intros Hm Hs He H1 H2. simpl in H1.
  destruct (negb (loading s) && form_valid s); [|discriminate]. injection H1 as <-.
  unfold handleSubmit in H2. rewrite Hm in H2. simpl in H2. settle_case.
  destruct (settle_shape _ _ _ _ Es) as (rest & -> & _).
  cbn. unfold shown_if. apply String.eqb_neq in Hs, He. now rewrite He, Hs.
Qed.


(** ** A concrete page for the witnesses *)

(** A browser that decodes every parameter and accepts every e-mail. *)
Definition demo_browser : Browser := {|
  decodeURIComponent := fun e => Some e;
  email_valid := fun _ => true;
  origin := "http://localhost:3000" |}.

(** Mount, fill the form, submit: a sign-in request is in flight. *)
Definition login_attempt : list Event :=
  [Mount None; TypeEmail "user@example.com"; TypePassword "secret1"; Submit].

Definition demo_state : LoginState :=
  match @run_events demo_browser init login_attempt with
  | Some s => s
  | None => init
  end.

Lemma reachable_loading_inv_witness :
  loading demo_state = true /\ loading_inv demo_state.
Proof.
  split; [reflexivity|]. apply (@reachable_loading_inv demo_browser).
  apply (@run_events_reachable demo_browser init _ login_attempt); [constructor | reflexivity].
Defined.

Lemma reachable_pushes_chat_witness :
  Forall (fun r => r = "/chat") (pushes demo_state).
Proof.
  apply (@reachable_pushes_chat demo_browser).
  apply (@run_events_reachable demo_browser init _ login_attempt); [constructor | reflexivity].
Defined.

Lemma login_settled_branches_witness :
  exists s', @step_event demo_browser demo_state
               (SettleSignIn (AuthData (Some "u1"))) = Some s' /\
    loading s' = false /\ isSignUp s' = isSignUp demo_state /\
    successMessage s' = successMessage demo_state /\
    error s' = error demo_state /\ pushes s' = (pushes demo_state ++ ["/chat"])%list.
Proof.
  eexists. split; [reflexivity|].
  apply (@login_settled_branches demo_browser demo_state _ (AuthData (Some "u1"))).
  reflexivity.
Defined.

Lemma signup_settled_branches_witness :
  let s := start (SignUp "user@example.com" "secret1" "http://localhost:3000/auth/callback")
             (set_loading true (set_isSignUp true init)) in
  exists s', @step_event demo_browser s (SettleSignUp (AuthData (Some "u1"))) = Some s' /\
    loading s' = false /\ pushes s' = pushes s /\ successMessage s' = signup_success_text /\
    isSignUp s' = false /\ email s' = "" /\ password s' = "" /\ error s' = error s.
Proof.
  intros s. eexists. split; [reflexivity|].
  apply (@signup_settled_branches demo_browser s _ (AuthData (Some "u1"))).
  reflexivity.
Defined.

Lemma reachable_settles_witness :
  exists s', rtc (@step demo_browser) demo_state s' /\
             pending s' = [] /\ loading s' = false.
Proof.
  apply (@reachable_settles demo_browser).
  apply (@run_events_reachable demo_browser init _ login_attempt); [constructor | reflexivity].
Defined.

(** The states of [signup_then_failed_login] before and after the login. *)
Definition before_login : LoginState :=
  default init (@run_events demo_browser init (firstn 9 signup_then_failed_login)).
Definition after_submit : LoginState := default init (@step_event demo_browser before_login Submit).
Definition after_failed_login : LoginState :=
  default init (@step_event demo_browser after_submit (SettleSignIn (AuthError "Invalid login credentials"))).

Lemma success_message_survives_failed_login_witness :
  successMessage before_login = signup_success_text /\
  v_error (render after_failed_login) = Some "Invalid login credentials" /\
  v_success (render after_failed_login) = Some (successMessage before_login).
Proof.
  split; [vm_compute; reflexivity|].
  apply (@success_message_survives_failed_login demo_browser before_login after_submit after_failed_login);
    try (vm_compute; reflexivity); vm_compute; discriminate.
Defined.

Lemma reachable_button_witness :
  v_button_label (render demo_state) = "Loading..." /\
  ((v_button_disabled (render demo_state) = true <-> auth_in_flight demo_state = 1) /\
   (v_button_label (render demo_state) = "Loading..." <-> auth_in_flight demo_state = 1) /\
   (auth_in_flight demo_state = 0 ->
    v_button_label (render demo_state) = (if isSignUp demo_state then "Sign Up" else "Login") /\
    v_toggle_link (render demo_state) = (if isSignUp demo_state then "Log in" else "Sign up"))).
Proof.
  split; [reflexivity|]. apply (@reachable_button demo_browser).
  apply (@run_events_reachable demo_browser init _ login_attempt); [constructor | reflexivity].
Defined.

(** The sign-in and the session check of [demo_state] settle in two
    events, and nothing is left in flight. *)
Lemma settle_runs_terminate_witness :
  let evs := [SettleSignIn (AuthError "Invalid login credentials"); SettleCheckUser (UserFound None)] in
  exists s', @run_events demo_browser demo_state evs = Some s' /\ pending s' = [] /\
    (List.length evs + List.length (pending s') = List.length (pending demo_state) /\
     ((forall ev, is_settle ev = true -> @step_event demo_browser s' ev = None) ->
      pending s' = [] /\ loading s' = false)).
Proof.
  intros evs. eexists. split; [reflexivity|]. split; [reflexivity|].
  apply (@settle_runs_terminate demo_browser demo_state _ evs); [|reflexivity|reflexivity].
  apply (@run_events_reachable demo_browser init _ login_attempt); [constructor | reflexivity].
Defined.

End Login.
