(* ===== verification/CallbackPage.v ===== *)
(** * CallbackPage: the e-mail confirmation callback

    [src/src/app/auth/callback/page.tsx] runs one effect on mount,
    [handleAuthCallback]: with a URL fragment it schedules a redirect to
    [/chat] after 500 ms; without one it asks the auth provider for the
    user and redirects to [/chat] or back to [/auth/login].  The model
    runs the handler in the monad of [Runtime] over a trace of the
    page's effects (router pushes, scheduled timers, console errors),
    then fires the timers in the order the browser's event loop does,
    which gives the list of routes the page navigates to. *)

From Stdlib Require Import String List ZArith .
From S2P Require Import Prelude JsValue Runtime.
Import ListNotations.
Local Open Scope string_scope.
Local Open Scope chat_scope.

Module Callback.

(** The effects the page performs. [Schedule ms r] is the call
    [setTimeout(() => router.push(r), ms)]. *)
Inductive Effect : Type :=
| Push (route : string)
| Schedule (delay : Z) (route : string)
| ConsoleError (msg : string).

Definition Trace : Type := list Effect.

Definition emit (e : Effect) : M Trace unit := modify (fun t => (t ++ [e])%list).

(** [router.push(route)] *)
Definition router_push (route : string) : M Trace unit := emit (Push route).

(** [setTimeout(() => router.push(route), ms)]: registers the callback
    and returns; it does not throw. *)
Definition setTimeout (ms : Z) (route : string) : M Trace unit :=
  emit (Schedule ms route).

Definition console_error (msg : string) : M Trace unit := emit (ConsoleError msg).

Definition login_error_route : string := "/auth/login?error=Authentication failed".

(** [handleAuthCallback], lines 13-43.  [getUser] is the settled
    promise of [supabase.auth.getUser()] followed by the destructuring
    of [data.user]: the user (an object, truthy) or [null], or a
    rejection / [TypeError], which the [catch] of line 39 handles. *)
Definition handleAuthCallback (getUser : outcome (option string)) (hash : string)
  : M Trace unit :=
  if to_boolean (JStr hash) then
    try_catch (setTimeout 500 "/chat")
      (fun _ => console_error "Callback error:" ;; router_push login_error_route)
  else
    try_catch
      (user <- await getUser ;;
       match user with
       | Some _ => router_push "/chat"
       | None => router_push "/auth/login"
       end)
      (fun _ => router_push "/auth/login").

(** The event loop after the handler's promise settles: the pushes made
    synchronously happened in trace order; the timers then fire by
    increasing delay, those of equal delay in registration order. *)
Fixpoint insert_timer (d : Z) (r : string) (ts : list (Z * string)) : list (Z * string) :=
  match ts with
  | [] => [(d, r)]
  | (d', r') :: ts' =>
      if Z.ltb d d' then (d, r) :: ts else (d', r') :: insert_timer d r ts'
  end.

Fixpoint timers (t : Trace) (acc : list (Z * string)) : list (Z * string) :=
  match t with
  | [] => acc
  | Schedule d r :: t' => timers t' (insert_timer d r acc)
  | _ :: t' => timers t' acc
  end.

Fixpoint direct_pushes (t : Trace) : list string :=
  match t with
  | [] => []
  | Push r :: t' => r :: direct_pushes t'
  | _ :: t' => direct_pushes t'
  end.

Definition navigations (t : Trace) : list string :=
  (direct_pushes t ++ map snd (timers t []))%list.

(** The routes one mount of the page navigates to. *)
Definition callback_routes (getUser : outcome (option string)) (hash : string)
  : list string :=
  navigations (snd (handleAuthCallback getUser hash [])).

(** ** Lemmas *)

Lemma handle_hash getUser hash :
  hash <> "" -> handleAuthCallback getUser hash [] = (Ok tt, [Schedule 500 "/chat"]).
Proof.
  intros Hh. unfold handleAuthCallback. simpl.
  destruct (String.eqb_spec hash "") as [->|_]; [easy|reflexivity].
Qed.

Lemma handle_no_hash getUser :
  handleAuthCallback getUser "" [] =
  (Ok tt, [Push match getUser with Ok (Some _) => "/chat" | _ => "/auth/login" end]).
Proof. now destruct getUser as [[u|]|e]. Qed.

Local Ltac routes_of H := unfold callback_routes; rewrite H; reflexivity.

(** C33: with a URL fragment the page redirects to [/chat] after 500 ms
    whatever the fragment holds (an error fragment of the provider
    included) and whatever the session is: the handler schedules that
    one timer, never calls [getUser], and its promise resolves. *)
Theorem callback_hash_redirects_chat (getUser : outcome (option string)) (hash : string) :
  hash <> "" ->
  handleAuthCallback getUser hash [] = (Ok tt, [Schedule 500 "/chat"]) /\
  callback_routes getUser hash = ["/chat"].
Proof. intros Hh. split; [now apply handle_hash | routes_of (handle_hash getUser hash Hh)]. Qed.

(** Without a fragment the page goes to [/chat] exactly when the
    provider reports a user, and to [/auth/login] when it reports none
    or when the call fails. *)
Theorem callback_no_hash_routes :
  (forall u, callback_routes (Ok (Some u)) "" = ["/chat"]) /\
  callback_routes (Ok None) "" = ["/auth/login"] /\
  (forall e, callback_routes (Throw e) "" = ["/auth/login"]).
Proof. repeat split; intros; reflexivity. Qed.

(** C13: every mount navigates exactly once, to [/chat] or to
    [/auth/login], and the handler's promise never rejects; the route
    with the error query parameter of line 26 is never produced, as
    [setTimeout] does not throw and the other [catch] pushes the plain
    login route. *)
Theorem callback_never_error_route (getUser : outcome (option string)) (hash : string) :
  fst (handleAuthCallback getUser hash []) = Ok tt /\
  exists r, callback_routes getUser hash = [r] /\
            (r = "/chat" \/ r = "/auth/login") /\ r <> login_error_route.
Proof.
  destruct (String.eqb_spec hash "") as [->|Hh].
  - rewrite handle_no_hash. split; [reflexivity|].
    unfold callback_routes. rewrite handle_no_hash.
    destruct getUser as [[u|]|e]; eexists; split; try reflexivity;
      (split; [first [left; reflexivity | right; reflexivity] | easy]).
  - rewrite (handle_hash getUser hash Hh). split; [reflexivity|].
    exists "/chat". split; [routes_of (handle_hash getUser hash Hh)|]. split; [now left|easy].
Qed.

(** The confirmation link of a provider error lands on [/chat]. *)
Lemma callback_hash_redirects_chat_witness :
  "#error=access_denied&error_description=Email+link+is+invalid" <> "" /\
  callback_routes (Ok None) "#error=access_denied&error_description=Email+link+is+invalid"
  = ["/chat"].
Proof.
  split; [easy|].
  apply (callback_hash_redirects_chat (Ok None)
           "#error=access_denied&error_description=Email+link+is+invalid").
  easy.
Defined.

End Callback.
