(* ===== verification/Pages.v ===== *)
(** * Pages: the two pages in the browser, linked by navigation

    The login page and the callback page never call each other: they
    interact through URLs.  [router.push(r)] leaves the current page (it
    unmounts, and the [setState] calls of its requests still in flight
    are dropped) and mounts the page that Next.js serves at [r]
    ([src/src/app/auth/login/page.tsx] at [/auth/login],
    [src/src/app/auth/callback/page.tsx] at [/auth/callback], the chat
    page, whose source is not among the sources, at [/chat]).  A
    successful [supabase.auth.signUp] makes the identity provider mail a
    confirmation link to the [emailRedirectTo] the page passed, and the
    user may open it later, with the fragment the provider appends.  The
    provider answers a request whatever the page does: the requests of a
    page that was left are kept as orphans, and a sign-up among them
    still mails its link.  An effect that throws unmounts the page, and
    Next.js shows its error screen.

    The module [App] composes [Login.step_event] and
    [Callback.handleAuthCallback] this way: its state is the page at the
    current location with that page's state, the links mailed so far and
    the URLs visited.  It also holds what the two pages render around
    their content: the [Suspense] boundaries of the default exports and
    the callback page's spinner. *)

From stdpp Require Import base list strings relations.
From Stdlib Require Import String Ascii.
From S2P Require Import Prelude LoginPage CallbackPage.
Local Open Scope string_scope.

Module App.
Import Login Callback.

(** ** What the pages render *)

(** A screen: a spinner with its caption, or the login form. *)
Inductive Screen : Type :=
| Spinner (caption : string)
| Form (v : View)
| ClientError.   (** Next.js's screen for an uncaught client-side exception *)

(** [<Suspense fallback={...}>{content}</Suspense>]: the fallback while
    the content suspends. *)
Definition Suspense (suspended : bool) (fallback content : Screen) : Screen :=
  if suspended then fallback else content.

(** The fallback of both default exports: a spinner over "Loading...". *)
Definition loading_fallback : Screen := Spinner "Loading...".

(** [AuthCallbackContent]'s JSX: a spinner over "Verifying your email...",
    whatever its effect does. *)
Definition AuthCallbackContent : Screen := Spinner "Verifying your email...".

(** The default exports.  [LoginContent] calls [useSearchParams], which
    suspends until the URL's parameters are available;
    [AuthCallbackContent] calls no suspending hook. *)
Definition LoginPage (params_ready : bool) (s : LoginState) : Screen :=
  Suspense (negb params_ready) loading_fallback (Form (render s)).

Definition AuthCallbackPage : Screen := Suspense false loading_fallback AuthCallbackContent.

(** ** URLs *)

(** [s] without the prefix [p], if [s] starts with [p]. *)
Fixpoint strip_prefix (p s : string) : option string :=
  match p, s with
  | EmptyString, _ => Some s
  | String a p', String b s' => if Ascii.eqb a b then strip_prefix p' s' else None
  | String _ _, EmptyString => None
  end.

(** [s] cut at the first [c]: the part before it and, if [c] occurs,
    the part after it. *)
Fixpoint split_first (c : ascii) (s : string) : string * option string :=
  match s with
  | EmptyString => (EmptyString, None)
  | String a s' =>
      if Ascii.eqb a c then (EmptyString, Some s')
      else let '(x, r) := split_first c s' in (String a x, r)
  end.

(** [window.location.hash]: [""] when the fragment is missing or empty,
    ["#" ++ fragment] otherwise. *)
Definition location_hash (frag : option string) : string :=
  match frag with
  | Some f => if String.eqb f "" then "" else "#" ++ f
  | None => ""
  end.

(** [URLSearchParams.get(name)] on the entries of a query string: the
    value of the first entry named [name], [""] for an entry without
    [=], [null] when there is none. *)
Fixpoint param_get (name : string) (entries : list string) : option string :=
  match entries with
  | [] => None
  | e :: es =>
      let '(k, v) := split_first "=" e in
      if String.eqb k name then Some (default "" v) else param_get name es
  end.

(** ** The app *)

(** The page at the current location, with its state. *)
Inductive Location : Type :=
| AtLogin (urlError : option string) (s : LoginState)
| AtCallback (hash : string)
| AtChat
| Crashed                 (** the page threw in an effect and was unmounted *)
| NotFound (url : string).

(** The page Next.js serves at a site-relative URL: the path before
    [?] and [#] selects the page; the login page gets its [error]
    parameter, the callback page its [window.location.hash]. *)
Definition route_of (url : string) : Location :=
  let '(before_hash, frag) := split_first "#" url in
  let '(path, query) := split_first "?" before_hash in
  if String.eqb path "/chat" then AtChat
  else if String.eqb path "/auth/login" then
    AtLogin (param_get "error" (split_on "&" (default "" query))) init
  else if String.eqb path "/auth/callback" then AtCallback (location_hash frag)
  else NotFound url.

Record AppState : Type := {
  loc : Location;
  inbox : list string;     (** the confirmation links mailed so far *)
  history : list string;   (** the URLs visited, the first one included *)
  orphans : list Task      (** requests of a page that was left, still in flight *)
}.

(** The user opens the app at [url]. *)
Definition app_init (url : string) : AppState :=
  {| loc := route_of url; inbox := []; history := [url]; orphans := [] |}.

Definition navigate (url : string) (a : AppState) : AppState :=
  {| loc := route_of url; inbox := inbox a; history := history a ++ [url]; orphans := orphans a |}.

Inductive AppEvent : Type :=
| PageEvent (ev : Event)                       (** an event of the login page *)
| CallbackEffect (getUser : Runtime.outcome (option string))
    (** the callback page's effect runs, its timers fire *)
| OpenLink (i : nat) (frag : string)           (** the [i]-th mailed link, with the provider's fragment *)
| OrphanSettles (i : nat) (answer : AuthAnswer).
    (** the provider answers the [i]-th request of a page that was left *)

(** The link the provider mails when it answers a request: the
    [emailRedirectTo] of a sign-up that returns a user. *)
Definition signup_mail (t : Task) (answer : AuthAnswer) : list string :=
  match t, answer with
  | SignUp _ _ redirect, AuthData (Some _) => [redirect]
  | _, _ => []
  end.

(** The links a settle event of the login page makes the provider mail. *)
Definition mailed (ev : Event) (s : LoginState) : list string :=
  match ev, settle is_signup s with
  | SettleSignUp answer, Some (t, _) => signup_mail t answer
  | _, _ => []
  end.

(** The app after an event of the login page: the page stays, or, when
    its handler called [router.push], the app leaves for the route and
    the page's requests still in flight are orphaned: the provider still
    answers them, and nothing on the page sees the answer. *)
Definition login_after (urlError : option string) (s s' : LoginState) (ev : Event)
    (a : AppState) : AppState :=
  let inbox' := (inbox a ++ mailed ev s)%list in
  match drop (List.length (pushes s)) (pushes s') with
  | r :: _ =>
      navigate r {| loc := AtLogin urlError s'; inbox := inbox'; history := history a;
                    orphans := (orphans a ++ pending s')%list |}
  | [] => {| loc := AtLogin urlError s'; inbox := inbox'; history := history a; orphans := orphans a |}
  end.

(** An effect of the page threw: React unmounts the tree and Next.js
    shows its error screen; requests in flight are orphaned. *)
Definition crash (s : LoginState) (a : AppState) : AppState :=
  {| loc := Crashed; inbox := inbox a; history := history a; orphans := (orphans a ++ pending s)%list |}.

(** The login page's events.  [Mount] reads the URL's parameter; when
    its effect throws ([decodeURIComponent] of a malformed parameter)
    the page crashes. *)
Definition login_event `{BR : Browser} (urlError : option string) (s : LoginState) (ev : Event)
  (a : AppState) : option AppState :=
  match ev with
  | Mount e =>
      if decide (e = urlError) then
        match step_event s ev with
        | Some s' => Some (login_after urlError s s' ev a)
        | None => if mounted s then None else Some (crash s a)
        end
      else None
  | _ => option_map (fun s' => login_after urlError s s' ev a) (step_event s ev)
  end.

(** One step of the app, an event of the page at the current location
    or the opening of a mailed link, which leaves any page. *)
Definition app_step `{BR : Browser} (a : AppState) (e : AppEvent) : option AppState :=
  match e, loc a with
  | PageEvent ev, AtLogin err s => login_event err s ev a
  | CallbackEffect g, AtCallback h =>
      match callback_routes g h with
      | r :: _ => Some (navigate r a)
      | [] => None
      end
  | OpenLink i frag, _ =>
      inbox a !! i ≫= fun link =>
      strip_prefix origin (link ++ "#" ++ frag) ≫= fun url => Some (navigate url a)
  | OrphanSettles i answer, _ =>
      option_map (fun t => {| loc := loc a; inbox := (inbox a ++ signup_mail t answer)%list;
                              history := history a; orphans := delete i (orphans a) |})
                 (orphans a !! i)
  | _, _ => None
  end.

Inductive app_reachable `{BR : Browser} (start : string) : AppState -> Prop :=
| app_reachable_init : app_reachable start (app_init start)
| app_reachable_step a a' e :
    app_reachable start a -> app_step a e = Some a' -> app_reachable start a'.

(** The URLs the app's own navigation may lead to. *)
Definition app_url (url : string) : Prop :=
  url = "/chat" \/ url = "/auth/login" \/ exists frag, url = "/auth/callback#" ++ frag.

Definition served (l : Location) : bool :=
  match l with NotFound _ => false | _ => true end.

(** What the user sees at a location of the two pages, once the URL's
    parameters are available; the chat page is not among the sources. *)
Definition app_screen (l : Location) : option Screen :=
  match l with
  | AtLogin _ s => Some (LoginPage true s)
  | AtCallback _ => Some AuthCallbackPage
  | Crashed => Some ClientError
  | _ => None
  end.

(** A request in flight whose [emailRedirectTo] is the callback page of
    this origin, if it is a sign-up. *)
Definition good_task `{BR : Browser} (t : Task) : Prop :=
  match t with SignUp _ _ r => r = origin ++ "/auth/callback" | _ => True end.

(** The invariant of the linked pages. *)
Definition app_inv `{BR : Browser} (start : string) (a : AppState) : Prop :=
  (exists rest, history a = start :: rest /\ Forall app_url rest /\
                (rest <> [] -> served (loc a) = true) /\
                (forall e s, loc a = AtLogin (Some e) s -> rest = [])) /\
  Forall (fun l => l = origin ++ "/auth/callback") (inbox a) /\
  (forall err s, loc a = AtLogin err s -> Forall good_task (pending s)) /\
  Forall good_task (orphans a).

(** A run of the app from a state, [None] when an event does not apply. *)
Fixpoint app_run `{BR : Browser} (a : AppState) (es : list AppEvent) : option AppState :=
  match es with
  | [] => Some a
  | e :: es' => app_step a e ≫= fun a' => app_run a' es'
  end.

(** ** Lemmas *)

Lemma strip_prefix_app (p s : string) : strip_prefix p (p ++ s) = Some s.
Proof. induction p as [|a p IH]; simpl; [reflexivity|]. now rewrite Ascii.eqb_refl. Qed.

Lemma route_of_app_url (url : string) :
  app_url url -> served (route_of url) = true.
Proof. intros [-> | [-> | [frag ->]]]; reflexivity. Qed.

Lemma route_of_login (url : string) (err : option string) (s : LoginState) :
  route_of url = AtLogin err s -> s = init.
Proof.
  unfold route_of. destruct (split_first "#" url) as [b f]. destruct (split_first "?" b) as [p q].
  destruct (String.eqb p "/chat"); [discriminate|].
  destruct (String.eqb p "/auth/login"); [congruence|].
  destruct (String.eqb p "/auth/callback"); discriminate.
Qed.

Lemma app_url_login (url : string) (err : option string) (s : LoginState) :
  app_url url -> route_of url = AtLogin err s -> err = None.
Proof. intros [-> | [-> | [frag ->]]]; cbn; intros H; inversion H; reflexivity. Qed.

Lemma take_first_elem (p : Task -> bool) (l rest : list Task) (t : Task) :
  take_first p l = Some (t, rest) -> t ∈ l /\ (forall x, x ∈ rest -> x ∈ l).
Proof.
  revert rest. induction l as [|y l IH]; intros rest H; simpl in H; [discriminate|].
  destruct (p y); [injection H as <- <-; split; [left | intros; now right]|].
  destruct (take_first p l) as [[t' rest']|] eqn:E; [|discriminate].
  injection H as <- <-. destruct (IH rest' eq_refl) as [Ht Hr].
  split; [now right|]. intros x [-> | Hx]%elem_of_cons; [left | right; auto].
Qed.

(** The tasks a settle event leaves in flight were in flight before. *)
Lemma settle_pending_elem (p : Task -> bool) (s s1 : LoginState) (t : Task) :
  settle p s = Some (t, s1) -> t ∈ pending s /\ (forall x, x ∈ pending s1 -> x ∈ pending s).
Proof.
  intros Es. destruct (settle_shape _ _ _ _ Es) as (rest & -> & Ht). exact (take_first_elem _ _ _ _ Ht).
Qed.

(** Every event of the login page starts only requests whose sign-up
    redirect is the callback page. *)
Lemma step_event_good_tasks `{BR : Browser} (s s' : LoginState) (ev : Event) :
  step_event s ev = Some s' -> Forall good_task (pending s) -> Forall good_task (pending s').
Proof.
  rewrite !Forall_forall. intros Hstep Hg.
  destruct ev as [e| x | x | | | a | a | a]; simpl in Hstep.
  - unfold mount in Hstep. destruct (mounted s); [discriminate|].
    destruct e as [e|]; [destruct (String.eqb e ""); [|destruct (decodeURIComponent e)]|];
      simpl in Hstep; try discriminate; injection Hstep as <-;
      intros t [Ht | ->%list_elem_of_singleton]%elem_of_app; first [exact I | auto].
  - injection Hstep as <-. exact Hg.
  - injection Hstep as <-. exact Hg.
  - destruct (negb (loading s) && form_valid s); [|discriminate]. injection Hstep as <-.
    unfold handleSubmit, handleSignUp, handleLogin.
    destruct (isSignUp s); intros t [Ht | ->%list_elem_of_singleton]%elem_of_app; auto; reflexivity.
  - injection Hstep as <-. exact Hg.
  - destruct (settle is_check s) as [[t s1]|] eqn:Es; [|discriminate]. injection Hstep as <-.
    destruct (settle_pending_elem _ _ _ _ Es) as [_ Hp].
    intros x Hx. apply Hg, Hp. destruct a as [[u|]|]; exact Hx.
  - destruct (settle is_signin s) as [[t s1]|] eqn:Es; [|discriminate]. injection Hstep as <-.
    destruct (settle_pending_elem _ _ _ _ Es) as [_ Hp].
    intros x Hx. apply Hg, Hp. destruct a as [|[u|]|]; exact Hx.
  - destruct (settle is_signup s) as [[t s1]|] eqn:Es; [|discriminate]. injection Hstep as <-.
    destruct (settle_pending_elem _ _ _ _ Es) as [_ Hp].
    intros x Hx. apply Hg, Hp. destruct a as [|[u|]|]; exact Hx.
Qed.

(** A mailed link is the redirect of a request the app started. *)
Lemma signup_mail_good `{BR : Browser} (t : Task) (answer : AuthAnswer) :
  good_task t -> Forall (fun l => l = origin ++ "/auth/callback") (signup_mail t answer).
Proof.
  destruct t as [| |e p r]; [constructor | constructor |].
  intros Hr. destruct answer as [|[u|]|]; repeat constructor; exact Hr.
Qed.

Lemma mailed_good `{BR : Browser} (ev : Event) (s : LoginState) :
  Forall good_task (pending s) -> Forall (fun l => l = origin ++ "/auth/callback") (mailed ev s).
Proof.
  intros Hg. destruct ev as [| | | | | | |answer]; try constructor. unfold mailed.
  destruct (settle is_signup s) as [[t s1]|] eqn:Es; [|constructor].
  destruct (settle_pending_elem _ _ _ _ Es) as [Ht _].
  apply signup_mail_good. rewrite Forall_forall in Hg. exact (Hg _ Ht).
Qed.

(** The login page navigates only to [/chat]. *)
Lemma login_new_pushes `{BR : Browser} (s s' : LoginState) (ev : Event) :
  step_event s ev = Some s' -> Forall (fun r => r = "/chat") (drop (List.length (pushes s)) (pushes s')).
Proof.
  intros Hstep. destruct (step_event_pushes _ _ _ Hstep) as [-> | ->];
    rewrite ?drop_app_length, ?drop_all; repeat constructor.
Qed.

(** The callback page navigates once, to [/chat] or [/auth/login]. *)
Lemma callback_routes_cases (getUser : Runtime.outcome (option string)) (hash : string) :
  callback_routes getUser hash = ["/chat"] \/ callback_routes getUser hash = ["/auth/login"].
Proof.
  unfold callback_routes. destruct (String.eqb_spec hash "") as [->|Hh].
  - rewrite handle_no_hash. destruct getUser as [[u|]|e]; [left|right|right]; reflexivity.
  - rewrite (handle_hash getUser hash Hh). now left.
Qed.

Lemma navigate_inv `{BR : Browser} (start : string) (a : AppState) (url : string) :
  app_inv start a -> app_url url -> app_inv start (navigate url a).
Proof.
  intros ((rest & Hh & Hf & _ & _) & Hi & _ & Ho) Hu. split; [|split; [|split]].
  - exists (rest ++ [url])%list. cbn. rewrite Hh. split; [reflexivity|].
    split; [apply Forall_app; auto|]. split; [intros _; now apply route_of_app_url|].
    intros e s Hl. discriminate (app_url_login url _ s Hu Hl).
  - exact Hi.
  - intros err s Hl. rewrite (route_of_login url err s Hl). constructor.
  - exact Ho.
Qed.

(** Opening a mailed link leads to the callback page with the fragment. *)
Lemma open_link_step `{BR : Browser} (start : string) (a : AppState) (i : nat) (link frag : string) :
  app_inv start a -> inbox a !! i = Some link ->
  app_step a (OpenLink i frag) = Some (navigate ("/auth/callback#" ++ frag) a).
Proof.
  intros (_ & Hi & _) Hl. cbn. rewrite Hl. cbn.
  rewrite (Forall_lookup_1 _ _ _ _ Hi Hl), <- append_assoc, strip_prefix_app. reflexivity.
Qed.

(** The login page at [err] with the state [s'] an event of [s] gives. *)
Lemma login_record_inv `{BR : Browser} (start : string) (a : AppState) (err : option string)
    (s s' : LoginState) (ev : Event) (o : list Task) :
  app_inv start a -> loc a = AtLogin err s -> step_event s ev = Some s' -> Forall good_task o ->
  app_inv start {| loc := AtLogin err s'; inbox := inbox a ++ mailed ev s; history := history a;
                   orphans := o |}.
Proof.
  intros ((rest & Hh & Hf & _ & He) & Hi & Hg & _) Eloc E Ho. split; [|split; [|split]].
  - exists rest. split; [exact Hh|]. split; [exact Hf|]. split; [reflexivity|].
    intros e s1 Hl. injection Hl as -> _. exact (He e s Eloc).
  - apply Forall_app. split; [exact Hi | apply mailed_good, (Hg err s Eloc)].
  - intros err' s1 Hl. injection Hl as <- <-. exact (step_event_good_tasks _ _ _ E (Hg err s Eloc)).
  - exact Ho.
Qed.

Lemma login_after_inv `{BR : Browser} (start : string) (a : AppState) (err : option string)
    (s s' : LoginState) (ev : Event) :
  app_inv start a -> loc a = AtLogin err s -> step_event s ev = Some s' ->
  app_inv start (login_after err s s' ev a).
Proof.
  intros Hinv Eloc E. pose proof Hinv as (_ & _ & Hg & Ho).
  pose proof (step_event_good_tasks _ _ _ E (Hg err s Eloc)) as Hg'.
  pose proof (login_new_pushes _ _ _ E) as Hp. unfold login_after.
  destruct (drop _ (pushes s')) as [|r rs].
  - exact (login_record_inv start a err s s' ev _ Hinv Eloc E Ho).
  - apply navigate_inv.
    + apply (login_record_inv start a err s s' ev); try assumption. apply Forall_app. split; assumption.
    + inversion Hp; subst. now left.
Qed.

Lemma crash_inv `{BR : Browser} (start : string) (a : AppState) (err : option string) (s : LoginState) :
  app_inv start a -> loc a = AtLogin err s -> app_inv start (crash s a).
Proof.
  intros ((rest & Hh & Hf & _ & _) & Hi & Hg & Ho) Eloc. split; [|split; [|split]].
  - exists rest. split; [exact Hh|]. split; [exact Hf|]. split; [reflexivity|].
    intros e s1 Hl. discriminate.
  - exact Hi.
  - intros err' s1 Hl. discriminate.
  - apply Forall_app. split; [exact Ho | exact (Hg err s Eloc)].
Qed.

Lemma orphan_inv `{BR : Browser} (start : string) (a : AppState) (i : nat) (t : Task)
    (answer : AuthAnswer) :
  app_inv start a -> orphans a !! i = Some t ->
  app_inv start {| loc := loc a; inbox := inbox a ++ signup_mail t answer; history := history a;
                   orphans := delete i (orphans a) |}.
Proof.
  intros (Hh & Hi & Hg & Ho) Ht. split; [exact Hh|]. split; [|split; [exact Hg|]].
  - apply Forall_app. split; [exact Hi|]. apply signup_mail_good. exact (Forall_lookup_1 _ _ _ _ Ho Ht).
  - apply Forall_delete. exact Ho.
Qed.

(** An event of the login page leaves the page in the state the event
    gives, or crashes it. *)
Lemma login_event_cases `{BR : Browser} (err : option string) (s : LoginState) (ev : Event)
    (a a' : AppState) :
  login_event err s ev a = Some a' ->
  (exists s', step_event s ev = Some s' /\ a' = login_after err s s' ev a) \/ a' = crash s a.
Proof.
  unfold login_event. revert a'.
  destruct (step_event s ev) as [s'|] eqn:E; intros a' H.
  - left. exists s'. split; [reflexivity|].
    destruct ev; try destruct (decide _); cbn in H; congruence.
  - right. destruct ev; try destruct (decide _); try destruct (mounted s); cbn in H; congruence.
Qed.



Lemma app_step_inv `{BR : Browser} (start : string) (a a' : AppState) (e : AppEvent) :
  app_inv start a -> app_step a e = Some a' -> app_inv start a'.
Proof.
  intros Hinv Hstep. destruct e as [ev | g | i frag | i answer].
  - cbn in Hstep. destruct (loc a) as [err s| | | |] eqn:Eloc; try discriminate.
    destruct (login_event_cases err s ev a a' Hstep) as [(s' & E & ->) | ->];
      [exact (login_after_inv start a err s s' ev Hinv Eloc E) | exact (crash_inv start a err s Hinv Eloc)].
  - cbn in Hstep. destruct (loc a); try discriminate.
    destruct (callback_routes_cases g hash) as [Hr|Hr]; rewrite Hr in Hstep; injection Hstep as <-;
      apply navigate_inv; [exact Hinv | now left | exact Hinv | right; now left].
  - destruct (inbox a !! i) as [link|] eqn:El; [|cbn in Hstep; rewrite El in Hstep; discriminate].
    rewrite (open_link_step start a i link frag Hinv El) in Hstep. injection Hstep as <-.
    apply navigate_inv; [exact Hinv|]. right; right. now exists frag.
  - cbn in Hstep. destruct (orphans a !! i) as [t|] eqn:Ht; cbn in Hstep; [|discriminate].
    injection Hstep as <-. exact (orphan_inv start a i t answer Hinv Ht).
Qed.

Lemma app_init_inv `{BR : Browser} (start : string) : app_inv start (app_init start).
Proof.
  split; [|split; [constructor|split; [|constructor]]].
  - exists []. split; [reflexivity|]. split; [constructor|]. split; [done|]. intros e s _. reflexivity.
  - intros err s Hl. cbn in Hl. rewrite (route_of_login start err s Hl). constructor.
Qed.

(** Rule induction on [app_reachable]. *)
Lemma app_reachable_inv `{BR : Browser} (start : string) (a : AppState) :
  app_reachable start a -> app_inv start a.
Proof.
  induction 1 as [|a a' e _ IH Hstep]; [apply app_init_inv | exact (app_step_inv start a a' e IH Hstep)].
Qed.

Lemma app_run_reachable `{BR : Browser} (start : string) (a a' : AppState) (es : list AppEvent) :
  app_reachable start a -> app_run a es = Some a' -> app_reachable start a'.
Proof.
  revert a. induction es as [|e es IH]; intros a Hr H; cbn in H; [now injection H as <-|].
  destruct (app_step a e) as [a1|] eqn:E; [|discriminate]. apply (IH a1); [econstructor; eauto | exact H].
Qed.

(** C14: the pages navigate only inside the app.  From any URL the
    user opens, every URL the app's own navigation leads to is [/chat],
    [/auth/login] without parameters, or the callback page with a
    fragment.  The navigations are the [router.push] calls of both pages
    and the confirmation links the provider mails.  After the first
    navigation the app is at a page it serves, and every mailed link is
    this origin's [/auth/callback], also when the sign-up was still in
    flight as the page was left or crashed.  The login page holds a URL [error]
    parameter only while the user is still at the URL they opened: no
    page of the app sends the user to the login page with an error. *)
Theorem app_navigation_served `{BR : Browser} (start : string) (a : AppState) :
  app_reachable start a ->
  exists rest, history a = start :: rest /\
    Forall (fun url => url = "/chat" \/ url = "/auth/login" \/
                       exists frag, url = "/auth/callback#" ++ frag) rest /\
    (rest <> [] -> served (loc a) = true) /\
    (forall e s, loc a = AtLogin (Some e) s -> rest = []) /\
    Forall (fun l => l = origin ++ "/auth/callback") (inbox a).
Proof.
  intros Hr. destruct (app_reachable_inv start a Hr) as ((rest & Hh & Hf & Hs & He) & Hi & _).
  exists rest. repeat split; assumption.
Qed.

(** C15: the sign-up confirmation flow.  In every reachable state of
    the app, opening a mailed confirmation link with a non-empty
    fragment shows the callback page's "Verifying your email..."
    spinner.  When the page's effect runs, whatever [getUser] answers
    and whatever the fragment holds, an error fragment of the provider
    included, it goes on to [/chat]. *)
Theorem confirmation_link_reaches_chat `{BR : Browser} (start : string) (a : AppState) (i : nat)
    (link frag : string) (getUser : Runtime.outcome (option string)) :
  app_reachable start a -> inbox a !! i = Some link -> frag <> "" ->
  exists a1 a2,
    app_step a (OpenLink i frag) = Some a1 /\ loc a1 = AtCallback ("#" ++ frag) /\
    app_screen (loc a1) = Some (Spinner "Verifying your email...") /\
    app_step a1 (CallbackEffect getUser) = Some a2 /\ loc a2 = AtChat /\
    history a2 = (history a ++ [("/auth/callback#" ++ frag)%string; "/chat"])%list.
Proof.
  intros Hr Hl Hf. rewrite (open_link_step start a i link frag (app_reachable_inv start a Hr) Hl).
  assert (Hloc : route_of ("/auth/callback#" ++ frag) = AtCallback ("#" ++ frag))
    by (unfold route_of; simpl; change ("" ++ frag) with frag; now destruct (String.eqb_spec frag "")).
  eexists _, _. split; [reflexivity|]. cbn [loc navigate]. rewrite Hloc.
  split; [reflexivity|]. split; [reflexivity|]. cbn [app_step loc navigate]. rewrite Hloc.
  unfold callback_routes. rewrite (handle_hash getUser ("#" ++ frag) ltac:(discriminate)).
  split; [reflexivity|]. split; [reflexivity|]. cbn. now rewrite <- app_assoc.
Qed.

(** C16: a login URL whose [error] parameter [decodeURIComponent]
    rejects, such as [/auth/login?error=100%] (a [%] that
    [URLSearchParams] left as it was), crashes the login page on mount:
    the effect throws before the session check starts, and the user sees
    Next.js's error screen instead of the form.  No request was started,
    nothing was navigated to, and no event of the page applies any more. *)
Theorem malformed_error_param_crashes `{BR : Browser} (start e : string) :
  route_of start = AtLogin (Some e) init -> e <> "" -> decodeURIComponent e = None ->
  exists a', app_step (app_init start) (PageEvent (Mount (Some e))) = Some a' /\
    loc a' = Crashed /\ app_screen (loc a') = Some ClientError /\
    history a' = [start] /\ orphans a' = [] /\
    (forall ev, app_step a' (PageEvent ev) = None).
Proof.
  intros Hr He Hd. cbn [app_step app_init loc]. rewrite Hr. unfold login_event.
  rewrite decide_True by reflexivity.
  assert (Hm : step_event init (Mount (Some e)) = None).
  { cbn. apply String.eqb_neq in He. now rewrite He, Hd. }
  rewrite Hm. eexists. split; [reflexivity|]. repeat split.
Qed.

(** ** A concrete run for the witnesses *)

(** Open the login page, sign up: the provider mails the link. *)
Definition signup_events : list AppEvent :=
  [PageEvent (Mount None); PageEvent (SettleCheckUser (UserFound None)); PageEvent ToggleMode;
   PageEvent (TypeEmail "user@example.com"); PageEvent (TypePassword "secret1"); PageEvent Submit;
   PageEvent (SettleSignUp (AuthData (Some "u1")))].

Definition demo_app : AppState :=
  default (app_init "/auth/login") (@app_run demo_browser (app_init "/auth/login") signup_events).

Lemma demo_app_reachable : @app_reachable demo_browser "/auth/login" demo_app.
Proof. apply (app_run_reachable _ (app_init "/auth/login") _ signup_events); [constructor | vm_compute; reflexivity]. Qed.

Lemma app_navigation_served_witness :
  inbox demo_app = ["http://localhost:3000/auth/callback"] /\
  exists rest, history demo_app = "/auth/login" :: rest /\
    Forall (fun url => url = "/chat" \/ url = "/auth/login" \/
                       exists frag, url = "/auth/callback#" ++ frag) rest /\
    (rest <> [] -> served (loc demo_app) = true) /\
    (forall e s, loc demo_app = AtLogin (Some e) s -> rest = []) /\
    Forall (fun l => l = @origin demo_browser ++ "/auth/callback") (inbox demo_app).
Proof.
  split; [vm_compute; reflexivity|]. exact (@app_navigation_served demo_browser "/auth/login" demo_app demo_app_reachable).
Defined.

Lemma confirmation_link_reaches_chat_witness :
  inbox demo_app !! 0 = Some "http://localhost:3000/auth/callback" /\ "access_token=t" <> "" /\
  exists a1 a2,
    @app_step demo_browser demo_app (OpenLink 0 "access_token=t") = Some a1 /\
    loc a1 = AtCallback ("#" ++ "access_token=t") /\
    app_screen (loc a1) = Some (Spinner "Verifying your email...") /\
    @app_step demo_browser a1 (CallbackEffect (Runtime.Ok None)) = Some a2 /\ loc a2 = AtChat /\
    history a2 = (history demo_app ++ [("/auth/callback#" ++ "access_token=t")%string; "/chat"])%list.
Proof.
  assert (Hl : inbox demo_app !! 0 = Some "http://localhost:3000/auth/callback")
    by (vm_compute; reflexivity).
  split; [exact Hl|]. split; [discriminate|].
  exact (@confirmation_link_reaches_chat demo_browser "/auth/login" demo_app 0
           "http://localhost:3000/auth/callback" "access_token=t" (Runtime.Ok None)
           demo_app_reachable Hl ltac:(discriminate)).
Defined.

(** A browser whose [decodeURIComponent] throws on a [%] that does not
    start an escape, as JavaScript's does. *)
Definition strict_browser : Browser := {|
  decodeURIComponent := fun e => if has_char "%" e then None else Some e;
  email_valid := fun _ => true;
  origin := "http://localhost:3000" |}.

Lemma malformed_error_param_crashes_witness :
  route_of "/auth/login?error=100%" = AtLogin (Some "100%") init /\
  exists a', @app_step strict_browser (app_init "/auth/login?error=100%") (PageEvent (Mount (Some "100%"))) = Some a' /\
    loc a' = Crashed /\ app_screen (loc a') = Some ClientError /\
    history a' = ["/auth/login?error=100%"] /\ orphans a' = [] /\
    (forall ev, @app_step strict_browser a' (PageEvent ev) = None).
Proof.
  assert (Hr : route_of "/auth/login?error=100%" = AtLogin (Some "100%") init) by (vm_compute; reflexivity).
  split; [exact Hr|].
  apply (@malformed_error_param_crashes strict_browser "/auth/login?error=100%" "100%" Hr);
    [discriminate | vm_compute; reflexivity].
Defined.

End App.
